(** * TickTick to Todoist converter: a shallow embedding of converter.py

    The development follows [src/ticktick_to_todoist/converter.py].
    Python values are modelled as the code uses them:
    - a [str] is a list of Unicode code points ([N]);
    - a CSV row is a list of [str];
    - a [dict] is an association list in insertion order;
    - a [Path] is its [str()] on a POSIX system;
    - the properties of characters that the [str] methods consult are the
      tables of CPython 3.11 (Unicode 14.0.0);
    - an exception is a value of [exn], threaded through a small
      error monad; console output and file-system effects are collected
      in a trace of [event]s. *)

From Stdlib Require Import String Ascii.
From Stdlib Require Import DecimalString.
From Stdlib Require Import List NArith ZArith Lia Bool Arith.
Import ListNotations.

(* ================================================================== *)
(** * Python built-ins used by the converter *)
(* ================================================================== *)

Module Py.

(** A Python [str] is a sequence of code points. *)
Definition char := N.
Definition str := list char.

(** ASCII literals of the source are written [lit "..."]. *)
Definition lit (s : string) : str := map N_of_ascii (list_ascii_of_string s).

Definition str_eq_dec : forall a b : str, {a = b} + {a <> b} :=
  list_eq_dec N.eq_dec.

Definition str_eqb (a b : str) : bool :=
  if str_eq_dec a b then true else false.

(** Truthiness of a [str]: the empty string is falsy. *)
Definition truthy (s : str) : bool :=
  match s with [] => false | _ :: _ => true end.

Open Scope N_scope.

(** [str.isspace] on one code point: the white space of CPython's Unicode
    database, which [str.strip()] and [str.split()] use. *)
Definition isspace (c : char) : bool :=
  ((9 <=? c) && (c <=? 13)) || ((28 <=? c) && (c <=? 32))
  || (c =? 0x85) || (c =? 0xa0) || (c =? 0x1680)
  || ((0x2000 <=? c) && (c <=? 0x200a))
  || (c =? 0x2028) || (c =? 0x2029) || (c =? 0x202f)
  || (c =? 0x205f) || (c =? 0x3000).

Close Scope N_scope.

(** [c in chars] for a one-character [c]. *)
Definition char_in (chars : str) (c : char) : bool := existsb (N.eqb c) chars.

(** [str.strip]: drop the leading and the trailing characters that satisfy
    [p]. *)
Fixpoint lstrip_by (p : char -> bool) (s : str) : str :=
  match s with
  | [] => []
  | c :: s' => if p c then lstrip_by p s' else s
  end.

Definition rstrip_by (p : char -> bool) (s : str) : str :=
  rev (lstrip_by p (rev s)).

Definition strip_by (p : char -> bool) (s : str) : str :=
  rstrip_by p (lstrip_by p s).

(** [s.strip()] *)
Definition strip (s : str) : str := strip_by isspace s.

(** [s.strip(chars)] *)
Definition strip_chars (chars : str) (s : str) : str :=
  strip_by (char_in chars) s.

(** [s.startswith(old)] *)
Fixpoint startswith (old s : str) : bool :=
  match old, s with
  | [], _ => true
  | _ :: _, [] => false
  | a :: old', b :: s' => N.eqb a b && startswith old' s'
  end.

(** [old in s] *)
Fixpoint contains (old s : str) : bool :=
  startswith old s ||
  match s with
  | [] => false
  | _ :: s' => contains old s'
  end.

(** [s.replace(old, new)] for a non-empty [old]: the occurrences of [old]
    are found from left to right and do not overlap.  [skip] counts the
    characters of a match that are still to be dropped. *)
Fixpoint replace_from (old new : str) (skip : nat) (s : str) : str :=
  match s with
  | [] => []
  | c :: s' =>
      match skip with
      | S k => replace_from old new k s'
      | O =>
          if startswith old s
          then new ++ replace_from old new (length old - 1) s'
          else c :: replace_from old new 0 s'
      end
  end.

(** With an empty [old], Python puts [new] before every character and at
    the end. *)
Fixpoint intersperse_all (new s : str) : str :=
  match s with
  | [] => new
  | c :: s' => new ++ c :: intersperse_all new s'
  end.

Definition replace (old new s : str) : str :=
  match old with
  | [] => intersperse_all new s
  | _ :: _ => replace_from old new 0 s
  end.

(** [s.split()]: the maximal runs of characters that are not white space.
    [cur] is the run being read. *)
Fixpoint split_go (cur : str) (s : str) : list str :=
  match s with
  | [] => match cur with [] => [] | _ :: _ => [cur] end
  | c :: s' =>
      if isspace c
      then match cur with
           | [] => split_go [] s'
           | _ :: _ => cur :: split_go [] s'
           end
      else split_go (cur ++ [c]) s'
  end.

Definition split (s : str) : list str := split_go [] s.

(** [sep.join(ws)] *)
Fixpoint join (sep : str) (ws : list str) : str :=
  match ws with
  | [] => []
  | w :: ws' =>
      match ws' with
      | [] => w
      | _ :: _ => w ++ sep ++ join sep ws'
      end
  end.

(** [s.split(sep)] for a one-character separator: every occurrence of [sep]
    ends a field, and empty fields are kept.  [cur] is the field being
    read. *)
Fixpoint split_on_go (sep : char) (cur : str) (s : str) : list str :=
  match s with
  | [] => [cur]
  | c :: s' =>
      if N.eqb c sep then cur :: split_on_go sep [] s'
      else split_on_go sep (cur ++ [c]) s'
  end.

Definition split_on (sep : char) (s : str) : list str := split_on_go sep [] s.

Open Scope N_scope.

Definition in_range (lo hi c : N) : bool := (lo <=? c) && (c <=? hi).

(** ** The Unicode database

    The tables are those of CPython 3.11 (Unicode 14.0.0).  A table of
    ranges lists pairs [(first, last)] of code points, both included. *)
Definition in_ranges (table : list (N * N)) (c : N) : bool :=
  existsb (fun r => in_range (fst r) (snd r) c) table.

(** The code points on which [str.isalnum] holds. *)
Definition ALNUM : list (N * N) :=
  [ (0x30, 0x39); (0x41, 0x5a); (0x61, 0x7a); (0xaa, 0xaa); (0xb2, 0xb3);
    (0xb5, 0xb5); (0xb9, 0xba); (0xbc, 0xbe); (0xc0, 0xd6); (0xd8, 0xf6);
    (0xf8, 0x2c1); (0x2c6, 0x2d1); (0x2e0, 0x2e4); (0x2ec, 0x2ec); (0x2ee, 0x2ee);
    (0x370, 0x374); (0x376, 0x377); (0x37a, 0x37d); (0x37f, 0x37f); (0x386, 0x386);
    (0x388, 0x38a); (0x38c, 0x38c); (0x38e, 0x3a1); (0x3a3, 0x3f5); (0x3f7, 0x481);
    (0x48a, 0x52f); (0x531, 0x556); (0x559, 0x559); (0x560, 0x588); (0x5d0, 0x5ea);
    (0x5ef, 0x5f2); (0x620, 0x64a); (0x660, 0x669); (0x66e, 0x66f); (0x671, 0x6d3);
    (0x6d5, 0x6d5); (0x6e5, 0x6e6); (0x6ee, 0x6fc); (0x6ff, 0x6ff); (0x710, 0x710);
    (0x712, 0x72f); (0x74d, 0x7a5); (0x7b1, 0x7b1); (0x7c0, 0x7ea); (0x7f4, 0x7f5);
    (0x7fa, 0x7fa); (0x800, 0x815); (0x81a, 0x81a); (0x824, 0x824); (0x828, 0x828);
    (0x840, 0x858); (0x860, 0x86a); (0x870, 0x887); (0x889, 0x88e); (0x8a0, 0x8c9);
    (0x904, 0x939); (0x93d, 0x93d); (0x950, 0x950); (0x958, 0x961); (0x966, 0x96f);
    (0x971, 0x980); (0x985, 0x98c); (0x98f, 0x990); (0x993, 0x9a8); (0x9aa, 0x9b0);
    (0x9b2, 0x9b2); (0x9b6, 0x9b9); (0x9bd, 0x9bd); (0x9ce, 0x9ce); (0x9dc, 0x9dd);
    (0x9df, 0x9e1); (0x9e6, 0x9f1); (0x9f4, 0x9f9); (0x9fc, 0x9fc); (0xa05, 0xa0a);
    (0xa0f, 0xa10); (0xa13, 0xa28); (0xa2a, 0xa30); (0xa32, 0xa33); (0xa35, 0xa36);
    (0xa38, 0xa39); (0xa59, 0xa5c); (0xa5e, 0xa5e); (0xa66, 0xa6f); (0xa72, 0xa74);
    (0xa85, 0xa8d); (0xa8f, 0xa91); (0xa93, 0xaa8); (0xaaa, 0xab0); (0xab2, 0xab3);
    (0xab5, 0xab9); (0xabd, 0xabd); (0xad0, 0xad0); (0xae0, 0xae1); (0xae6, 0xaef);
    (0xaf9, 0xaf9); (0xb05, 0xb0c); (0xb0f, 0xb10); (0xb13, 0xb28); (0xb2a, 0xb30);
    (0xb32, 0xb33); (0xb35, 0xb39); (0xb3d, 0xb3d); (0xb5c, 0xb5d); (0xb5f, 0xb61);
    (0xb66, 0xb6f); (0xb71, 0xb77); (0xb83, 0xb83); (0xb85, 0xb8a); (0xb8e, 0xb90);
    (0xb92, 0xb95); (0xb99, 0xb9a); (0xb9c, 0xb9c); (0xb9e, 0xb9f); (0xba3, 0xba4);
    (0xba8, 0xbaa); (0xbae, 0xbb9); (0xbd0, 0xbd0); (0xbe6, 0xbf2); (0xc05, 0xc0c);
    (0xc0e, 0xc10); (0xc12, 0xc28); (0xc2a, 0xc39); (0xc3d, 0xc3d); (0xc58, 0xc5a);
    (0xc5d, 0xc5d); (0xc60, 0xc61); (0xc66, 0xc6f); (0xc78, 0xc7e); (0xc80, 0xc80);
    (0xc85, 0xc8c); (0xc8e, 0xc90); (0xc92, 0xca8); (0xcaa, 0xcb3); (0xcb5, 0xcb9);
    (0xcbd, 0xcbd); (0xcdd, 0xcde); (0xce0, 0xce1); (0xce6, 0xcef); (0xcf1, 0xcf2);
    (0xd04, 0xd0c); (0xd0e, 0xd10); (0xd12, 0xd3a); (0xd3d, 0xd3d); (0xd4e, 0xd4e);
    (0xd54, 0xd56); (0xd58, 0xd61); (0xd66, 0xd78); (0xd7a, 0xd7f); (0xd85, 0xd96);
    (0xd9a, 0xdb1); (0xdb3, 0xdbb); (0xdbd, 0xdbd); (0xdc0, 0xdc6); (0xde6, 0xdef);
    (0xe01, 0xe30); (0xe32, 0xe33); (0xe40, 0xe46); (0xe50, 0xe59); (0xe81, 0xe82);
    (0xe84, 0xe84); (0xe86, 0xe8a); (0xe8c, 0xea3); (0xea5, 0xea5); (0xea7, 0xeb0);
    (0xeb2, 0xeb3); (0xebd, 0xebd); (0xec0, 0xec4); (0xec6, 0xec6); (0xed0, 0xed9);
    (0xedc, 0xedf); (0xf00, 0xf00); (0xf20, 0xf33); (0xf40, 0xf47); (0xf49, 0xf6c);
    (0xf88, 0xf8c); (0x1000, 0x102a); (0x103f, 0x1049); (0x1050, 0x1055); (0x105a, 0x105d);
    (0x1061, 0x1061); (0x1065, 0x1066); (0x106e, 0x1070); (0x1075, 0x1081); (0x108e, 0x108e);
    (0x1090, 0x1099); (0x10a0, 0x10c5); (0x10c7, 0x10c7); (0x10cd, 0x10cd); (0x10d0, 0x10fa);
    (0x10fc, 0x1248); (0x124a, 0x124d); (0x1250, 0x1256); (0x1258, 0x1258); (0x125a, 0x125d);
    (0x1260, 0x1288); (0x128a, 0x128d); (0x1290, 0x12b0); (0x12b2, 0x12b5); (0x12b8, 0x12be);
    (0x12c0, 0x12c0); (0x12c2, 0x12c5); (0x12c8, 0x12d6); (0x12d8, 0x1310); (0x1312, 0x1315);
    (0x1318, 0x135a); (0x1369, 0x137c); (0x1380, 0x138f); (0x13a0, 0x13f5); (0x13f8, 0x13fd);
    (0x1401, 0x166c); (0x166f, 0x167f); (0x1681, 0x169a); (0x16a0, 0x16ea); (0x16ee, 0x16f8);
    (0x1700, 0x1711); (0x171f, 0x1731); (0x1740, 0x1751); (0x1760, 0x176c); (0x176e, 0x1770);
    (0x1780, 0x17b3); (0x17d7, 0x17d7); (0x17dc, 0x17dc); (0x17e0, 0x17e9); (0x17f0, 0x17f9);
    (0x1810, 0x1819); (0x1820, 0x1878); (0x1880, 0x1884); (0x1887, 0x18a8); (0x18aa, 0x18aa);
    (0x18b0, 0x18f5); (0x1900, 0x191e); (0x1946, 0x196d); (0x1970, 0x1974); (0x1980, 0x19ab);
    (0x19b0, 0x19c9); (0x19d0, 0x19da); (0x1a00, 0x1a16); (0x1a20, 0x1a54); (0x1a80, 0x1a89);
    (0x1a90, 0x1a99); (0x1aa7, 0x1aa7); (0x1b05, 0x1b33); (0x1b45, 0x1b4c); (0x1b50, 0x1b59);
    (0x1b83, 0x1ba0); (0x1bae, 0x1be5); (0x1c00, 0x1c23); (0x1c40, 0x1c49); (0x1c4d, 0x1c7d);
    (0x1c80, 0x1c88); (0x1c90, 0x1cba); (0x1cbd, 0x1cbf); (0x1ce9, 0x1cec); (0x1cee, 0x1cf3);
    (0x1cf5, 0x1cf6); (0x1cfa, 0x1cfa); (0x1d00, 0x1dbf); (0x1e00, 0x1f15); (0x1f18, 0x1f1d);
    (0x1f20, 0x1f45); (0x1f48, 0x1f4d); (0x1f50, 0x1f57); (0x1f59, 0x1f59); (0x1f5b, 0x1f5b);
    (0x1f5d, 0x1f5d); (0x1f5f, 0x1f7d); (0x1f80, 0x1fb4); (0x1fb6, 0x1fbc); (0x1fbe, 0x1fbe);
    (0x1fc2, 0x1fc4); (0x1fc6, 0x1fcc); (0x1fd0, 0x1fd3); (0x1fd6, 0x1fdb); (0x1fe0, 0x1fec);
    (0x1ff2, 0x1ff4); (0x1ff6, 0x1ffc); (0x2070, 0x2071); (0x2074, 0x2079); (0x207f, 0x2089);
    (0x2090, 0x209c); (0x2102, 0x2102); (0x2107, 0x2107); (0x210a, 0x2113); (0x2115, 0x2115);
    (0x2119, 0x211d); (0x2124, 0x2124); (0x2126, 0x2126); (0x2128, 0x2128); (0x212a, 0x212d);
    (0x212f, 0x2139); (0x213c, 0x213f); (0x2145, 0x2149); (0x214e, 0x214e); (0x2150, 0x2189);
    (0x2460, 0x249b); (0x24ea, 0x24ff); (0x2776, 0x2793); (0x2c00, 0x2ce4); (0x2ceb, 0x2cee);
    (0x2cf2, 0x2cf3); (0x2cfd, 0x2cfd); (0x2d00, 0x2d25); (0x2d27, 0x2d27); (0x2d2d, 0x2d2d);
    (0x2d30, 0x2d67); (0x2d6f, 0x2d6f); (0x2d80, 0x2d96); (0x2da0, 0x2da6); (0x2da8, 0x2dae);
    (0x2db0, 0x2db6); (0x2db8, 0x2dbe); (0x2dc0, 0x2dc6); (0x2dc8, 0x2dce); (0x2dd0, 0x2dd6);
    (0x2dd8, 0x2dde); (0x2e2f, 0x2e2f); (0x3005, 0x3007); (0x3021, 0x3029); (0x3031, 0x3035);
    (0x3038, 0x303c); (0x3041, 0x3096); (0x309d, 0x309f); (0x30a1, 0x30fa); (0x30fc, 0x30ff);
    (0x3105, 0x312f); (0x3131, 0x318e); (0x3192, 0x3195); (0x31a0, 0x31bf); (0x31f0, 0x31ff);
    (0x3220, 0x3229); (0x3248, 0x324f); (0x3251, 0x325f); (0x3280, 0x3289); (0x32b1, 0x32bf);
    (0x3400, 0x4dbf); (0x4e00, 0xa48c); (0xa4d0, 0xa4fd); (0xa500, 0xa60c); (0xa610, 0xa62b);
    (0xa640, 0xa66e); (0xa67f, 0xa69d); (0xa6a0, 0xa6ef); (0xa717, 0xa71f); (0xa722, 0xa788);
    (0xa78b, 0xa7ca); (0xa7d0, 0xa7d1); (0xa7d3, 0xa7d3); (0xa7d5, 0xa7d9); (0xa7f2, 0xa801);
    (0xa803, 0xa805); (0xa807, 0xa80a); (0xa80c, 0xa822); (0xa830, 0xa835); (0xa840, 0xa873);
    (0xa882, 0xa8b3); (0xa8d0, 0xa8d9); (0xa8f2, 0xa8f7); (0xa8fb, 0xa8fb); (0xa8fd, 0xa8fe);
    (0xa900, 0xa925); (0xa930, 0xa946); (0xa960, 0xa97c); (0xa984, 0xa9b2); (0xa9cf, 0xa9d9);
    (0xa9e0, 0xa9e4); (0xa9e6, 0xa9fe); (0xaa00, 0xaa28); (0xaa40, 0xaa42); (0xaa44, 0xaa4b);
    (0xaa50, 0xaa59); (0xaa60, 0xaa76); (0xaa7a, 0xaa7a); (0xaa7e, 0xaaaf); (0xaab1, 0xaab1);
    (0xaab5, 0xaab6); (0xaab9, 0xaabd); (0xaac0, 0xaac0); (0xaac2, 0xaac2); (0xaadb, 0xaadd);
    (0xaae0, 0xaaea); (0xaaf2, 0xaaf4); (0xab01, 0xab06); (0xab09, 0xab0e); (0xab11, 0xab16);
    (0xab20, 0xab26); (0xab28, 0xab2e); (0xab30, 0xab5a); (0xab5c, 0xab69); (0xab70, 0xabe2);
    (0xabf0, 0xabf9); (0xac00, 0xd7a3); (0xd7b0, 0xd7c6); (0xd7cb, 0xd7fb); (0xf900, 0xfa6d);
    (0xfa70, 0xfad9); (0xfb00, 0xfb06); (0xfb13, 0xfb17); (0xfb1d, 0xfb1d); (0xfb1f, 0xfb28);
    (0xfb2a, 0xfb36); (0xfb38, 0xfb3c); (0xfb3e, 0xfb3e); (0xfb40, 0xfb41); (0xfb43, 0xfb44);
    (0xfb46, 0xfbb1); (0xfbd3, 0xfd3d); (0xfd50, 0xfd8f); (0xfd92, 0xfdc7); (0xfdf0, 0xfdfb);
    (0xfe70, 0xfe74); (0xfe76, 0xfefc); (0xff10, 0xff19); (0xff21, 0xff3a); (0xff41, 0xff5a);
    (0xff66, 0xffbe); (0xffc2, 0xffc7); (0xffca, 0xffcf); (0xffd2, 0xffd7); (0xffda, 0xffdc);
    (0x10000, 0x1000b); (0x1000d, 0x10026); (0x10028, 0x1003a); (0x1003c, 0x1003d); (0x1003f, 0x1004d);
    (0x10050, 0x1005d); (0x10080, 0x100fa); (0x10107, 0x10133); (0x10140, 0x10178); (0x1018a, 0x1018b);
    (0x10280, 0x1029c); (0x102a0, 0x102d0); (0x102e1, 0x102fb); (0x10300, 0x10323); (0x1032d, 0x1034a);
    (0x10350, 0x10375); (0x10380, 0x1039d); (0x103a0, 0x103c3); (0x103c8, 0x103cf); (0x103d1, 0x103d5);
    (0x10400, 0x1049d); (0x104a0, 0x104a9); (0x104b0, 0x104d3); (0x104d8, 0x104fb); (0x10500, 0x10527);
    (0x10530, 0x10563); (0x10570, 0x1057a); (0x1057c, 0x1058a); (0x1058c, 0x10592); (0x10594, 0x10595);
    (0x10597, 0x105a1); (0x105a3, 0x105b1); (0x105b3, 0x105b9); (0x105bb, 0x105bc); (0x10600, 0x10736);
    (0x10740, 0x10755); (0x10760, 0x10767); (0x10780, 0x10785); (0x10787, 0x107b0); (0x107b2, 0x107ba);
    (0x10800, 0x10805); (0x10808, 0x10808); (0x1080a, 0x10835); (0x10837, 0x10838); (0x1083c, 0x1083c);
    (0x1083f, 0x10855); (0x10858, 0x10876); (0x10879, 0x1089e); (0x108a7, 0x108af); (0x108e0, 0x108f2);
    (0x108f4, 0x108f5); (0x108fb, 0x1091b); (0x10920, 0x10939); (0x10980, 0x109b7); (0x109bc, 0x109cf);
    (0x109d2, 0x10a00); (0x10a10, 0x10a13); (0x10a15, 0x10a17); (0x10a19, 0x10a35); (0x10a40, 0x10a48);
    (0x10a60, 0x10a7e); (0x10a80, 0x10a9f); (0x10ac0, 0x10ac7); (0x10ac9, 0x10ae4); (0x10aeb, 0x10aef);
    (0x10b00, 0x10b35); (0x10b40, 0x10b55); (0x10b58, 0x10b72); (0x10b78, 0x10b91); (0x10ba9, 0x10baf);
    (0x10c00, 0x10c48); (0x10c80, 0x10cb2); (0x10cc0, 0x10cf2); (0x10cfa, 0x10d23); (0x10d30, 0x10d39);
    (0x10e60, 0x10e7e); (0x10e80, 0x10ea9); (0x10eb0, 0x10eb1); (0x10f00, 0x10f27); (0x10f30, 0x10f45);
    (0x10f51, 0x10f54); (0x10f70, 0x10f81); (0x10fb0, 0x10fcb); (0x10fe0, 0x10ff6); (0x11003, 0x11037);
    (0x11052, 0x1106f); (0x11071, 0x11072); (0x11075, 0x11075); (0x11083, 0x110af); (0x110d0, 0x110e8);
    (0x110f0, 0x110f9); (0x11103, 0x11126); (0x11136, 0x1113f); (0x11144, 0x11144); (0x11147, 0x11147);
    (0x11150, 0x11172); (0x11176, 0x11176); (0x11183, 0x111b2); (0x111c1, 0x111c4); (0x111d0, 0x111da);
    (0x111dc, 0x111dc); (0x111e1, 0x111f4); (0x11200, 0x11211); (0x11213, 0x1122b); (0x11280, 0x11286);
    (0x11288, 0x11288); (0x1128a, 0x1128d); (0x1128f, 0x1129d); (0x1129f, 0x112a8); (0x112b0, 0x112de);
    (0x112f0, 0x112f9); (0x11305, 0x1130c); (0x1130f, 0x11310); (0x11313, 0x11328); (0x1132a, 0x11330);
    (0x11332, 0x11333); (0x11335, 0x11339); (0x1133d, 0x1133d); (0x11350, 0x11350); (0x1135d, 0x11361);
    (0x11400, 0x11434); (0x11447, 0x1144a); (0x11450, 0x11459); (0x1145f, 0x11461); (0x11480, 0x114af);
    (0x114c4, 0x114c5); (0x114c7, 0x114c7); (0x114d0, 0x114d9); (0x11580, 0x115ae); (0x115d8, 0x115db);
    (0x11600, 0x1162f); (0x11644, 0x11644); (0x11650, 0x11659); (0x11680, 0x116aa); (0x116b8, 0x116b8);
    (0x116c0, 0x116c9); (0x11700, 0x1171a); (0x11730, 0x1173b); (0x11740, 0x11746); (0x11800, 0x1182b);
    (0x118a0, 0x118f2); (0x118ff, 0x11906); (0x11909, 0x11909); (0x1190c, 0x11913); (0x11915, 0x11916);
    (0x11918, 0x1192f); (0x1193f, 0x1193f); (0x11941, 0x11941); (0x11950, 0x11959); (0x119a0, 0x119a7);
    (0x119aa, 0x119d0); (0x119e1, 0x119e1); (0x119e3, 0x119e3); (0x11a00, 0x11a00); (0x11a0b, 0x11a32);
    (0x11a3a, 0x11a3a); (0x11a50, 0x11a50); (0x11a5c, 0x11a89); (0x11a9d, 0x11a9d); (0x11ab0, 0x11af8);
    (0x11c00, 0x11c08); (0x11c0a, 0x11c2e); (0x11c40, 0x11c40); (0x11c50, 0x11c6c); (0x11c72, 0x11c8f);
    (0x11d00, 0x11d06); (0x11d08, 0x11d09); (0x11d0b, 0x11d30); (0x11d46, 0x11d46); (0x11d50, 0x11d59);
    (0x11d60, 0x11d65); (0x11d67, 0x11d68); (0x11d6a, 0x11d89); (0x11d98, 0x11d98); (0x11da0, 0x11da9);
    (0x11ee0, 0x11ef2); (0x11fb0, 0x11fb0); (0x11fc0, 0x11fd4); (0x12000, 0x12399); (0x12400, 0x1246e);
    (0x12480, 0x12543); (0x12f90, 0x12ff0); (0x13000, 0x1342e); (0x14400, 0x14646); (0x16800, 0x16a38);
    (0x16a40, 0x16a5e); (0x16a60, 0x16a69); (0x16a70, 0x16abe); (0x16ac0, 0x16ac9); (0x16ad0, 0x16aed);
    (0x16b00, 0x16b2f); (0x16b40, 0x16b43); (0x16b50, 0x16b59); (0x16b5b, 0x16b61); (0x16b63, 0x16b77);
    (0x16b7d, 0x16b8f); (0x16e40, 0x16e96); (0x16f00, 0x16f4a); (0x16f50, 0x16f50); (0x16f93, 0x16f9f);
    (0x16fe0, 0x16fe1); (0x16fe3, 0x16fe3); (0x17000, 0x187f7); (0x18800, 0x18cd5); (0x18d00, 0x18d08);
    (0x1aff0, 0x1aff3); (0x1aff5, 0x1affb); (0x1affd, 0x1affe); (0x1b000, 0x1b122); (0x1b150, 0x1b152);
    (0x1b164, 0x1b167); (0x1b170, 0x1b2fb); (0x1bc00, 0x1bc6a); (0x1bc70, 0x1bc7c); (0x1bc80, 0x1bc88);
    (0x1bc90, 0x1bc99); (0x1d2e0, 0x1d2f3); (0x1d360, 0x1d378); (0x1d400, 0x1d454); (0x1d456, 0x1d49c);
    (0x1d49e, 0x1d49f); (0x1d4a2, 0x1d4a2); (0x1d4a5, 0x1d4a6); (0x1d4a9, 0x1d4ac); (0x1d4ae, 0x1d4b9);
    (0x1d4bb, 0x1d4bb); (0x1d4bd, 0x1d4c3); (0x1d4c5, 0x1d505); (0x1d507, 0x1d50a); (0x1d50d, 0x1d514);
    (0x1d516, 0x1d51c); (0x1d51e, 0x1d539); (0x1d53b, 0x1d53e); (0x1d540, 0x1d544); (0x1d546, 0x1d546);
    (0x1d54a, 0x1d550); (0x1d552, 0x1d6a5); (0x1d6a8, 0x1d6c0); (0x1d6c2, 0x1d6da); (0x1d6dc, 0x1d6fa);
    (0x1d6fc, 0x1d714); (0x1d716, 0x1d734); (0x1d736, 0x1d74e); (0x1d750, 0x1d76e); (0x1d770, 0x1d788);
    (0x1d78a, 0x1d7a8); (0x1d7aa, 0x1d7c2); (0x1d7c4, 0x1d7cb); (0x1d7ce, 0x1d7ff); (0x1df00, 0x1df1e);
    (0x1e100, 0x1e12c); (0x1e137, 0x1e13d); (0x1e140, 0x1e149); (0x1e14e, 0x1e14e); (0x1e290, 0x1e2ad);
    (0x1e2c0, 0x1e2eb); (0x1e2f0, 0x1e2f9); (0x1e7e0, 0x1e7e6); (0x1e7e8, 0x1e7eb); (0x1e7ed, 0x1e7ee);
    (0x1e7f0, 0x1e7fe); (0x1e800, 0x1e8c4); (0x1e8c7, 0x1e8cf); (0x1e900, 0x1e943); (0x1e94b, 0x1e94b);
    (0x1e950, 0x1e959); (0x1ec71, 0x1ecab); (0x1ecad, 0x1ecaf); (0x1ecb1, 0x1ecb4); (0x1ed01, 0x1ed2d);
    (0x1ed2f, 0x1ed3d); (0x1ee00, 0x1ee03); (0x1ee05, 0x1ee1f); (0x1ee21, 0x1ee22); (0x1ee24, 0x1ee24);
    (0x1ee27, 0x1ee27); (0x1ee29, 0x1ee32); (0x1ee34, 0x1ee37); (0x1ee39, 0x1ee39); (0x1ee3b, 0x1ee3b);
    (0x1ee42, 0x1ee42); (0x1ee47, 0x1ee47); (0x1ee49, 0x1ee49); (0x1ee4b, 0x1ee4b); (0x1ee4d, 0x1ee4f);
    (0x1ee51, 0x1ee52); (0x1ee54, 0x1ee54); (0x1ee57, 0x1ee57); (0x1ee59, 0x1ee59); (0x1ee5b, 0x1ee5b);
    (0x1ee5d, 0x1ee5d); (0x1ee5f, 0x1ee5f); (0x1ee61, 0x1ee62); (0x1ee64, 0x1ee64); (0x1ee67, 0x1ee6a);
    (0x1ee6c, 0x1ee72); (0x1ee74, 0x1ee77); (0x1ee79, 0x1ee7c); (0x1ee7e, 0x1ee7e); (0x1ee80, 0x1ee89);
    (0x1ee8b, 0x1ee9b); (0x1eea1, 0x1eea3); (0x1eea5, 0x1eea9); (0x1eeab, 0x1eebb); (0x1f100, 0x1f10c);
    (0x1fbf0, 0x1fbf9); (0x20000, 0x2a6df); (0x2a700, 0x2b738); (0x2b740, 0x2b81d); (0x2b820, 0x2cea1);
    (0x2ceb0, 0x2ebe0); (0x2f800, 0x2fa1d); (0x30000, 0x3134a) ].

(** [str.isalnum] on one code point *)
Definition isalnum (c : char) : bool := in_ranges ALNUM c.

(** The lowercase of the code points that [str.lower] changes, U+0130
    apart.  A run [(first, last, step, target)] maps [first] to [target],
    [first + step] to [target + step], and so on up to [last]. *)
Definition LOWER : list (N * N * N * N) :=
  [ (0x41, 0x5a, 1, 0x61); (0xc0, 0xd6, 1, 0xe0); (0xd8, 0xde, 1, 0xf8);
    (0x100, 0x12e, 2, 0x101); (0x132, 0x136, 2, 0x133); (0x139, 0x147, 2, 0x13a);
    (0x14a, 0x176, 2, 0x14b); (0x178, 0x178, 1, 0xff); (0x179, 0x17d, 2, 0x17a);
    (0x181, 0x181, 1, 0x253); (0x182, 0x184, 2, 0x183); (0x186, 0x186, 1, 0x254);
    (0x187, 0x187, 1, 0x188); (0x189, 0x18a, 1, 0x256); (0x18b, 0x18b, 1, 0x18c);
    (0x18e, 0x18e, 1, 0x1dd); (0x18f, 0x18f, 1, 0x259); (0x190, 0x190, 1, 0x25b);
    (0x191, 0x191, 1, 0x192); (0x193, 0x193, 1, 0x260); (0x194, 0x194, 1, 0x263);
    (0x196, 0x196, 1, 0x269); (0x197, 0x197, 1, 0x268); (0x198, 0x198, 1, 0x199);
    (0x19c, 0x19c, 1, 0x26f); (0x19d, 0x19d, 1, 0x272); (0x19f, 0x19f, 1, 0x275);
    (0x1a0, 0x1a4, 2, 0x1a1); (0x1a6, 0x1a6, 1, 0x280); (0x1a7, 0x1a7, 1, 0x1a8);
    (0x1a9, 0x1a9, 1, 0x283); (0x1ac, 0x1ac, 1, 0x1ad); (0x1ae, 0x1ae, 1, 0x288);
    (0x1af, 0x1af, 1, 0x1b0); (0x1b1, 0x1b2, 1, 0x28a); (0x1b3, 0x1b5, 2, 0x1b4);
    (0x1b7, 0x1b7, 1, 0x292); (0x1b8, 0x1b8, 1, 0x1b9); (0x1bc, 0x1bc, 1, 0x1bd);
    (0x1c4, 0x1c4, 1, 0x1c6); (0x1c5, 0x1c5, 1, 0x1c6); (0x1c7, 0x1c7, 1, 0x1c9);
    (0x1c8, 0x1c8, 1, 0x1c9); (0x1ca, 0x1ca, 1, 0x1cc); (0x1cb, 0x1db, 2, 0x1cc);
    (0x1de, 0x1ee, 2, 0x1df); (0x1f1, 0x1f1, 1, 0x1f3); (0x1f2, 0x1f4, 2, 0x1f3);
    (0x1f6, 0x1f6, 1, 0x195); (0x1f7, 0x1f7, 1, 0x1bf); (0x1f8, 0x21e, 2, 0x1f9);
    (0x220, 0x220, 1, 0x19e); (0x222, 0x232, 2, 0x223); (0x23a, 0x23a, 1, 0x2c65);
    (0x23b, 0x23b, 1, 0x23c); (0x23d, 0x23d, 1, 0x19a); (0x23e, 0x23e, 1, 0x2c66);
    (0x241, 0x241, 1, 0x242); (0x243, 0x243, 1, 0x180); (0x244, 0x244, 1, 0x289);
    (0x245, 0x245, 1, 0x28c); (0x246, 0x24e, 2, 0x247); (0x370, 0x372, 2, 0x371);
    (0x376, 0x376, 1, 0x377); (0x37f, 0x37f, 1, 0x3f3); (0x386, 0x386, 1, 0x3ac);
    (0x388, 0x38a, 1, 0x3ad); (0x38c, 0x38c, 1, 0x3cc); (0x38e, 0x38f, 1, 0x3cd);
    (0x391, 0x3a1, 1, 0x3b1); (0x3a3, 0x3ab, 1, 0x3c3); (0x3cf, 0x3cf, 1, 0x3d7);
    (0x3d8, 0x3ee, 2, 0x3d9); (0x3f4, 0x3f4, 1, 0x3b8); (0x3f7, 0x3f7, 1, 0x3f8);
    (0x3f9, 0x3f9, 1, 0x3f2); (0x3fa, 0x3fa, 1, 0x3fb); (0x3fd, 0x3ff, 1, 0x37b);
    (0x400, 0x40f, 1, 0x450); (0x410, 0x42f, 1, 0x430); (0x460, 0x480, 2, 0x461);
    (0x48a, 0x4be, 2, 0x48b); (0x4c0, 0x4c0, 1, 0x4cf); (0x4c1, 0x4cd, 2, 0x4c2);
    (0x4d0, 0x52e, 2, 0x4d1); (0x531, 0x556, 1, 0x561); (0x10a0, 0x10c5, 1, 0x2d00);
    (0x10c7, 0x10c7, 1, 0x2d27); (0x10cd, 0x10cd, 1, 0x2d2d); (0x13a0, 0x13ef, 1, 0xab70);
    (0x13f0, 0x13f5, 1, 0x13f8); (0x1c90, 0x1cba, 1, 0x10d0); (0x1cbd, 0x1cbf, 1, 0x10fd);
    (0x1e00, 0x1e94, 2, 0x1e01); (0x1e9e, 0x1e9e, 1, 0xdf); (0x1ea0, 0x1efe, 2, 0x1ea1);
    (0x1f08, 0x1f0f, 1, 0x1f00); (0x1f18, 0x1f1d, 1, 0x1f10); (0x1f28, 0x1f2f, 1, 0x1f20);
    (0x1f38, 0x1f3f, 1, 0x1f30); (0x1f48, 0x1f4d, 1, 0x1f40); (0x1f59, 0x1f5f, 2, 0x1f51);
    (0x1f68, 0x1f6f, 1, 0x1f60); (0x1f88, 0x1f8f, 1, 0x1f80); (0x1f98, 0x1f9f, 1, 0x1f90);
    (0x1fa8, 0x1faf, 1, 0x1fa0); (0x1fb8, 0x1fb9, 1, 0x1fb0); (0x1fba, 0x1fbb, 1, 0x1f70);
    (0x1fbc, 0x1fbc, 1, 0x1fb3); (0x1fc8, 0x1fcb, 1, 0x1f72); (0x1fcc, 0x1fcc, 1, 0x1fc3);
    (0x1fd8, 0x1fd9, 1, 0x1fd0); (0x1fda, 0x1fdb, 1, 0x1f76); (0x1fe8, 0x1fe9, 1, 0x1fe0);
    (0x1fea, 0x1feb, 1, 0x1f7a); (0x1fec, 0x1fec, 1, 0x1fe5); (0x1ff8, 0x1ff9, 1, 0x1f78);
    (0x1ffa, 0x1ffb, 1, 0x1f7c); (0x1ffc, 0x1ffc, 1, 0x1ff3); (0x2126, 0x2126, 1, 0x3c9);
    (0x212a, 0x212a, 1, 0x6b); (0x212b, 0x212b, 1, 0xe5); (0x2132, 0x2132, 1, 0x214e);
    (0x2160, 0x216f, 1, 0x2170); (0x2183, 0x2183, 1, 0x2184); (0x24b6, 0x24cf, 1, 0x24d0);
    (0x2c00, 0x2c2f, 1, 0x2c30); (0x2c60, 0x2c60, 1, 0x2c61); (0x2c62, 0x2c62, 1, 0x26b);
    (0x2c63, 0x2c63, 1, 0x1d7d); (0x2c64, 0x2c64, 1, 0x27d); (0x2c67, 0x2c6b, 2, 0x2c68);
    (0x2c6d, 0x2c6d, 1, 0x251); (0x2c6e, 0x2c6e, 1, 0x271); (0x2c6f, 0x2c6f, 1, 0x250);
    (0x2c70, 0x2c70, 1, 0x252); (0x2c72, 0x2c72, 1, 0x2c73); (0x2c75, 0x2c75, 1, 0x2c76);
    (0x2c7e, 0x2c7f, 1, 0x23f); (0x2c80, 0x2ce2, 2, 0x2c81); (0x2ceb, 0x2ced, 2, 0x2cec);
    (0x2cf2, 0x2cf2, 1, 0x2cf3); (0xa640, 0xa66c, 2, 0xa641); (0xa680, 0xa69a, 2, 0xa681);
    (0xa722, 0xa72e, 2, 0xa723); (0xa732, 0xa76e, 2, 0xa733); (0xa779, 0xa77b, 2, 0xa77a);
    (0xa77d, 0xa77d, 1, 0x1d79); (0xa77e, 0xa786, 2, 0xa77f); (0xa78b, 0xa78b, 1, 0xa78c);
    (0xa78d, 0xa78d, 1, 0x265); (0xa790, 0xa792, 2, 0xa791); (0xa796, 0xa7a8, 2, 0xa797);
    (0xa7aa, 0xa7aa, 1, 0x266); (0xa7ab, 0xa7ab, 1, 0x25c); (0xa7ac, 0xa7ac, 1, 0x261);
    (0xa7ad, 0xa7ad, 1, 0x26c); (0xa7ae, 0xa7ae, 1, 0x26a); (0xa7b0, 0xa7b0, 1, 0x29e);
    (0xa7b1, 0xa7b1, 1, 0x287); (0xa7b2, 0xa7b2, 1, 0x29d); (0xa7b3, 0xa7b3, 1, 0xab53);
    (0xa7b4, 0xa7c2, 2, 0xa7b5); (0xa7c4, 0xa7c4, 1, 0xa794); (0xa7c5, 0xa7c5, 1, 0x282);
    (0xa7c6, 0xa7c6, 1, 0x1d8e); (0xa7c7, 0xa7c9, 2, 0xa7c8); (0xa7d0, 0xa7d0, 1, 0xa7d1);
    (0xa7d6, 0xa7d8, 2, 0xa7d7); (0xa7f5, 0xa7f5, 1, 0xa7f6); (0xff21, 0xff3a, 1, 0xff41);
    (0x10400, 0x10427, 1, 0x10428); (0x104b0, 0x104d3, 1, 0x104d8); (0x10570, 0x1057a, 1, 0x10597);
    (0x1057c, 0x1058a, 1, 0x105a3); (0x1058c, 0x10592, 1, 0x105b3); (0x10594, 0x10595, 1, 0x105bb);
    (0x10c80, 0x10cb2, 1, 0x10cc0); (0x118a0, 0x118bf, 1, 0x118c0); (0x16e40, 0x16e5f, 1, 0x16e60);
    (0x1e900, 0x1e921, 1, 0x1e922) ].

Definition run_pairs (r : N * N * N * N) : list (N * N) :=
  let '(first, last, step, target) := r in
  map (fun k => (first + step * N.of_nat k, target + step * N.of_nat k))
      (seq 0 (S (N.to_nat ((last - first) / step)))).

Definition lower_pairs : list (N * N) :=
  Eval vm_compute in flat_map run_pairs LOWER.

Fixpoint assoc (c : N) (pairs : list (N * N)) : option N :=
  match pairs with
  | [] => None
  | (a, b) :: pairs' => if a =? c then Some b else assoc c pairs'
  end.

(** The lowercase of one code point.  U+0130, the capital I with a dot
    above, is the one code point whose lowercase has two: an i and the
    combining dot U+0307. *)
Definition lower_char (c : char) : str :=
  if c =? 0x130 then [0x69; 0x307]
  else match assoc c lower_pairs with
       | Some d => [d]
       | None => [c]
       end.

(** The properties Cased and Case_Ignorable, which [str.lower] consults
    around a capital sigma. *)
Definition CASED : list (N * N) :=
  [ (0x41, 0x5a); (0x61, 0x7a); (0xaa, 0xaa); (0xb5, 0xb5); (0xba, 0xba);
    (0xc0, 0xd6); (0xd8, 0xf6); (0xf8, 0x1ba); (0x1bc, 0x1bf); (0x1c4, 0x293);
    (0x295, 0x2b8); (0x2c0, 0x2c1); (0x2e0, 0x2e4); (0x345, 0x345); (0x370, 0x373);
    (0x376, 0x377); (0x37a, 0x37d); (0x37f, 0x37f); (0x386, 0x386); (0x388, 0x38a);
    (0x38c, 0x38c); (0x38e, 0x3a1); (0x3a3, 0x3f5); (0x3f7, 0x481); (0x48a, 0x52f);
    (0x531, 0x556); (0x560, 0x588); (0x10a0, 0x10c5); (0x10c7, 0x10c7); (0x10cd, 0x10cd);
    (0x10d0, 0x10fa); (0x10fd, 0x10ff); (0x13a0, 0x13f5); (0x13f8, 0x13fd); (0x1c80, 0x1c88);
    (0x1c90, 0x1cba); (0x1cbd, 0x1cbf); (0x1d00, 0x1dbf); (0x1e00, 0x1f15); (0x1f18, 0x1f1d);
    (0x1f20, 0x1f45); (0x1f48, 0x1f4d); (0x1f50, 0x1f57); (0x1f59, 0x1f59); (0x1f5b, 0x1f5b);
    (0x1f5d, 0x1f5d); (0x1f5f, 0x1f7d); (0x1f80, 0x1fb4); (0x1fb6, 0x1fbc); (0x1fbe, 0x1fbe);
    (0x1fc2, 0x1fc4); (0x1fc6, 0x1fcc); (0x1fd0, 0x1fd3); (0x1fd6, 0x1fdb); (0x1fe0, 0x1fec);
    (0x1ff2, 0x1ff4); (0x1ff6, 0x1ffc); (0x2071, 0x2071); (0x207f, 0x207f); (0x2090, 0x209c);
    (0x2102, 0x2102); (0x2107, 0x2107); (0x210a, 0x2113); (0x2115, 0x2115); (0x2119, 0x211d);
    (0x2124, 0x2124); (0x2126, 0x2126); (0x2128, 0x2128); (0x212a, 0x212d); (0x212f, 0x2134);
    (0x2139, 0x2139); (0x213c, 0x213f); (0x2145, 0x2149); (0x214e, 0x214e); (0x2160, 0x217f);
    (0x2183, 0x2184); (0x24b6, 0x24e9); (0x2c00, 0x2ce4); (0x2ceb, 0x2cee); (0x2cf2, 0x2cf3);
    (0x2d00, 0x2d25); (0x2d27, 0x2d27); (0x2d2d, 0x2d2d); (0xa640, 0xa66d); (0xa680, 0xa69d);
    (0xa722, 0xa787); (0xa78b, 0xa78e); (0xa790, 0xa7ca); (0xa7d0, 0xa7d1); (0xa7d3, 0xa7d3);
    (0xa7d5, 0xa7d9); (0xa7f5, 0xa7f6); (0xa7f8, 0xa7fa); (0xab30, 0xab5a); (0xab5c, 0xab68);
    (0xab70, 0xabbf); (0xfb00, 0xfb06); (0xfb13, 0xfb17); (0xff21, 0xff3a); (0xff41, 0xff5a);
    (0x10400, 0x1044f); (0x104b0, 0x104d3); (0x104d8, 0x104fb); (0x10570, 0x1057a); (0x1057c, 0x1058a);
    (0x1058c, 0x10592); (0x10594, 0x10595); (0x10597, 0x105a1); (0x105a3, 0x105b1); (0x105b3, 0x105b9);
    (0x105bb, 0x105bc); (0x10780, 0x10780); (0x10783, 0x10785); (0x10787, 0x107b0); (0x107b2, 0x107ba);
    (0x10c80, 0x10cb2); (0x10cc0, 0x10cf2); (0x118a0, 0x118df); (0x16e40, 0x16e7f); (0x1d400, 0x1d454);
    (0x1d456, 0x1d49c); (0x1d49e, 0x1d49f); (0x1d4a2, 0x1d4a2); (0x1d4a5, 0x1d4a6); (0x1d4a9, 0x1d4ac);
    (0x1d4ae, 0x1d4b9); (0x1d4bb, 0x1d4bb); (0x1d4bd, 0x1d4c3); (0x1d4c5, 0x1d505); (0x1d507, 0x1d50a);
    (0x1d50d, 0x1d514); (0x1d516, 0x1d51c); (0x1d51e, 0x1d539); (0x1d53b, 0x1d53e); (0x1d540, 0x1d544);
    (0x1d546, 0x1d546); (0x1d54a, 0x1d550); (0x1d552, 0x1d6a5); (0x1d6a8, 0x1d6c0); (0x1d6c2, 0x1d6da);
    (0x1d6dc, 0x1d6fa); (0x1d6fc, 0x1d714); (0x1d716, 0x1d734); (0x1d736, 0x1d74e); (0x1d750, 0x1d76e);
    (0x1d770, 0x1d788); (0x1d78a, 0x1d7a8); (0x1d7aa, 0x1d7c2); (0x1d7c4, 0x1d7cb); (0x1df00, 0x1df09);
    (0x1df0b, 0x1df1e); (0x1e900, 0x1e943); (0x1f130, 0x1f149); (0x1f150, 0x1f169); (0x1f170, 0x1f189) ].

Definition CASE_IGNORABLE : list (N * N) :=
  [ (0x27, 0x27); (0x2e, 0x2e); (0x3a, 0x3a); (0x5e, 0x5e); (0x60, 0x60);
    (0xa8, 0xa8); (0xad, 0xad); (0xaf, 0xaf); (0xb4, 0xb4); (0xb7, 0xb8);
    (0x2b0, 0x36f); (0x374, 0x375); (0x37a, 0x37a); (0x384, 0x385); (0x387, 0x387);
    (0x483, 0x489); (0x559, 0x559); (0x55f, 0x55f); (0x591, 0x5bd); (0x5bf, 0x5bf);
    (0x5c1, 0x5c2); (0x5c4, 0x5c5); (0x5c7, 0x5c7); (0x5f4, 0x5f4); (0x600, 0x605);
    (0x610, 0x61a); (0x61c, 0x61c); (0x640, 0x640); (0x64b, 0x65f); (0x670, 0x670);
    (0x6d6, 0x6dd); (0x6df, 0x6e8); (0x6ea, 0x6ed); (0x70f, 0x70f); (0x711, 0x711);
    (0x730, 0x74a); (0x7a6, 0x7b0); (0x7eb, 0x7f5); (0x7fa, 0x7fa); (0x7fd, 0x7fd);
    (0x816, 0x82d); (0x859, 0x85b); (0x888, 0x888); (0x890, 0x891); (0x898, 0x89f);
    (0x8c9, 0x902); (0x93a, 0x93a); (0x93c, 0x93c); (0x941, 0x948); (0x94d, 0x94d);
    (0x951, 0x957); (0x962, 0x963); (0x971, 0x971); (0x981, 0x981); (0x9bc, 0x9bc);
    (0x9c1, 0x9c4); (0x9cd, 0x9cd); (0x9e2, 0x9e3); (0x9fe, 0x9fe); (0xa01, 0xa02);
    (0xa3c, 0xa3c); (0xa41, 0xa42); (0xa47, 0xa48); (0xa4b, 0xa4d); (0xa51, 0xa51);
    (0xa70, 0xa71); (0xa75, 0xa75); (0xa81, 0xa82); (0xabc, 0xabc); (0xac1, 0xac5);
    (0xac7, 0xac8); (0xacd, 0xacd); (0xae2, 0xae3); (0xafa, 0xaff); (0xb01, 0xb01);
    (0xb3c, 0xb3c); (0xb3f, 0xb3f); (0xb41, 0xb44); (0xb4d, 0xb4d); (0xb55, 0xb56);
    (0xb62, 0xb63); (0xb82, 0xb82); (0xbc0, 0xbc0); (0xbcd, 0xbcd); (0xc00, 0xc00);
    (0xc04, 0xc04); (0xc3c, 0xc3c); (0xc3e, 0xc40); (0xc46, 0xc48); (0xc4a, 0xc4d);
    (0xc55, 0xc56); (0xc62, 0xc63); (0xc81, 0xc81); (0xcbc, 0xcbc); (0xcbf, 0xcbf);
    (0xcc6, 0xcc6); (0xccc, 0xccd); (0xce2, 0xce3); (0xd00, 0xd01); (0xd3b, 0xd3c);
    (0xd41, 0xd44); (0xd4d, 0xd4d); (0xd62, 0xd63); (0xd81, 0xd81); (0xdca, 0xdca);
    (0xdd2, 0xdd4); (0xdd6, 0xdd6); (0xe31, 0xe31); (0xe34, 0xe3a); (0xe46, 0xe4e);
    (0xeb1, 0xeb1); (0xeb4, 0xebc); (0xec6, 0xec6); (0xec8, 0xecd); (0xf18, 0xf19);
    (0xf35, 0xf35); (0xf37, 0xf37); (0xf39, 0xf39); (0xf71, 0xf7e); (0xf80, 0xf84);
    (0xf86, 0xf87); (0xf8d, 0xf97); (0xf99, 0xfbc); (0xfc6, 0xfc6); (0x102d, 0x1030);
    (0x1032, 0x1037); (0x1039, 0x103a); (0x103d, 0x103e); (0x1058, 0x1059); (0x105e, 0x1060);
    (0x1071, 0x1074); (0x1082, 0x1082); (0x1085, 0x1086); (0x108d, 0x108d); (0x109d, 0x109d);
    (0x10fc, 0x10fc); (0x135d, 0x135f); (0x1712, 0x1714); (0x1732, 0x1733); (0x1752, 0x1753);
    (0x1772, 0x1773); (0x17b4, 0x17b5); (0x17b7, 0x17bd); (0x17c6, 0x17c6); (0x17c9, 0x17d3);
    (0x17d7, 0x17d7); (0x17dd, 0x17dd); (0x180b, 0x180f); (0x1843, 0x1843); (0x1885, 0x1886);
    (0x18a9, 0x18a9); (0x1920, 0x1922); (0x1927, 0x1928); (0x1932, 0x1932); (0x1939, 0x193b);
    (0x1a17, 0x1a18); (0x1a1b, 0x1a1b); (0x1a56, 0x1a56); (0x1a58, 0x1a5e); (0x1a60, 0x1a60);
    (0x1a62, 0x1a62); (0x1a65, 0x1a6c); (0x1a73, 0x1a7c); (0x1a7f, 0x1a7f); (0x1aa7, 0x1aa7);
    (0x1ab0, 0x1ace); (0x1b00, 0x1b03); (0x1b34, 0x1b34); (0x1b36, 0x1b3a); (0x1b3c, 0x1b3c);
    (0x1b42, 0x1b42); (0x1b6b, 0x1b73); (0x1b80, 0x1b81); (0x1ba2, 0x1ba5); (0x1ba8, 0x1ba9);
    (0x1bab, 0x1bad); (0x1be6, 0x1be6); (0x1be8, 0x1be9); (0x1bed, 0x1bed); (0x1bef, 0x1bf1);
    (0x1c2c, 0x1c33); (0x1c36, 0x1c37); (0x1c78, 0x1c7d); (0x1cd0, 0x1cd2); (0x1cd4, 0x1ce0);
    (0x1ce2, 0x1ce8); (0x1ced, 0x1ced); (0x1cf4, 0x1cf4); (0x1cf8, 0x1cf9); (0x1d2c, 0x1d6a);
    (0x1d78, 0x1d78); (0x1d9b, 0x1dff); (0x1fbd, 0x1fbd); (0x1fbf, 0x1fc1); (0x1fcd, 0x1fcf);
    (0x1fdd, 0x1fdf); (0x1fed, 0x1fef); (0x1ffd, 0x1ffe); (0x200b, 0x200f); (0x2018, 0x2019);
    (0x2024, 0x2024); (0x2027, 0x2027); (0x202a, 0x202e); (0x2060, 0x2064); (0x2066, 0x206f);
    (0x2071, 0x2071); (0x207f, 0x207f); (0x2090, 0x209c); (0x20d0, 0x20f0); (0x2c7c, 0x2c7d);
    (0x2cef, 0x2cf1); (0x2d6f, 0x2d6f); (0x2d7f, 0x2d7f); (0x2de0, 0x2dff); (0x2e2f, 0x2e2f);
    (0x3005, 0x3005); (0x302a, 0x302d); (0x3031, 0x3035); (0x303b, 0x303b); (0x3099, 0x309e);
    (0x30fc, 0x30fe); (0xa015, 0xa015); (0xa4f8, 0xa4fd); (0xa60c, 0xa60c); (0xa66f, 0xa672);
    (0xa674, 0xa67d); (0xa67f, 0xa67f); (0xa69c, 0xa69f); (0xa6f0, 0xa6f1); (0xa700, 0xa721);
    (0xa770, 0xa770); (0xa788, 0xa78a); (0xa7f2, 0xa7f4); (0xa7f8, 0xa7f9); (0xa802, 0xa802);
    (0xa806, 0xa806); (0xa80b, 0xa80b); (0xa825, 0xa826); (0xa82c, 0xa82c); (0xa8c4, 0xa8c5);
    (0xa8e0, 0xa8f1); (0xa8ff, 0xa8ff); (0xa926, 0xa92d); (0xa947, 0xa951); (0xa980, 0xa982);
    (0xa9b3, 0xa9b3); (0xa9b6, 0xa9b9); (0xa9bc, 0xa9bd); (0xa9cf, 0xa9cf); (0xa9e5, 0xa9e6);
    (0xaa29, 0xaa2e); (0xaa31, 0xaa32); (0xaa35, 0xaa36); (0xaa43, 0xaa43); (0xaa4c, 0xaa4c);
    (0xaa70, 0xaa70); (0xaa7c, 0xaa7c); (0xaab0, 0xaab0); (0xaab2, 0xaab4); (0xaab7, 0xaab8);
    (0xaabe, 0xaabf); (0xaac1, 0xaac1); (0xaadd, 0xaadd); (0xaaec, 0xaaed); (0xaaf3, 0xaaf4);
    (0xaaf6, 0xaaf6); (0xab5b, 0xab5f); (0xab69, 0xab6b); (0xabe5, 0xabe5); (0xabe8, 0xabe8);
    (0xabed, 0xabed); (0xfb1e, 0xfb1e); (0xfbb2, 0xfbc2); (0xfe00, 0xfe0f); (0xfe13, 0xfe13);
    (0xfe20, 0xfe2f); (0xfe52, 0xfe52); (0xfe55, 0xfe55); (0xfeff, 0xfeff); (0xff07, 0xff07);
    (0xff0e, 0xff0e); (0xff1a, 0xff1a); (0xff3e, 0xff3e); (0xff40, 0xff40); (0xff70, 0xff70);
    (0xff9e, 0xff9f); (0xffe3, 0xffe3); (0xfff9, 0xfffb); (0x101fd, 0x101fd); (0x102e0, 0x102e0);
    (0x10376, 0x1037a); (0x10780, 0x10785); (0x10787, 0x107b0); (0x107b2, 0x107ba); (0x10a01, 0x10a03);
    (0x10a05, 0x10a06); (0x10a0c, 0x10a0f); (0x10a38, 0x10a3a); (0x10a3f, 0x10a3f); (0x10ae5, 0x10ae6);
    (0x10d24, 0x10d27); (0x10eab, 0x10eac); (0x10f46, 0x10f50); (0x10f82, 0x10f85); (0x11001, 0x11001);
    (0x11038, 0x11046); (0x11070, 0x11070); (0x11073, 0x11074); (0x1107f, 0x11081); (0x110b3, 0x110b6);
    (0x110b9, 0x110ba); (0x110bd, 0x110bd); (0x110c2, 0x110c2); (0x110cd, 0x110cd); (0x11100, 0x11102);
    (0x11127, 0x1112b); (0x1112d, 0x11134); (0x11173, 0x11173); (0x11180, 0x11181); (0x111b6, 0x111be);
    (0x111c9, 0x111cc); (0x111cf, 0x111cf); (0x1122f, 0x11231); (0x11234, 0x11234); (0x11236, 0x11237);
    (0x1123e, 0x1123e); (0x112df, 0x112df); (0x112e3, 0x112ea); (0x11300, 0x11301); (0x1133b, 0x1133c);
    (0x11340, 0x11340); (0x11366, 0x1136c); (0x11370, 0x11374); (0x11438, 0x1143f); (0x11442, 0x11444);
    (0x11446, 0x11446); (0x1145e, 0x1145e); (0x114b3, 0x114b8); (0x114ba, 0x114ba); (0x114bf, 0x114c0);
    (0x114c2, 0x114c3); (0x115b2, 0x115b5); (0x115bc, 0x115bd); (0x115bf, 0x115c0); (0x115dc, 0x115dd);
    (0x11633, 0x1163a); (0x1163d, 0x1163d); (0x1163f, 0x11640); (0x116ab, 0x116ab); (0x116ad, 0x116ad);
    (0x116b0, 0x116b5); (0x116b7, 0x116b7); (0x1171d, 0x1171f); (0x11722, 0x11725); (0x11727, 0x1172b);
    (0x1182f, 0x11837); (0x11839, 0x1183a); (0x1193b, 0x1193c); (0x1193e, 0x1193e); (0x11943, 0x11943);
    (0x119d4, 0x119d7); (0x119da, 0x119db); (0x119e0, 0x119e0); (0x11a01, 0x11a0a); (0x11a33, 0x11a38);
    (0x11a3b, 0x11a3e); (0x11a47, 0x11a47); (0x11a51, 0x11a56); (0x11a59, 0x11a5b); (0x11a8a, 0x11a96);
    (0x11a98, 0x11a99); (0x11c30, 0x11c36); (0x11c38, 0x11c3d); (0x11c3f, 0x11c3f); (0x11c92, 0x11ca7);
    (0x11caa, 0x11cb0); (0x11cb2, 0x11cb3); (0x11cb5, 0x11cb6); (0x11d31, 0x11d36); (0x11d3a, 0x11d3a);
    (0x11d3c, 0x11d3d); (0x11d3f, 0x11d45); (0x11d47, 0x11d47); (0x11d90, 0x11d91); (0x11d95, 0x11d95);
    (0x11d97, 0x11d97); (0x11ef3, 0x11ef4); (0x13430, 0x13438); (0x16af0, 0x16af4); (0x16b30, 0x16b36);
    (0x16b40, 0x16b43); (0x16f4f, 0x16f4f); (0x16f8f, 0x16f9f); (0x16fe0, 0x16fe1); (0x16fe3, 0x16fe4);
    (0x1aff0, 0x1aff3); (0x1aff5, 0x1affb); (0x1affd, 0x1affe); (0x1bc9d, 0x1bc9e); (0x1bca0, 0x1bca3);
    (0x1cf00, 0x1cf2d); (0x1cf30, 0x1cf46); (0x1d167, 0x1d169); (0x1d173, 0x1d182); (0x1d185, 0x1d18b);
    (0x1d1aa, 0x1d1ad); (0x1d242, 0x1d244); (0x1da00, 0x1da36); (0x1da3b, 0x1da6c); (0x1da75, 0x1da75);
    (0x1da84, 0x1da84); (0x1da9b, 0x1da9f); (0x1daa1, 0x1daaf); (0x1e000, 0x1e006); (0x1e008, 0x1e018);
    (0x1e01b, 0x1e021); (0x1e023, 0x1e024); (0x1e026, 0x1e02a); (0x1e130, 0x1e13d); (0x1e2ae, 0x1e2ae);
    (0x1e2ec, 0x1e2ef); (0x1e8d0, 0x1e8d6); (0x1e944, 0x1e94b); (0x1f3fb, 0x1f3ff); (0xe0001, 0xe0001);
    (0xe0020, 0xe007f); (0xe0100, 0xe01ef) ].

Definition cased (c : char) : bool := in_ranges CASED c.
Definition case_ignorable (c : char) : bool := in_ranges CASE_IGNORABLE c.

(** The capital letters: the code points on which [str.isupper] holds, and
    the titlecase letters. *)
Definition CAPITAL : list (N * N) :=
  [ (0x41, 0x5a); (0xc0, 0xd6); (0xd8, 0xde); (0x100, 0x100); (0x102, 0x102);
    (0x104, 0x104); (0x106, 0x106); (0x108, 0x108); (0x10a, 0x10a); (0x10c, 0x10c);
    (0x10e, 0x10e); (0x110, 0x110); (0x112, 0x112); (0x114, 0x114); (0x116, 0x116);
    (0x118, 0x118); (0x11a, 0x11a); (0x11c, 0x11c); (0x11e, 0x11e); (0x120, 0x120);
    (0x122, 0x122); (0x124, 0x124); (0x126, 0x126); (0x128, 0x128); (0x12a, 0x12a);
    (0x12c, 0x12c); (0x12e, 0x12e); (0x130, 0x130); (0x132, 0x132); (0x134, 0x134);
    (0x136, 0x136); (0x139, 0x139); (0x13b, 0x13b); (0x13d, 0x13d); (0x13f, 0x13f);
    (0x141, 0x141); (0x143, 0x143); (0x145, 0x145); (0x147, 0x147); (0x14a, 0x14a);
    (0x14c, 0x14c); (0x14e, 0x14e); (0x150, 0x150); (0x152, 0x152); (0x154, 0x154);
    (0x156, 0x156); (0x158, 0x158); (0x15a, 0x15a); (0x15c, 0x15c); (0x15e, 0x15e);
    (0x160, 0x160); (0x162, 0x162); (0x164, 0x164); (0x166, 0x166); (0x168, 0x168);
    (0x16a, 0x16a); (0x16c, 0x16c); (0x16e, 0x16e); (0x170, 0x170); (0x172, 0x172);
    (0x174, 0x174); (0x176, 0x176); (0x178, 0x179); (0x17b, 0x17b); (0x17d, 0x17d);
    (0x181, 0x182); (0x184, 0x184); (0x186, 0x187); (0x189, 0x18b); (0x18e, 0x191);
    (0x193, 0x194); (0x196, 0x198); (0x19c, 0x19d); (0x19f, 0x1a0); (0x1a2, 0x1a2);
    (0x1a4, 0x1a4); (0x1a6, 0x1a7); (0x1a9, 0x1a9); (0x1ac, 0x1ac); (0x1ae, 0x1af);
    (0x1b1, 0x1b3); (0x1b5, 0x1b5); (0x1b7, 0x1b8); (0x1bc, 0x1bc); (0x1c4, 0x1c5);
    (0x1c7, 0x1c8); (0x1ca, 0x1cb); (0x1cd, 0x1cd); (0x1cf, 0x1cf); (0x1d1, 0x1d1);
    (0x1d3, 0x1d3); (0x1d5, 0x1d5); (0x1d7, 0x1d7); (0x1d9, 0x1d9); (0x1db, 0x1db);
    (0x1de, 0x1de); (0x1e0, 0x1e0); (0x1e2, 0x1e2); (0x1e4, 0x1e4); (0x1e6, 0x1e6);
    (0x1e8, 0x1e8); (0x1ea, 0x1ea); (0x1ec, 0x1ec); (0x1ee, 0x1ee); (0x1f1, 0x1f2);
    (0x1f4, 0x1f4); (0x1f6, 0x1f8); (0x1fa, 0x1fa); (0x1fc, 0x1fc); (0x1fe, 0x1fe);
    (0x200, 0x200); (0x202, 0x202); (0x204, 0x204); (0x206, 0x206); (0x208, 0x208);
    (0x20a, 0x20a); (0x20c, 0x20c); (0x20e, 0x20e); (0x210, 0x210); (0x212, 0x212);
    (0x214, 0x214); (0x216, 0x216); (0x218, 0x218); (0x21a, 0x21a); (0x21c, 0x21c);
    (0x21e, 0x21e); (0x220, 0x220); (0x222, 0x222); (0x224, 0x224); (0x226, 0x226);
    (0x228, 0x228); (0x22a, 0x22a); (0x22c, 0x22c); (0x22e, 0x22e); (0x230, 0x230);
    (0x232, 0x232); (0x23a, 0x23b); (0x23d, 0x23e); (0x241, 0x241); (0x243, 0x246);
    (0x248, 0x248); (0x24a, 0x24a); (0x24c, 0x24c); (0x24e, 0x24e); (0x370, 0x370);
    (0x372, 0x372); (0x376, 0x376); (0x37f, 0x37f); (0x386, 0x386); (0x388, 0x38a);
    (0x38c, 0x38c); (0x38e, 0x38f); (0x391, 0x3a1); (0x3a3, 0x3ab); (0x3cf, 0x3cf);
    (0x3d2, 0x3d4); (0x3d8, 0x3d8); (0x3da, 0x3da); (0x3dc, 0x3dc); (0x3de, 0x3de);
    (0x3e0, 0x3e0); (0x3e2, 0x3e2); (0x3e4, 0x3e4); (0x3e6, 0x3e6); (0x3e8, 0x3e8);
    (0x3ea, 0x3ea); (0x3ec, 0x3ec); (0x3ee, 0x3ee); (0x3f4, 0x3f4); (0x3f7, 0x3f7);
    (0x3f9, 0x3fa); (0x3fd, 0x42f); (0x460, 0x460); (0x462, 0x462); (0x464, 0x464);
    (0x466, 0x466); (0x468, 0x468); (0x46a, 0x46a); (0x46c, 0x46c); (0x46e, 0x46e);
    (0x470, 0x470); (0x472, 0x472); (0x474, 0x474); (0x476, 0x476); (0x478, 0x478);
    (0x47a, 0x47a); (0x47c, 0x47c); (0x47e, 0x47e); (0x480, 0x480); (0x48a, 0x48a);
    (0x48c, 0x48c); (0x48e, 0x48e); (0x490, 0x490); (0x492, 0x492); (0x494, 0x494);
    (0x496, 0x496); (0x498, 0x498); (0x49a, 0x49a); (0x49c, 0x49c); (0x49e, 0x49e);
    (0x4a0, 0x4a0); (0x4a2, 0x4a2); (0x4a4, 0x4a4); (0x4a6, 0x4a6); (0x4a8, 0x4a8);
    (0x4aa, 0x4aa); (0x4ac, 0x4ac); (0x4ae, 0x4ae); (0x4b0, 0x4b0); (0x4b2, 0x4b2);
    (0x4b4, 0x4b4); (0x4b6, 0x4b6); (0x4b8, 0x4b8); (0x4ba, 0x4ba); (0x4bc, 0x4bc);
    (0x4be, 0x4be); (0x4c0, 0x4c1); (0x4c3, 0x4c3); (0x4c5, 0x4c5); (0x4c7, 0x4c7);
    (0x4c9, 0x4c9); (0x4cb, 0x4cb); (0x4cd, 0x4cd); (0x4d0, 0x4d0); (0x4d2, 0x4d2);
    (0x4d4, 0x4d4); (0x4d6, 0x4d6); (0x4d8, 0x4d8); (0x4da, 0x4da); (0x4dc, 0x4dc);
    (0x4de, 0x4de); (0x4e0, 0x4e0); (0x4e2, 0x4e2); (0x4e4, 0x4e4); (0x4e6, 0x4e6);
    (0x4e8, 0x4e8); (0x4ea, 0x4ea); (0x4ec, 0x4ec); (0x4ee, 0x4ee); (0x4f0, 0x4f0);
    (0x4f2, 0x4f2); (0x4f4, 0x4f4); (0x4f6, 0x4f6); (0x4f8, 0x4f8); (0x4fa, 0x4fa);
    (0x4fc, 0x4fc); (0x4fe, 0x4fe); (0x500, 0x500); (0x502, 0x502); (0x504, 0x504);
    (0x506, 0x506); (0x508, 0x508); (0x50a, 0x50a); (0x50c, 0x50c); (0x50e, 0x50e);
    (0x510, 0x510); (0x512, 0x512); (0x514, 0x514); (0x516, 0x516); (0x518, 0x518);
    (0x51a, 0x51a); (0x51c, 0x51c); (0x51e, 0x51e); (0x520, 0x520); (0x522, 0x522);
    (0x524, 0x524); (0x526, 0x526); (0x528, 0x528); (0x52a, 0x52a); (0x52c, 0x52c);
    (0x52e, 0x52e); (0x531, 0x556); (0x10a0, 0x10c5); (0x10c7, 0x10c7); (0x10cd, 0x10cd);
    (0x13a0, 0x13f5); (0x1c90, 0x1cba); (0x1cbd, 0x1cbf); (0x1e00, 0x1e00); (0x1e02, 0x1e02);
    (0x1e04, 0x1e04); (0x1e06, 0x1e06); (0x1e08, 0x1e08); (0x1e0a, 0x1e0a); (0x1e0c, 0x1e0c);
    (0x1e0e, 0x1e0e); (0x1e10, 0x1e10); (0x1e12, 0x1e12); (0x1e14, 0x1e14); (0x1e16, 0x1e16);
    (0x1e18, 0x1e18); (0x1e1a, 0x1e1a); (0x1e1c, 0x1e1c); (0x1e1e, 0x1e1e); (0x1e20, 0x1e20);
    (0x1e22, 0x1e22); (0x1e24, 0x1e24); (0x1e26, 0x1e26); (0x1e28, 0x1e28); (0x1e2a, 0x1e2a);
    (0x1e2c, 0x1e2c); (0x1e2e, 0x1e2e); (0x1e30, 0x1e30); (0x1e32, 0x1e32); (0x1e34, 0x1e34);
    (0x1e36, 0x1e36); (0x1e38, 0x1e38); (0x1e3a, 0x1e3a); (0x1e3c, 0x1e3c); (0x1e3e, 0x1e3e);
    (0x1e40, 0x1e40); (0x1e42, 0x1e42); (0x1e44, 0x1e44); (0x1e46, 0x1e46); (0x1e48, 0x1e48);
    (0x1e4a, 0x1e4a); (0x1e4c, 0x1e4c); (0x1e4e, 0x1e4e); (0x1e50, 0x1e50); (0x1e52, 0x1e52);
    (0x1e54, 0x1e54); (0x1e56, 0x1e56); (0x1e58, 0x1e58); (0x1e5a, 0x1e5a); (0x1e5c, 0x1e5c);
    (0x1e5e, 0x1e5e); (0x1e60, 0x1e60); (0x1e62, 0x1e62); (0x1e64, 0x1e64); (0x1e66, 0x1e66);
    (0x1e68, 0x1e68); (0x1e6a, 0x1e6a); (0x1e6c, 0x1e6c); (0x1e6e, 0x1e6e); (0x1e70, 0x1e70);
    (0x1e72, 0x1e72); (0x1e74, 0x1e74); (0x1e76, 0x1e76); (0x1e78, 0x1e78); (0x1e7a, 0x1e7a);
    (0x1e7c, 0x1e7c); (0x1e7e, 0x1e7e); (0x1e80, 0x1e80); (0x1e82, 0x1e82); (0x1e84, 0x1e84);
    (0x1e86, 0x1e86); (0x1e88, 0x1e88); (0x1e8a, 0x1e8a); (0x1e8c, 0x1e8c); (0x1e8e, 0x1e8e);
    (0x1e90, 0x1e90); (0x1e92, 0x1e92); (0x1e94, 0x1e94); (0x1e9e, 0x1e9e); (0x1ea0, 0x1ea0);
    (0x1ea2, 0x1ea2); (0x1ea4, 0x1ea4); (0x1ea6, 0x1ea6); (0x1ea8, 0x1ea8); (0x1eaa, 0x1eaa);
    (0x1eac, 0x1eac); (0x1eae, 0x1eae); (0x1eb0, 0x1eb0); (0x1eb2, 0x1eb2); (0x1eb4, 0x1eb4);
    (0x1eb6, 0x1eb6); (0x1eb8, 0x1eb8); (0x1eba, 0x1eba); (0x1ebc, 0x1ebc); (0x1ebe, 0x1ebe);
    (0x1ec0, 0x1ec0); (0x1ec2, 0x1ec2); (0x1ec4, 0x1ec4); (0x1ec6, 0x1ec6); (0x1ec8, 0x1ec8);
    (0x1eca, 0x1eca); (0x1ecc, 0x1ecc); (0x1ece, 0x1ece); (0x1ed0, 0x1ed0); (0x1ed2, 0x1ed2);
    (0x1ed4, 0x1ed4); (0x1ed6, 0x1ed6); (0x1ed8, 0x1ed8); (0x1eda, 0x1eda); (0x1edc, 0x1edc);
    (0x1ede, 0x1ede); (0x1ee0, 0x1ee0); (0x1ee2, 0x1ee2); (0x1ee4, 0x1ee4); (0x1ee6, 0x1ee6);
    (0x1ee8, 0x1ee8); (0x1eea, 0x1eea); (0x1eec, 0x1eec); (0x1eee, 0x1eee); (0x1ef0, 0x1ef0);
    (0x1ef2, 0x1ef2); (0x1ef4, 0x1ef4); (0x1ef6, 0x1ef6); (0x1ef8, 0x1ef8); (0x1efa, 0x1efa);
    (0x1efc, 0x1efc); (0x1efe, 0x1efe); (0x1f08, 0x1f0f); (0x1f18, 0x1f1d); (0x1f28, 0x1f2f);
    (0x1f38, 0x1f3f); (0x1f48, 0x1f4d); (0x1f59, 0x1f59); (0x1f5b, 0x1f5b); (0x1f5d, 0x1f5d);
    (0x1f5f, 0x1f5f); (0x1f68, 0x1f6f); (0x1f88, 0x1f8f); (0x1f98, 0x1f9f); (0x1fa8, 0x1faf);
    (0x1fb8, 0x1fbc); (0x1fc8, 0x1fcc); (0x1fd8, 0x1fdb); (0x1fe8, 0x1fec); (0x1ff8, 0x1ffc);
    (0x2102, 0x2102); (0x2107, 0x2107); (0x210b, 0x210d); (0x2110, 0x2112); (0x2115, 0x2115);
    (0x2119, 0x211d); (0x2124, 0x2124); (0x2126, 0x2126); (0x2128, 0x2128); (0x212a, 0x212d);
    (0x2130, 0x2133); (0x213e, 0x213f); (0x2145, 0x2145); (0x2160, 0x216f); (0x2183, 0x2183);
    (0x24b6, 0x24cf); (0x2c00, 0x2c2f); (0x2c60, 0x2c60); (0x2c62, 0x2c64); (0x2c67, 0x2c67);
    (0x2c69, 0x2c69); (0x2c6b, 0x2c6b); (0x2c6d, 0x2c70); (0x2c72, 0x2c72); (0x2c75, 0x2c75);
    (0x2c7e, 0x2c80); (0x2c82, 0x2c82); (0x2c84, 0x2c84); (0x2c86, 0x2c86); (0x2c88, 0x2c88);
    (0x2c8a, 0x2c8a); (0x2c8c, 0x2c8c); (0x2c8e, 0x2c8e); (0x2c90, 0x2c90); (0x2c92, 0x2c92);
    (0x2c94, 0x2c94); (0x2c96, 0x2c96); (0x2c98, 0x2c98); (0x2c9a, 0x2c9a); (0x2c9c, 0x2c9c);
    (0x2c9e, 0x2c9e); (0x2ca0, 0x2ca0); (0x2ca2, 0x2ca2); (0x2ca4, 0x2ca4); (0x2ca6, 0x2ca6);
    (0x2ca8, 0x2ca8); (0x2caa, 0x2caa); (0x2cac, 0x2cac); (0x2cae, 0x2cae); (0x2cb0, 0x2cb0);
    (0x2cb2, 0x2cb2); (0x2cb4, 0x2cb4); (0x2cb6, 0x2cb6); (0x2cb8, 0x2cb8); (0x2cba, 0x2cba);
    (0x2cbc, 0x2cbc); (0x2cbe, 0x2cbe); (0x2cc0, 0x2cc0); (0x2cc2, 0x2cc2); (0x2cc4, 0x2cc4);
    (0x2cc6, 0x2cc6); (0x2cc8, 0x2cc8); (0x2cca, 0x2cca); (0x2ccc, 0x2ccc); (0x2cce, 0x2cce);
    (0x2cd0, 0x2cd0); (0x2cd2, 0x2cd2); (0x2cd4, 0x2cd4); (0x2cd6, 0x2cd6); (0x2cd8, 0x2cd8);
    (0x2cda, 0x2cda); (0x2cdc, 0x2cdc); (0x2cde, 0x2cde); (0x2ce0, 0x2ce0); (0x2ce2, 0x2ce2);
    (0x2ceb, 0x2ceb); (0x2ced, 0x2ced); (0x2cf2, 0x2cf2); (0xa640, 0xa640); (0xa642, 0xa642);
    (0xa644, 0xa644); (0xa646, 0xa646); (0xa648, 0xa648); (0xa64a, 0xa64a); (0xa64c, 0xa64c);
    (0xa64e, 0xa64e); (0xa650, 0xa650); (0xa652, 0xa652); (0xa654, 0xa654); (0xa656, 0xa656);
    (0xa658, 0xa658); (0xa65a, 0xa65a); (0xa65c, 0xa65c); (0xa65e, 0xa65e); (0xa660, 0xa660);
    (0xa662, 0xa662); (0xa664, 0xa664); (0xa666, 0xa666); (0xa668, 0xa668); (0xa66a, 0xa66a);
    (0xa66c, 0xa66c); (0xa680, 0xa680); (0xa682, 0xa682); (0xa684, 0xa684); (0xa686, 0xa686);
    (0xa688, 0xa688); (0xa68a, 0xa68a); (0xa68c, 0xa68c); (0xa68e, 0xa68e); (0xa690, 0xa690);
    (0xa692, 0xa692); (0xa694, 0xa694); (0xa696, 0xa696); (0xa698, 0xa698); (0xa69a, 0xa69a);
    (0xa722, 0xa722); (0xa724, 0xa724); (0xa726, 0xa726); (0xa728, 0xa728); (0xa72a, 0xa72a);
    (0xa72c, 0xa72c); (0xa72e, 0xa72e); (0xa732, 0xa732); (0xa734, 0xa734); (0xa736, 0xa736);
    (0xa738, 0xa738); (0xa73a, 0xa73a); (0xa73c, 0xa73c); (0xa73e, 0xa73e); (0xa740, 0xa740);
    (0xa742, 0xa742); (0xa744, 0xa744); (0xa746, 0xa746); (0xa748, 0xa748); (0xa74a, 0xa74a);
    (0xa74c, 0xa74c); (0xa74e, 0xa74e); (0xa750, 0xa750); (0xa752, 0xa752); (0xa754, 0xa754);
    (0xa756, 0xa756); (0xa758, 0xa758); (0xa75a, 0xa75a); (0xa75c, 0xa75c); (0xa75e, 0xa75e);
    (0xa760, 0xa760); (0xa762, 0xa762); (0xa764, 0xa764); (0xa766, 0xa766); (0xa768, 0xa768);
    (0xa76a, 0xa76a); (0xa76c, 0xa76c); (0xa76e, 0xa76e); (0xa779, 0xa779); (0xa77b, 0xa77b);
    (0xa77d, 0xa77e); (0xa780, 0xa780); (0xa782, 0xa782); (0xa784, 0xa784); (0xa786, 0xa786);
    (0xa78b, 0xa78b); (0xa78d, 0xa78d); (0xa790, 0xa790); (0xa792, 0xa792); (0xa796, 0xa796);
    (0xa798, 0xa798); (0xa79a, 0xa79a); (0xa79c, 0xa79c); (0xa79e, 0xa79e); (0xa7a0, 0xa7a0);
    (0xa7a2, 0xa7a2); (0xa7a4, 0xa7a4); (0xa7a6, 0xa7a6); (0xa7a8, 0xa7a8); (0xa7aa, 0xa7ae);
    (0xa7b0, 0xa7b4); (0xa7b6, 0xa7b6); (0xa7b8, 0xa7b8); (0xa7ba, 0xa7ba); (0xa7bc, 0xa7bc);
    (0xa7be, 0xa7be); (0xa7c0, 0xa7c0); (0xa7c2, 0xa7c2); (0xa7c4, 0xa7c7); (0xa7c9, 0xa7c9);
    (0xa7d0, 0xa7d0); (0xa7d6, 0xa7d6); (0xa7d8, 0xa7d8); (0xa7f5, 0xa7f5); (0xff21, 0xff3a);
    (0x10400, 0x10427); (0x104b0, 0x104d3); (0x10570, 0x1057a); (0x1057c, 0x1058a); (0x1058c, 0x10592);
    (0x10594, 0x10595); (0x10c80, 0x10cb2); (0x118a0, 0x118bf); (0x16e40, 0x16e5f); (0x1d400, 0x1d419);
    (0x1d434, 0x1d44d); (0x1d468, 0x1d481); (0x1d49c, 0x1d49c); (0x1d49e, 0x1d49f); (0x1d4a2, 0x1d4a2);
    (0x1d4a5, 0x1d4a6); (0x1d4a9, 0x1d4ac); (0x1d4ae, 0x1d4b5); (0x1d4d0, 0x1d4e9); (0x1d504, 0x1d505);
    (0x1d507, 0x1d50a); (0x1d50d, 0x1d514); (0x1d516, 0x1d51c); (0x1d538, 0x1d539); (0x1d53b, 0x1d53e);
    (0x1d540, 0x1d544); (0x1d546, 0x1d546); (0x1d54a, 0x1d550); (0x1d56c, 0x1d585); (0x1d5a0, 0x1d5b9);
    (0x1d5d4, 0x1d5ed); (0x1d608, 0x1d621); (0x1d63c, 0x1d655); (0x1d670, 0x1d689); (0x1d6a8, 0x1d6c0);
    (0x1d6e2, 0x1d6fa); (0x1d71c, 0x1d734); (0x1d756, 0x1d76e); (0x1d790, 0x1d7a8); (0x1d7ca, 0x1d7ca);
    (0x1e900, 0x1e921); (0x1f130, 0x1f149); (0x1f150, 0x1f169); (0x1f170, 0x1f189) ].

(** [str.isupper() or str.istitle()] on one code point *)
Definition iscapital (c : char) : bool := in_ranges CAPITAL c.

(** The code points on which [str.isprintable] fails, from U+007F on; below
    it the printable ones are those from the space on. *)
Definition NONPRINTABLE : list (N * N) :=
  [ (0x7f, 0xa0); (0xad, 0xad); (0x378, 0x379); (0x380, 0x383); (0x38b, 0x38b);
    (0x38d, 0x38d); (0x3a2, 0x3a2); (0x530, 0x530); (0x557, 0x558); (0x58b, 0x58c);
    (0x590, 0x590); (0x5c8, 0x5cf); (0x5eb, 0x5ee); (0x5f5, 0x605); (0x61c, 0x61c);
    (0x6dd, 0x6dd); (0x70e, 0x70f); (0x74b, 0x74c); (0x7b2, 0x7bf); (0x7fb, 0x7fc);
    (0x82e, 0x82f); (0x83f, 0x83f); (0x85c, 0x85d); (0x85f, 0x85f); (0x86b, 0x86f);
    (0x88f, 0x897); (0x8e2, 0x8e2); (0x984, 0x984); (0x98d, 0x98e); (0x991, 0x992);
    (0x9a9, 0x9a9); (0x9b1, 0x9b1); (0x9b3, 0x9b5); (0x9ba, 0x9bb); (0x9c5, 0x9c6);
    (0x9c9, 0x9ca); (0x9cf, 0x9d6); (0x9d8, 0x9db); (0x9de, 0x9de); (0x9e4, 0x9e5);
    (0x9ff, 0xa00); (0xa04, 0xa04); (0xa0b, 0xa0e); (0xa11, 0xa12); (0xa29, 0xa29);
    (0xa31, 0xa31); (0xa34, 0xa34); (0xa37, 0xa37); (0xa3a, 0xa3b); (0xa3d, 0xa3d);
    (0xa43, 0xa46); (0xa49, 0xa4a); (0xa4e, 0xa50); (0xa52, 0xa58); (0xa5d, 0xa5d);
    (0xa5f, 0xa65); (0xa77, 0xa80); (0xa84, 0xa84); (0xa8e, 0xa8e); (0xa92, 0xa92);
    (0xaa9, 0xaa9); (0xab1, 0xab1); (0xab4, 0xab4); (0xaba, 0xabb); (0xac6, 0xac6);
    (0xaca, 0xaca); (0xace, 0xacf); (0xad1, 0xadf); (0xae4, 0xae5); (0xaf2, 0xaf8);
    (0xb00, 0xb00); (0xb04, 0xb04); (0xb0d, 0xb0e); (0xb11, 0xb12); (0xb29, 0xb29);
    (0xb31, 0xb31); (0xb34, 0xb34); (0xb3a, 0xb3b); (0xb45, 0xb46); (0xb49, 0xb4a);
    (0xb4e, 0xb54); (0xb58, 0xb5b); (0xb5e, 0xb5e); (0xb64, 0xb65); (0xb78, 0xb81);
    (0xb84, 0xb84); (0xb8b, 0xb8d); (0xb91, 0xb91); (0xb96, 0xb98); (0xb9b, 0xb9b);
    (0xb9d, 0xb9d); (0xba0, 0xba2); (0xba5, 0xba7); (0xbab, 0xbad); (0xbba, 0xbbd);
    (0xbc3, 0xbc5); (0xbc9, 0xbc9); (0xbce, 0xbcf); (0xbd1, 0xbd6); (0xbd8, 0xbe5);
    (0xbfb, 0xbff); (0xc0d, 0xc0d); (0xc11, 0xc11); (0xc29, 0xc29); (0xc3a, 0xc3b);
    (0xc45, 0xc45); (0xc49, 0xc49); (0xc4e, 0xc54); (0xc57, 0xc57); (0xc5b, 0xc5c);
    (0xc5e, 0xc5f); (0xc64, 0xc65); (0xc70, 0xc76); (0xc8d, 0xc8d); (0xc91, 0xc91);
    (0xca9, 0xca9); (0xcb4, 0xcb4); (0xcba, 0xcbb); (0xcc5, 0xcc5); (0xcc9, 0xcc9);
    (0xcce, 0xcd4); (0xcd7, 0xcdc); (0xcdf, 0xcdf); (0xce4, 0xce5); (0xcf0, 0xcf0);
    (0xcf3, 0xcff); (0xd0d, 0xd0d); (0xd11, 0xd11); (0xd45, 0xd45); (0xd49, 0xd49);
    (0xd50, 0xd53); (0xd64, 0xd65); (0xd80, 0xd80); (0xd84, 0xd84); (0xd97, 0xd99);
    (0xdb2, 0xdb2); (0xdbc, 0xdbc); (0xdbe, 0xdbf); (0xdc7, 0xdc9); (0xdcb, 0xdce);
    (0xdd5, 0xdd5); (0xdd7, 0xdd7); (0xde0, 0xde5); (0xdf0, 0xdf1); (0xdf5, 0xe00);
    (0xe3b, 0xe3e); (0xe5c, 0xe80); (0xe83, 0xe83); (0xe85, 0xe85); (0xe8b, 0xe8b);
    (0xea4, 0xea4); (0xea6, 0xea6); (0xebe, 0xebf); (0xec5, 0xec5); (0xec7, 0xec7);
    (0xece, 0xecf); (0xeda, 0xedb); (0xee0, 0xeff); (0xf48, 0xf48); (0xf6d, 0xf70);
    (0xf98, 0xf98); (0xfbd, 0xfbd); (0xfcd, 0xfcd); (0xfdb, 0xfff); (0x10c6, 0x10c6);
    (0x10c8, 0x10cc); (0x10ce, 0x10cf); (0x1249, 0x1249); (0x124e, 0x124f); (0x1257, 0x1257);
    (0x1259, 0x1259); (0x125e, 0x125f); (0x1289, 0x1289); (0x128e, 0x128f); (0x12b1, 0x12b1);
    (0x12b6, 0x12b7); (0x12bf, 0x12bf); (0x12c1, 0x12c1); (0x12c6, 0x12c7); (0x12d7, 0x12d7);
    (0x1311, 0x1311); (0x1316, 0x1317); (0x135b, 0x135c); (0x137d, 0x137f); (0x139a, 0x139f);
    (0x13f6, 0x13f7); (0x13fe, 0x13ff); (0x1680, 0x1680); (0x169d, 0x169f); (0x16f9, 0x16ff);
    (0x1716, 0x171e); (0x1737, 0x173f); (0x1754, 0x175f); (0x176d, 0x176d); (0x1771, 0x1771);
    (0x1774, 0x177f); (0x17de, 0x17df); (0x17ea, 0x17ef); (0x17fa, 0x17ff); (0x180e, 0x180e);
    (0x181a, 0x181f); (0x1879, 0x187f); (0x18ab, 0x18af); (0x18f6, 0x18ff); (0x191f, 0x191f);
    (0x192c, 0x192f); (0x193c, 0x193f); (0x1941, 0x1943); (0x196e, 0x196f); (0x1975, 0x197f);
    (0x19ac, 0x19af); (0x19ca, 0x19cf); (0x19db, 0x19dd); (0x1a1c, 0x1a1d); (0x1a5f, 0x1a5f);
    (0x1a7d, 0x1a7e); (0x1a8a, 0x1a8f); (0x1a9a, 0x1a9f); (0x1aae, 0x1aaf); (0x1acf, 0x1aff);
    (0x1b4d, 0x1b4f); (0x1b7f, 0x1b7f); (0x1bf4, 0x1bfb); (0x1c38, 0x1c3a); (0x1c4a, 0x1c4c);
    (0x1c89, 0x1c8f); (0x1cbb, 0x1cbc); (0x1cc8, 0x1ccf); (0x1cfb, 0x1cff); (0x1f16, 0x1f17);
    (0x1f1e, 0x1f1f); (0x1f46, 0x1f47); (0x1f4e, 0x1f4f); (0x1f58, 0x1f58); (0x1f5a, 0x1f5a);
    (0x1f5c, 0x1f5c); (0x1f5e, 0x1f5e); (0x1f7e, 0x1f7f); (0x1fb5, 0x1fb5); (0x1fc5, 0x1fc5);
    (0x1fd4, 0x1fd5); (0x1fdc, 0x1fdc); (0x1ff0, 0x1ff1); (0x1ff5, 0x1ff5); (0x1fff, 0x200f);
    (0x2028, 0x202f); (0x205f, 0x206f); (0x2072, 0x2073); (0x208f, 0x208f); (0x209d, 0x209f);
    (0x20c1, 0x20cf); (0x20f1, 0x20ff); (0x218c, 0x218f); (0x2427, 0x243f); (0x244b, 0x245f);
    (0x2b74, 0x2b75); (0x2b96, 0x2b96); (0x2cf4, 0x2cf8); (0x2d26, 0x2d26); (0x2d28, 0x2d2c);
    (0x2d2e, 0x2d2f); (0x2d68, 0x2d6e); (0x2d71, 0x2d7e); (0x2d97, 0x2d9f); (0x2da7, 0x2da7);
    (0x2daf, 0x2daf); (0x2db7, 0x2db7); (0x2dbf, 0x2dbf); (0x2dc7, 0x2dc7); (0x2dcf, 0x2dcf);
    (0x2dd7, 0x2dd7); (0x2ddf, 0x2ddf); (0x2e5e, 0x2e7f); (0x2e9a, 0x2e9a); (0x2ef4, 0x2eff);
    (0x2fd6, 0x2fef); (0x2ffc, 0x3000); (0x3040, 0x3040); (0x3097, 0x3098); (0x3100, 0x3104);
    (0x3130, 0x3130); (0x318f, 0x318f); (0x31e4, 0x31ef); (0x321f, 0x321f); (0xa48d, 0xa48f);
    (0xa4c7, 0xa4cf); (0xa62c, 0xa63f); (0xa6f8, 0xa6ff); (0xa7cb, 0xa7cf); (0xa7d2, 0xa7d2);
    (0xa7d4, 0xa7d4); (0xa7da, 0xa7f1); (0xa82d, 0xa82f); (0xa83a, 0xa83f); (0xa878, 0xa87f);
    (0xa8c6, 0xa8cd); (0xa8da, 0xa8df); (0xa954, 0xa95e); (0xa97d, 0xa97f); (0xa9ce, 0xa9ce);
    (0xa9da, 0xa9dd); (0xa9ff, 0xa9ff); (0xaa37, 0xaa3f); (0xaa4e, 0xaa4f); (0xaa5a, 0xaa5b);
    (0xaac3, 0xaada); (0xaaf7, 0xab00); (0xab07, 0xab08); (0xab0f, 0xab10); (0xab17, 0xab1f);
    (0xab27, 0xab27); (0xab2f, 0xab2f); (0xab6c, 0xab6f); (0xabee, 0xabef); (0xabfa, 0xabff);
    (0xd7a4, 0xd7af); (0xd7c7, 0xd7ca); (0xd7fc, 0xf8ff); (0xfa6e, 0xfa6f); (0xfada, 0xfaff);
    (0xfb07, 0xfb12); (0xfb18, 0xfb1c); (0xfb37, 0xfb37); (0xfb3d, 0xfb3d); (0xfb3f, 0xfb3f);
    (0xfb42, 0xfb42); (0xfb45, 0xfb45); (0xfbc3, 0xfbd2); (0xfd90, 0xfd91); (0xfdc8, 0xfdce);
    (0xfdd0, 0xfdef); (0xfe1a, 0xfe1f); (0xfe53, 0xfe53); (0xfe67, 0xfe67); (0xfe6c, 0xfe6f);
    (0xfe75, 0xfe75); (0xfefd, 0xff00); (0xffbf, 0xffc1); (0xffc8, 0xffc9); (0xffd0, 0xffd1);
    (0xffd8, 0xffd9); (0xffdd, 0xffdf); (0xffe7, 0xffe7); (0xffef, 0xfffb); (0xfffe, 0xffff);
    (0x1000c, 0x1000c); (0x10027, 0x10027); (0x1003b, 0x1003b); (0x1003e, 0x1003e); (0x1004e, 0x1004f);
    (0x1005e, 0x1007f); (0x100fb, 0x100ff); (0x10103, 0x10106); (0x10134, 0x10136); (0x1018f, 0x1018f);
    (0x1019d, 0x1019f); (0x101a1, 0x101cf); (0x101fe, 0x1027f); (0x1029d, 0x1029f); (0x102d1, 0x102df);
    (0x102fc, 0x102ff); (0x10324, 0x1032c); (0x1034b, 0x1034f); (0x1037b, 0x1037f); (0x1039e, 0x1039e);
    (0x103c4, 0x103c7); (0x103d6, 0x103ff); (0x1049e, 0x1049f); (0x104aa, 0x104af); (0x104d4, 0x104d7);
    (0x104fc, 0x104ff); (0x10528, 0x1052f); (0x10564, 0x1056e); (0x1057b, 0x1057b); (0x1058b, 0x1058b);
    (0x10593, 0x10593); (0x10596, 0x10596); (0x105a2, 0x105a2); (0x105b2, 0x105b2); (0x105ba, 0x105ba);
    (0x105bd, 0x105ff); (0x10737, 0x1073f); (0x10756, 0x1075f); (0x10768, 0x1077f); (0x10786, 0x10786);
    (0x107b1, 0x107b1); (0x107bb, 0x107ff); (0x10806, 0x10807); (0x10809, 0x10809); (0x10836, 0x10836);
    (0x10839, 0x1083b); (0x1083d, 0x1083e); (0x10856, 0x10856); (0x1089f, 0x108a6); (0x108b0, 0x108df);
    (0x108f3, 0x108f3); (0x108f6, 0x108fa); (0x1091c, 0x1091e); (0x1093a, 0x1093e); (0x10940, 0x1097f);
    (0x109b8, 0x109bb); (0x109d0, 0x109d1); (0x10a04, 0x10a04); (0x10a07, 0x10a0b); (0x10a14, 0x10a14);
    (0x10a18, 0x10a18); (0x10a36, 0x10a37); (0x10a3b, 0x10a3e); (0x10a49, 0x10a4f); (0x10a59, 0x10a5f);
    (0x10aa0, 0x10abf); (0x10ae7, 0x10aea); (0x10af7, 0x10aff); (0x10b36, 0x10b38); (0x10b56, 0x10b57);
    (0x10b73, 0x10b77); (0x10b92, 0x10b98); (0x10b9d, 0x10ba8); (0x10bb0, 0x10bff); (0x10c49, 0x10c7f);
    (0x10cb3, 0x10cbf); (0x10cf3, 0x10cf9); (0x10d28, 0x10d2f); (0x10d3a, 0x10e5f); (0x10e7f, 0x10e7f);
    (0x10eaa, 0x10eaa); (0x10eae, 0x10eaf); (0x10eb2, 0x10eff); (0x10f28, 0x10f2f); (0x10f5a, 0x10f6f);
    (0x10f8a, 0x10faf); (0x10fcc, 0x10fdf); (0x10ff7, 0x10fff); (0x1104e, 0x11051); (0x11076, 0x1107e);
    (0x110bd, 0x110bd); (0x110c3, 0x110cf); (0x110e9, 0x110ef); (0x110fa, 0x110ff); (0x11135, 0x11135);
    (0x11148, 0x1114f); (0x11177, 0x1117f); (0x111e0, 0x111e0); (0x111f5, 0x111ff); (0x11212, 0x11212);
    (0x1123f, 0x1127f); (0x11287, 0x11287); (0x11289, 0x11289); (0x1128e, 0x1128e); (0x1129e, 0x1129e);
    (0x112aa, 0x112af); (0x112eb, 0x112ef); (0x112fa, 0x112ff); (0x11304, 0x11304); (0x1130d, 0x1130e);
    (0x11311, 0x11312); (0x11329, 0x11329); (0x11331, 0x11331); (0x11334, 0x11334); (0x1133a, 0x1133a);
    (0x11345, 0x11346); (0x11349, 0x1134a); (0x1134e, 0x1134f); (0x11351, 0x11356); (0x11358, 0x1135c);
    (0x11364, 0x11365); (0x1136d, 0x1136f); (0x11375, 0x113ff); (0x1145c, 0x1145c); (0x11462, 0x1147f);
    (0x114c8, 0x114cf); (0x114da, 0x1157f); (0x115b6, 0x115b7); (0x115de, 0x115ff); (0x11645, 0x1164f);
    (0x1165a, 0x1165f); (0x1166d, 0x1167f); (0x116ba, 0x116bf); (0x116ca, 0x116ff); (0x1171b, 0x1171c);
    (0x1172c, 0x1172f); (0x11747, 0x117ff); (0x1183c, 0x1189f); (0x118f3, 0x118fe); (0x11907, 0x11908);
    (0x1190a, 0x1190b); (0x11914, 0x11914); (0x11917, 0x11917); (0x11936, 0x11936); (0x11939, 0x1193a);
    (0x11947, 0x1194f); (0x1195a, 0x1199f); (0x119a8, 0x119a9); (0x119d8, 0x119d9); (0x119e5, 0x119ff);
    (0x11a48, 0x11a4f); (0x11aa3, 0x11aaf); (0x11af9, 0x11bff); (0x11c09, 0x11c09); (0x11c37, 0x11c37);
    (0x11c46, 0x11c4f); (0x11c6d, 0x11c6f); (0x11c90, 0x11c91); (0x11ca8, 0x11ca8); (0x11cb7, 0x11cff);
    (0x11d07, 0x11d07); (0x11d0a, 0x11d0a); (0x11d37, 0x11d39); (0x11d3b, 0x11d3b); (0x11d3e, 0x11d3e);
    (0x11d48, 0x11d4f); (0x11d5a, 0x11d5f); (0x11d66, 0x11d66); (0x11d69, 0x11d69); (0x11d8f, 0x11d8f);
    (0x11d92, 0x11d92); (0x11d99, 0x11d9f); (0x11daa, 0x11edf); (0x11ef9, 0x11faf); (0x11fb1, 0x11fbf);
    (0x11ff2, 0x11ffe); (0x1239a, 0x123ff); (0x1246f, 0x1246f); (0x12475, 0x1247f); (0x12544, 0x12f8f);
    (0x12ff3, 0x12fff); (0x1342f, 0x143ff); (0x14647, 0x167ff); (0x16a39, 0x16a3f); (0x16a5f, 0x16a5f);
    (0x16a6a, 0x16a6d); (0x16abf, 0x16abf); (0x16aca, 0x16acf); (0x16aee, 0x16aef); (0x16af6, 0x16aff);
    (0x16b46, 0x16b4f); (0x16b5a, 0x16b5a); (0x16b62, 0x16b62); (0x16b78, 0x16b7c); (0x16b90, 0x16e3f);
    (0x16e9b, 0x16eff); (0x16f4b, 0x16f4e); (0x16f88, 0x16f8e); (0x16fa0, 0x16fdf); (0x16fe5, 0x16fef);
    (0x16ff2, 0x16fff); (0x187f8, 0x187ff); (0x18cd6, 0x18cff); (0x18d09, 0x1afef); (0x1aff4, 0x1aff4);
    (0x1affc, 0x1affc); (0x1afff, 0x1afff); (0x1b123, 0x1b14f); (0x1b153, 0x1b163); (0x1b168, 0x1b16f);
    (0x1b2fc, 0x1bbff); (0x1bc6b, 0x1bc6f); (0x1bc7d, 0x1bc7f); (0x1bc89, 0x1bc8f); (0x1bc9a, 0x1bc9b);
    (0x1bca0, 0x1ceff); (0x1cf2e, 0x1cf2f); (0x1cf47, 0x1cf4f); (0x1cfc4, 0x1cfff); (0x1d0f6, 0x1d0ff);
    (0x1d127, 0x1d128); (0x1d173, 0x1d17a); (0x1d1eb, 0x1d1ff); (0x1d246, 0x1d2df); (0x1d2f4, 0x1d2ff);
    (0x1d357, 0x1d35f); (0x1d379, 0x1d3ff); (0x1d455, 0x1d455); (0x1d49d, 0x1d49d); (0x1d4a0, 0x1d4a1);
    (0x1d4a3, 0x1d4a4); (0x1d4a7, 0x1d4a8); (0x1d4ad, 0x1d4ad); (0x1d4ba, 0x1d4ba); (0x1d4bc, 0x1d4bc);
    (0x1d4c4, 0x1d4c4); (0x1d506, 0x1d506); (0x1d50b, 0x1d50c); (0x1d515, 0x1d515); (0x1d51d, 0x1d51d);
    (0x1d53a, 0x1d53a); (0x1d53f, 0x1d53f); (0x1d545, 0x1d545); (0x1d547, 0x1d549); (0x1d551, 0x1d551);
    (0x1d6a6, 0x1d6a7); (0x1d7cc, 0x1d7cd); (0x1da8c, 0x1da9a); (0x1daa0, 0x1daa0); (0x1dab0, 0x1deff);
    (0x1df1f, 0x1dfff); (0x1e007, 0x1e007); (0x1e019, 0x1e01a); (0x1e022, 0x1e022); (0x1e025, 0x1e025);
    (0x1e02b, 0x1e0ff); (0x1e12d, 0x1e12f); (0x1e13e, 0x1e13f); (0x1e14a, 0x1e14d); (0x1e150, 0x1e28f);
    (0x1e2af, 0x1e2bf); (0x1e2fa, 0x1e2fe); (0x1e300, 0x1e7df); (0x1e7e7, 0x1e7e7); (0x1e7ec, 0x1e7ec);
    (0x1e7ef, 0x1e7ef); (0x1e7ff, 0x1e7ff); (0x1e8c5, 0x1e8c6); (0x1e8d7, 0x1e8ff); (0x1e94c, 0x1e94f);
    (0x1e95a, 0x1e95d); (0x1e960, 0x1ec70); (0x1ecb5, 0x1ed00); (0x1ed3e, 0x1edff); (0x1ee04, 0x1ee04);
    (0x1ee20, 0x1ee20); (0x1ee23, 0x1ee23); (0x1ee25, 0x1ee26); (0x1ee28, 0x1ee28); (0x1ee33, 0x1ee33);
    (0x1ee38, 0x1ee38); (0x1ee3a, 0x1ee3a); (0x1ee3c, 0x1ee41); (0x1ee43, 0x1ee46); (0x1ee48, 0x1ee48);
    (0x1ee4a, 0x1ee4a); (0x1ee4c, 0x1ee4c); (0x1ee50, 0x1ee50); (0x1ee53, 0x1ee53); (0x1ee55, 0x1ee56);
    (0x1ee58, 0x1ee58); (0x1ee5a, 0x1ee5a); (0x1ee5c, 0x1ee5c); (0x1ee5e, 0x1ee5e); (0x1ee60, 0x1ee60);
    (0x1ee63, 0x1ee63); (0x1ee65, 0x1ee66); (0x1ee6b, 0x1ee6b); (0x1ee73, 0x1ee73); (0x1ee78, 0x1ee78);
    (0x1ee7d, 0x1ee7d); (0x1ee7f, 0x1ee7f); (0x1ee8a, 0x1ee8a); (0x1ee9c, 0x1eea0); (0x1eea4, 0x1eea4);
    (0x1eeaa, 0x1eeaa); (0x1eebc, 0x1eeef); (0x1eef2, 0x1efff); (0x1f02c, 0x1f02f); (0x1f094, 0x1f09f);
    (0x1f0af, 0x1f0b0); (0x1f0c0, 0x1f0c0); (0x1f0d0, 0x1f0d0); (0x1f0f6, 0x1f0ff); (0x1f1ae, 0x1f1e5);
    (0x1f203, 0x1f20f); (0x1f23c, 0x1f23f); (0x1f249, 0x1f24f); (0x1f252, 0x1f25f); (0x1f266, 0x1f2ff);
    (0x1f6d8, 0x1f6dc); (0x1f6ed, 0x1f6ef); (0x1f6fd, 0x1f6ff); (0x1f774, 0x1f77f); (0x1f7d9, 0x1f7df);
    (0x1f7ec, 0x1f7ef); (0x1f7f1, 0x1f7ff); (0x1f80c, 0x1f80f); (0x1f848, 0x1f84f); (0x1f85a, 0x1f85f);
    (0x1f888, 0x1f88f); (0x1f8ae, 0x1f8af); (0x1f8b2, 0x1f8ff); (0x1fa54, 0x1fa5f); (0x1fa6e, 0x1fa6f);
    (0x1fa75, 0x1fa77); (0x1fa7d, 0x1fa7f); (0x1fa87, 0x1fa8f); (0x1faad, 0x1faaf); (0x1fabb, 0x1fabf);
    (0x1fac6, 0x1facf); (0x1fada, 0x1fadf); (0x1fae8, 0x1faef); (0x1faf7, 0x1faff); (0x1fb93, 0x1fb93);
    (0x1fbcb, 0x1fbef); (0x1fbfa, 0x1ffff); (0x2a6e0, 0x2a6ff); (0x2b739, 0x2b73f); (0x2b81e, 0x2b81f);
    (0x2cea2, 0x2ceaf); (0x2ebe1, 0x2f7ff); (0x2fa1e, 0x2ffff); (0x3134b, 0xe00ff); (0xe01f0, 0x10ffff) ].

Definition isprintable (c : char) : bool :=
  if c <? 0x7f then 0x20 <=? c else negb (in_ranges NONPRINTABLE c).

(** The digit zero of every decimal script; the nine code points after it
    are the digits one to nine. *)
Definition DECIMAL_ZEROS : list N :=
  [ 0x30; 0x660; 0x6f0; 0x7c0; 0x966; 0x9e6; 0xa66; 0xae6;
    0xb66; 0xbe6; 0xc66; 0xce6; 0xd66; 0xde6; 0xe50; 0xed0;
    0xf20; 0x1040; 0x1090; 0x17e0; 0x1810; 0x1946; 0x19d0; 0x1a80;
    0x1a90; 0x1b50; 0x1bb0; 0x1c40; 0x1c50; 0xa620; 0xa8d0; 0xa900;
    0xa9d0; 0xa9f0; 0xaa50; 0xabf0; 0xff10; 0x104a0; 0x10d30; 0x11066;
    0x110f0; 0x11136; 0x111d0; 0x112f0; 0x11450; 0x114d0; 0x11650; 0x116c0;
    0x11730; 0x118e0; 0x11950; 0x11c50; 0x11d50; 0x11da0; 0x16a60; 0x16ac0;
    0x16b50; 0x1d7ce; 0x1d7d8; 0x1d7e2; 0x1d7ec; 0x1d7f6; 0x1e140; 0x1e2f0;
    0x1e950; 0x1fbf0 ].

(** The value of a decimal digit *)
Definition decimal (c : char) : option N :=
  match find (fun z => in_range z (z + 9) c) DECIMAL_ZEROS with
  | Some z => Some (c - z)
  | None => None
  end.

Definition SIGMA : char := 0x3a3.
Definition FINAL_SIGMA : char := 0x3c2.
Definition SMALL_SIGMA : char := 0x3c3.

Close Scope N_scope.

(** Whether a cased letter follows, the case-ignorable characters before it
    skipped. *)
Fixpoint followed_by_cased (s : str) : bool :=
  match s with
  | [] => false
  | c :: s' => if case_ignorable c then followed_by_cased s' else cased c
  end.

(** [s.lower()]: every code point is replaced by its lowercase, but a
    capital sigma becomes the final sigma when a cased letter comes before
    it and none comes after it (case-ignorable characters skipped on both
    sides), and the small sigma otherwise.  [after_cased] tells whether the
    last character read that is not case-ignorable is cased. *)
Fixpoint lower_from (after_cased : bool) (s : str) : str :=
  match s with
  | [] => []
  | c :: s' =>
      (if N.eqb c SIGMA
       then [if after_cased && negb (followed_by_cased s')
             then FINAL_SIGMA else SMALL_SIGMA]
       else lower_char c)
      ++ lower_from (if case_ignorable c then after_cased else cased c) s'
  end.

Definition lower (s : str) : str := lower_from false s.

(** [str(n)] for an [int]. *)
Definition str_of_Z (z : Z) : str := lit (NilZero.string_of_int (Z.to_int z)).
Definition str_of_nat (n : nat) : str := str_of_Z (Z.of_nat n).

Open Scope N_scope.

(** [repr(s)]: the string between apostrophes, or between double quotes
    when it holds an apostrophe and no double quote; the quote in use and
    the backslash are escaped, and so is every character that is not
    printable. *)
Definition hex_digit (n : N) : char := if n <? 10 then 48 + n else 87 + n.

Fixpoint hex (width : nat) (n : N) : str :=
  match width with
  | O => []
  | S w => hex w (n / 16) ++ [hex_digit (n mod 16)]
  end.

Definition repr_char (quote c : char) : str :=
  if (c =? quote) || (c =? 92) then [92; c]
  else if c =? 9 then lit "\t"
  else if c =? 10 then lit "\n"
  else if c =? 13 then lit "\r"
  else if isprintable c then [c]
  else if c <? 0x100 then lit "\x" ++ hex 2 c
  else if c <? 0x10000 then lit "\u" ++ hex 4 c
  else lit "\U" ++ hex 8 c.

Definition repr_str (s : str) : str :=
  let quote := if char_in s 39 && negb (char_in s 34) then 34 else 39 in
  [quote] ++ flat_map (repr_char quote) s ++ [quote].

(** [int(s)].  CPython first rewrites the string to ASCII: above U+007E a
    white-space character becomes a space, a decimal digit its ASCII digit,
    and anything else a question mark.  It then reads ASCII white space, an
    optional sign, digits that single underscores may separate, and ASCII
    white space, and refuses a literal of more than 4300 digits.
    [int_ascii] instantiates the parser that the converter takes as a
    parameter. *)
Definition ascii_space (c : char) : bool := in_range 9 13 c || (c =? 32).

Definition to_ascii (c : char) : char :=
  if c <? 127 then c
  else if isspace c then 32
  else match decimal c with
       | Some v => 48 + v
       | None => 63
       end.

Close Scope N_scope.

(** The value and the number of the digits read; [after_digit] tells
    whether the last character read is a digit. *)
Fixpoint digits_value (after_digit : bool) (acc : Z) (count : nat) (s : str)
  : option (Z * nat) :=
  match s with
  | [] => if after_digit then Some (acc, count) else None
  | c :: s' =>
      if in_range 48 57 c
      then digits_value true (10 * acc + Z.of_N (c - 48)) (S count) s'
      else if N.eqb c 95 && after_digit
      then digits_value false acc count s'
      else None
  end.

(** The integer literal in [s], if [s] is one: its value and the number of
    its digits. *)
Definition literal (s : str) : option (Z * nat) :=
  match strip_by ascii_space (map to_ascii s) with
  | 43%N :: ds => digits_value false 0 0 ds
  | 45%N :: ds =>
      option_map (fun vn => (Z.opp (fst vn), snd vn)) (digits_value false 0 0 ds)
  | ds => digits_value false 0 0 ds
  end.

Definition MAX_STR_DIGITS : nat := 4300.

Definition int_ascii (s : str) : option Z :=
  match literal s with
  | Some (z, count) => if count <=? MAX_STR_DIGITS then Some z else None
  | None => None
  end.

(** The message of the [ValueError] that [int(s)] raises. *)
Definition int_error (s : str) : str :=
  match literal s with
  | Some (_, count) =>
      if MAX_STR_DIGITS <? count
      then lit "Exceeds the limit (4300 digits) for integer string conversion: value has "
             ++ str_of_nat count
             ++ lit " digits; use sys.set_int_max_str_digits() to increase the limit"
      else lit "invalid literal for int() with base 10: "
             ++ firstn 200 (repr_str s)
  | None =>
      lit "invalid literal for int() with base 10: " ++ firstn 200 (repr_str s)
  end.

Arguments isalnum : simpl never.
Arguments iscapital : simpl never.
Arguments lower_char : simpl never.
Arguments cased : simpl never.
Arguments case_ignorable : simpl never.
Arguments isprintable : simpl never.
Arguments decimal : simpl never.

(** ** Exceptions and the error monad *)

Inductive exn_kind :=
  | ValueError | TypeError | IndexError | KeyError
  | UnicodeDecodeError | StopIteration | OSError.

(** An exception: its class and [str(e)]. *)
Record exn := Exn { kind : exn_kind; message : str }.

(** The result of running a piece of code: a value, a raised exception, or
    a recursion that did not finish within the budget it was given. *)
Inductive outcome (A : Type) :=
  | Ok (a : A)
  | Raise (e : exn)
  | OutOfFuel.
Arguments Ok {A} a.
Arguments Raise {A} e.
Arguments OutOfFuel {A}.

Definition bind {A B} (m : outcome A) (k : A -> outcome B) : outcome B :=
  match m with
  | Ok a => k a
  | Raise e => Raise e
  | OutOfFuel => OutOfFuel
  end.

Notation "x <- m ;; k" := (bind m (fun x => k))
  (at level 61, m at next level, right associativity).

(** A [for] loop that builds a list and stops at the first exception. *)
Fixpoint mapM {A B} (f : A -> outcome B) (l : list A) : outcome (list B) :=
  match l with
  | [] => Ok []
  | a :: l' => b <- f a ;; bs <- mapM f l' ;; Ok (b :: bs)
  end.

(** A [for] loop that threads a state. *)
Fixpoint foldM {A S} (f : S -> A -> outcome S) (l : list A) (s : S)
  : outcome S :=
  match l with
  | [] => Ok s
  | a :: l' => s' <- f s a ;; foldM f l' s'
  end.

(** [l[i]] and [l[i] = v] *)
Definition index_error : exn := Exn IndexError (lit "list index out of range").

Definition getitem {A} (l : list A) (i : nat) : outcome A :=
  match nth_error l i with
  | Some a => Ok a
  | None => Raise index_error
  end.

Fixpoint set_nth {A} (l : list A) (i : nat) (v : A) : list A :=
  match l, i with
  | [], _ => []
  | _ :: l', O => v :: l'
  | a :: l', S i' => a :: set_nth l' i' v
  end.

Definition setitem {A} (l : list A) (i : nat) (v : A) : outcome (list A) :=
  if i <? length l then Ok (set_nth l i v)
  else Raise (Exn IndexError (lit "list assignment index out of range")).

(** [l[start:stop]] for indices within the list *)
Definition slice {A} (l : list A) (start stop : nat) : list A :=
  firstn (stop - start) (skipn start l).

(** [l.index(x)] *)
Fixpoint index_go (x : str) (l : list str) (i : nat) : outcome nat :=
  match l with
  | [] => Raise (Exn ValueError (repr_str x ++ lit " is not in list"))
  | y :: l' => if str_eqb y x then Ok i else index_go x l' (S i)
  end.

Definition index (l : list str) (x : str) : outcome nat := index_go x l 0.

(** ** Dictionaries with string keys, in insertion order *)

Definition dict (V : Type) := list (str * V).

Fixpoint dict_get {V} (k : str) (d : dict V) : option V :=
  match d with
  | [] => None
  | (k', v) :: d' => if str_eqb k' k then Some v else dict_get k d'
  end.

(** [d[k] = v]: a key that is present keeps its position. *)
Fixpoint dict_set {V} (k : str) (v : V) (d : dict V) : dict V :=
  match d with
  | [] => [(k, v)]
  | (k', v') :: d' =>
      if str_eqb k' k then (k', v) :: d' else (k', v') :: dict_set k v d'
  end.

Definition dict_keys {V} (d : dict V) : list str := map fst d.

(** [d[k]] *)
Definition dict_item {V} (d : dict V) (k : str) : outcome V :=
  match dict_get k d with
  | Some v => Ok v
  | None => Raise (Exn KeyError (repr_str k))
  end.

(** ** [list.sort(key=...)]: the keys are computed first, for every element
    in order; the sort is stable. *)
Fixpoint insert_by {A} (k : nat) (x : A) (l : list (nat * A))
  : list (nat * A) :=
  match l with
  | [] => [(k, x)]
  | (k', y) :: l' =>
      if k' <? k then (k', y) :: insert_by k x l' else (k, x) :: l
  end.

Definition sort_keyed {A} (l : list (nat * A)) : list (nat * A) :=
  fold_right (fun kx acc => insert_by (fst kx) (snd kx) acc) [] l.

Definition sort_by {A} (key : A -> outcome nat) (l : list A)
  : outcome (list A) :=
  keyed <- mapM (fun x => k <- key x ;; Ok (k, x)) l ;;
  Ok (map snd (sort_keyed keyed)).

(** ** Effects: console output and the file system *)

Inductive event :=
  | Mkdir (p : str)
  | Printed (msg : str)
  | WriteFile (p : str) (rows : list (list str)).

(** Code with effects returns its outcome and the events it produced. *)
Definition io (A : Type) : Type := outcome A * list event.

Definition io_ret {A} (a : A) : io A := (Ok a, []).

Definition io_bind {A B} (m : io A) (k : A -> io B) : io B :=
  match m with
  | (Ok a, t) => let (r, t') := k a in (r, t ++ t')
  | (Raise e, t) => (Raise e, t)
  | (OutOfFuel, t) => (OutOfFuel, t)
  end.

Definition lift {A} (m : outcome A) : io A := (m, []).

Definition emit (e : event) : io unit := (Ok tt, [e]).

Notation "x <~ m ;; k" := (io_bind m (fun x => k))
  (at level 61, m at next level, right associativity).

Fixpoint io_mapM {A B} (f : A -> io B) (l : list A) : io (list B) :=
  match l with
  | [] => io_ret []
  | a :: l' => b <~ f a ;; bs <~ io_mapM f l' ;; io_ret (b :: bs)
  end.

(** ** The [csv] module *)

(** The objects handed to [csv.writer] in this program. *)
Inductive pyobj :=
  | ListObj (items : list str)
  | FileObj (p : str).

(** [csv.writer(o)] looks up the [write] method of [o] and raises
    [TypeError] when there is none; a [list] has none. *)
Definition csv_writer (o : pyobj) : outcome str :=
  match o with
  | ListObj _ =>
      Raise (Exn TypeError
               (lit "argument 1 must have a " ++ [34%N] ++ lit "write"
                  ++ [34%N] ++ lit " method"))
  | FileObj p => Ok p
  end.

(** ** The input file

    What the program sees of an input file opened with one encoding:
    either opening it or one of the six [next(f)] that skip the preamble
    raises, or the [csv.reader] built on the rest yields records, each of
    which is a row or raises (a decoding error is raised by the read that
    meets the bytes).  [next] on an exhausted reader raises
    [StopIteration].  [parent] is [str(input_file.parent)]; the output
    directory given to [convert] is likewise the [str()] of its [Path]. *)
Inductive read :=
  | Rd (row : list str)
  | Fail (e : exn).

Inductive view :=
  | Unreadable (e : exn)
  | Readable (records : list read).

Record input_file := {
  parent : str;
  utf_8_sig : view;
  iso_8859_1 : view
}.

(** [next(reader)] *)
Definition next (records : list read) : outcome (list str * list read) :=
  match records with
  | [] => Raise (Exn StopIteration [])
  | Rd row :: rest => Ok (row, rest)
  | Fail e :: _ => Raise e
  end.

(** [list(reader)] *)
Fixpoint list_reader (records : list read) : outcome (list (list str)) :=
  match records with
  | [] => Ok []
  | Rd row :: rest => rows <- list_reader rest ;; Ok (row :: rows)
  | Fail e :: _ => Raise e
  end.

Definition head_is_slash (s : str) : bool :=
  match s with
  | c :: _ => N.eqb c 47
  | [] => false
  end.

(** [dir / name] for a relative [name] of one component.  A [Path] stands
    for its [str()] on a POSIX system: the current directory is ".", and
    only a root ends with a slash. *)
Definition path_join (dir name : str) : str :=
  if str_eqb dir (lit ".") then name
  else if head_is_slash (rev dir) then dir ++ name
  else dir ++ lit "/" ++ name.

End Py.

Import Py.

(* ================================================================== *)
(** * The converter *)
(* ================================================================== *)

Module Converter.

Open Scope N_scope.

(** The Nordic letters kept by both cleaners: the literal 'æøåÆØÅ'. *)
Definition NORDIC : str := [0xe6; 0xf8; 0xe5; 0xc6; 0xd8; 0xc5].

(** The [replacements] dict of [clean_text], in insertion order.  The source
    writes its first four entries with plain ASCII quotes: the key of the
    first two is the double quote (one dict entry, mapped to itself), and
    the two lines after them read as one triple-quoted key, the text between
    the two runs of three apostrophes, mapped to an apostrophe. *)
Definition replacements : list (str * str) :=
  [ ([0x22], [0x22]);
    (lit ": " ++ [0x22; 0x27; 0x22] ++ lit ",        # Smart apostrophes"
       ++ [10] ++ lit "            ", [0x27]);
    ([0x2013], lit "-");
    ([0x2014], lit "-");
    ([0x2026], lit "...");
    ([0x200b], []);
    ([0x200c], []);
    ([0x200d], []);
    ([0xfeff], []);
    ([13], [10]);
    ([9], lit " ") ].

(** The test of the character loop of [clean_text]. *)
Definition keep_char (c : char) : bool :=
  ((32 <=? c) && (c <=? 126)) || (c =? 10) || char_in NORDIC c.

Close Scope N_scope.

(** [clean_text] *)
Definition clean_text (text : str) : str :=
  if negb (truthy text) then []
  else
    let text := strip text in
    let text :=
      fold_left (fun t r => replace (fst r) (snd r) t) replacements text in
    let cleaned := filter keep_char text in
    join (lit " ") (split cleaned).

(** A CSV row. *)
Definition row := list str.

Definition row_eq_dec : forall a b : row, {a = b} + {a <> b} :=
  list_eq_dec str_eq_dec.

Definition TICKTICK_HEADER : row :=
  map lit
    [ "Folder Name"; "List Name"; "Title"; "Kind"; "Tags"; "Content";
      "Is Check list"; "Start Date"; "Due Date"; "Reminder"; "Repeat";
      "Priority"; "Status"; "Created Time"; "Completed Time"; "Order";
      "Timezone"; "Is All Day"; "Is Floating"; "Column Name";
      "Column Order"; "View Mode"; "taskId"; "parentId" ]%string.

Definition TODOIST_HEADER : row :=
  map lit
    [ "TYPE"; "CONTENT"; "DESCRIPTION"; "PRIORITY"; "INDENT"; "AUTHOR";
      "RESPONSIBLE"; "DATE"; "DATE_LANG"; "TIMEZONE"; "DURATION";
      "DURATION_UNIT" ]%string.

Definition PRIORITY_MAP : list (Z * Z) := [(0, 4); (5, 3); (3, 2); (1, 1)]%Z.

(** [PRIORITY_MAP.get(k, default)] *)
Fixpoint map_get (m : list (Z * Z)) (k : Z) (default : Z) : Z :=
  match m with
  | [] => default
  | (k', v) :: m' => if Z.eqb k' k then v else map_get m' k default
  end.

Definition TASKS_PER_PROJECT : nat := 300.

(** ** [clean_label_name] *)

(** The test of the generator expression. *)
Definition label_char (c : char) : bool :=
  isalnum c || N.eqb c 95 || char_in NORDIC c.

(** The [while '__' in cleaned] loop.  Every round shortens the string, so
    [length cleaned] rounds are enough ([collapse_done] below). *)
Fixpoint collapse_loop (rounds : nat) (cleaned : str) : str :=
  match rounds with
  | O => cleaned
  | S rounds' =>
      if contains (lit "__") cleaned
      then collapse_loop rounds' (replace (lit "__") (lit "_") cleaned)
      else cleaned
  end.

Definition collapse (cleaned : str) : str :=
  collapse_loop (length cleaned) cleaned.

Definition clean_label_name (name : str) : str :=
  if negb (truthy name) then []
  else
    let cleaned := replace (lit "-") (lit "_") (replace (lit " ") (lit "_") name) in
    let cleaned := filter label_char cleaned in
    let cleaned := collapse cleaned in
    let cleaned := strip_chars (lit "_") cleaned in
    lower cleaned.

(** ** [read_ticktick_csv] *)

Definition header_error : exn :=
  Exn ValueError (lit "Invalid CSV file: Header doesn't match TickTick format").

(** The body of one [with codecs.open(...)] block. *)
Definition read_with (v : view) : outcome (list row) :=
  match v with
  | Unreadable e => Raise e
  | Readable records =>
      hr <- next records ;;
      if row_eq_dec (fst hr) TICKTICK_HEADER
      then list_reader (snd hr)
      else Raise header_error
  end.

Definition read_ticktick_csv (file : input_file) : outcome (list row) :=
  match read_with (utf_8_sig file) with
  | Raise (Exn UnicodeDecodeError msg) =>
      match read_with (iso_8859_1 file) with
      | Raise e =>
          Raise (Exn ValueError
                   (lit "Could not read file with UTF-8 or ISO-8859-1 encoding: "
                      ++ message e))
      | r => r
      end
  | r => r
  end.

(** ** [calculate_indents] *)

(** The first loop: root tasks and the children of every parent. *)
Definition add_task (acc : list str * dict (list str)) (task : row)
  : outcome (list str * dict (list str)) :=
  task_id <- getitem task 22 ;;
  parent_id <- getitem task 23 ;;
  let (root_tasks, child_tasks) := acc in
  if negb (truthy parent_id) then Ok (root_tasks ++ [task_id], child_tasks)
  else
    let child_tasks :=
      match dict_get parent_id child_tasks with
      | Some _ => child_tasks
      | None => dict_set parent_id [] child_tasks
      end in
    let children :=
      match dict_get parent_id child_tasks with
      | Some l => l
      | None => []
      end in
    Ok (root_tasks, dict_set parent_id (children ++ [task_id]) child_tasks).

(** The nested function [set_indent_level]; [depth] bounds the depth of
    the recursion. *)
Fixpoint set_indent_level (depth : nat) (child_tasks : dict (list str))
    (task_id : str) (level : nat) (indents : dict nat) : outcome (dict nat) :=
  match depth with
  | O => OutOfFuel
  | S depth' =>
      let indents := dict_set task_id (Nat.min level 4) indents in
      match dict_get task_id child_tasks with
      | Some children =>
          foldM (fun indents child_id =>
                   set_indent_level depth' child_tasks child_id (level + 1)
                     indents)
                children indents
      | None => Ok indents
      end
  end.

Definition calculate_indents (depth : nat) (tasks : list row)
  : outcome (dict nat) :=
  acc <- foldM add_task tasks ([], []) ;;
  let (root_tasks, child_tasks) := acc in
  foldM (fun indents task_id =>
           set_indent_level depth child_tasks task_id 1 indents)
        root_tasks [].

(** ** [validate_csv_row] *)

(** [writer.writerow(row)] and [list(csv.reader(output))], which run only
    once [csv.writer] has returned a writer. *)
Definition writerow (writer : str) (r : row) : outcome unit := Ok tt.

Definition validate_csv_row (r : row) : bool :=
  let output := ListObj [] in
  match (writer <- csv_writer output ;;
         _ <- writerow writer r ;;
         Ok true) with
  | Ok b => b
  | Raise _ => false      (* except Exception: return False *)
  | OutOfFuel => false
  end.

(** ** [create_note_row] *)

Definition note_warning : str :=
  lit "Warning: Had to remove note due to incompatible characters".

Definition create_note_row (content : str) : io (option row) :=
  let cleaned_content := clean_text content in
  let r := [ lit "note"; cleaned_content; []; []; []; []; []; [];
             lit "en"; lit "UTC"; []; lit "None" ] in
  if negb (validate_csv_row r)
  then _ <~ emit (Printed note_warning) ;; io_ret None
  else io_ret (Some r).

(** ** [process_chunk] and [split_tasks_into_chunks] *)

Definition chunk_tag (chunk_number total_chunks : nat) : str :=
  lit "part_" ++ str_of_nat chunk_number ++ lit "_of_"
    ++ str_of_nat total_chunks.

(** The body of the loop of [process_chunk]. *)
Definition process_task (chunk_number total_chunks : nat) (task : row)
  : outcome row :=
  if 1 <? total_chunks then
    tags <- getitem task 4 ;;
    if truthy tags
    then setitem task 4 (tags ++ lit "," ++ chunk_tag chunk_number total_chunks)
    else setitem task 4 (chunk_tag chunk_number total_chunks)
  else Ok task.

Definition process_chunk (tasks : list row) (chunk_number total_chunks : nat)
  : outcome (list row) :=
  mapM (process_task chunk_number total_chunks) tasks.

(** [ceil(a / b)]: the quotient of the source is a float, which is exact
    for the lengths of lists. *)
Definition ceil_div (a b : nat) : nat := (a + b - 1) / b.

Definition split_tasks_into_chunks (tasks : list row)
  : outcome (list (list row)) :=
  if length tasks <=? TASKS_PER_PROJECT then Ok [tasks]
  else
    let num_chunks := ceil_div (length tasks) TASKS_PER_PROJECT in
    mapM (fun i =>
            let start_idx := i * TASKS_PER_PROJECT in
            let end_idx :=
              Nat.min ((i + 1) * TASKS_PER_PROJECT) (length tasks) in
            process_chunk (slice tasks start_idx end_idx) (i + 1) num_chunks)
         (seq 0 num_chunks).

(** ** [create_todoist_task] and [convert]

    [int(...)] on a string is a parameter: [py_int s] is the integer that
    Python reads in [s], if any. *)
Section WithInt.

Variable py_int : str -> option Z.

Definition int (s : str) : outcome Z :=
  match py_int s with
  | Some z => Ok z
  | None => Raise (Exn ValueError (int_error s))
  end.

Definition create_todoist_task (include_priority : bool) (task : row)
    (indent : nat) : outcome row :=
  title_raw <- getitem task 2 ;;
  let title := clean_text title_raw in
  content_raw <- getitem task 5 ;;
  let content := clean_text content_raw in
  if negb (truthy title) then Ok []
  else
    list_name <- getitem task 1 ;;
    folder_name <- getitem task 0 ;;
    status <- getitem task 12 ;;
    due_date <- getitem task 8 ;;
    let labels := [] in
    let labels :=
      if truthy list_name
      then labels ++ [lit "list_" ++ clean_label_name list_name]
      else labels in
    let labels :=
      if truthy folder_name
      then labels ++ [lit "folder_" ++ clean_label_name folder_name]
      else labels in
    let labels :=
      if str_eqb status (lit "2") then labels ++ [lit "completed"]
      else labels in
    tags <- getitem task 4 ;;
    let labels :=
      if truthy tags
      then labels
             ++ map (fun tag => clean_label_name (strip tag)) (split_on 44%N tags)
      else labels in
    let task_content :=
      match labels with
      | [] => title
      | _ :: _ =>
          title ++ lit " "
            ++ join (lit " ") (map (fun label => lit "@" ++ label) labels)
      end in
    priority <-
      (if include_priority
       then p <- getitem task 11 ;;
            n <- int p ;;
            Ok (str_of_Z (map_get PRIORITY_MAP n 4))
       else Ok (lit "4")) ;;
    Ok [ lit "task"; task_content; content; priority; str_of_nat indent;
         []; []; due_date; lit "en"; lit "UTC"; []; lit "None" ].

(** The body of the loop over the tasks of a chunk: the rows appended to
    [todoist_tasks] for one task. *)
Definition convert_task (include_priority : bool) (indents : dict nat)
    (task : row) : io (list row) :=
  task_id <~ lift (getitem task 22) ;;
  indent <~ lift (dict_item indents task_id) ;;
  todoist_task <~ lift (create_todoist_task include_priority task indent) ;;
  let rows := match todoist_task with [] => [] | _ :: _ => [todoist_task] end in
  content <~ lift (getitem task 5) ;;
  if truthy content then
    note_row <~ create_note_row content ;;
    match note_row with
    | Some ((_ :: _) as r) => io_ret (rows ++ [r])
    | _ => io_ret rows
    end
  else io_ret rows.

Definition is_task_row (t : row) : bool :=
  match t with
  | [] => false
  | f :: _ => str_eqb f (lit "task")
  end.

(** The body of the loop over the chunks. *)
Definition convert_chunk (include_priority : bool) (indents : dict nat)
    (output_dir : str) (num_chunks i : nat) (chunk : list row) : io str :=
  let suffix :=
    if 1 <? num_chunks then lit "_part" ++ str_of_nat (i + 1) else [] in
  let output_file :=
    path_join output_dir (lit "todoist_import" ++ suffix ++ lit ".csv") in
  rowss <~ io_mapM (convert_task include_priority indents) chunk ;;
  let todoist_tasks := TODOIST_HEADER :: concat rowss in
  _ <~ emit (WriteFile output_file todoist_tasks) ;;
  let task_count := length (filter is_task_row todoist_tasks) in
  _ <~ emit (Printed (lit "Created " ++ output_file ++ lit " with "
                      ++ str_of_nat task_count ++ lit " tasks")) ;;
  io_ret output_file.

Definition convert (include_priority : bool) (depth : nat)
    (file : input_file) (output_dir : option str) : io (list str) :=
  output_dir <~
    match output_dir with
    | None => io_ret (parent file)
    | Some d => _ <~ emit (Mkdir d) ;; io_ret d
    end ;;
  tasks <~ lift (read_ticktick_csv file) ;;
  indents <~ lift (calculate_indents depth tasks) ;;
  let task_ids := dict_keys indents in
  tasks <~ lift (sort_by (fun x => id <- getitem x 22 ;; index task_ids id)
                   tasks) ;;
  chunks <~ lift (split_tasks_into_chunks tasks) ;;
  io_mapM (fun ic =>
             convert_chunk include_priority indents output_dir
               (length chunks) (fst ic) (snd ic))
          (combine (seq 0 (length chunks)) chunks).

End WithInt.

End Converter.

Import Converter.

(* ================================================================== *)
(** * Vocabulary of the statements, and example inputs *)
(* ================================================================== *)

(** What [clean_text] lets through apart from white space. *)
Definition word_char (c : char) : Prop :=
  keep_char c = true /\ isspace c = false.

Definition word (w : str) : Prop := w <> [] /\ Forall word_char w.

(** Each key of the table either is replaced by itself or has a character
    that the filter removes or that is a newline. *)
Definition inert_entry (r : str * str) : bool :=
  match fst r with
  | [c] => str_eqb (snd r) [c]
  | _ => false
  end
  || existsb (fun c => negb (keep_char c) || N.eqb c 10) (fst r).

Definition is_note_row (r : row) : bool :=
  match r with
  | [] => false
  | f :: _ => str_eqb f (lit "note")
  end.

(** An event that writes a file with a Note row in it. *)
Definition writes_note (ev : event) : bool :=
  match ev with
  | WriteFile _ rows => existsb is_note_row rows
  | _ => false
  end.

Module Examples.

(** The empty field. *)
Definition blank : string := EmptyString.

(** A source record with the fields the converter reads. *)
Definition source_record
    (folder list_name title tags content priority status task_id parent_id
       : string) : row :=
  map lit
    [ folder; list_name; title; blank; tags; content; blank; blank; blank;
      blank; blank; priority; status; blank; blank; blank; blank; blank;
      blank; blank; blank; blank; task_id; parent_id ].

(** A file that decodes as UTF-8 and holds the expected header and the
    given records. *)
Definition export_of (records : list row) : input_file :=
  {| parent := lit "out";
     utf_8_sig := Readable (Rd TICKTICK_HEADER :: map Rd records);
     iso_8859_1 := Readable (Rd TICKTICK_HEADER :: map Rd records) |}.

Definition milk : row :=
  source_record blank blank "Buy milk " blank "2 litres" "5" "0" "1" blank.

Definition untitled : row :=
  source_record blank blank "   " blank "only a description" "0" "0" "7"
    blank.

End Examples.


(** The first record that the reader yields is a row other than the
    expected header. *)
Definition bad_header (v : view) : Prop :=
  exists header rest,
    v = Readable (Rd header :: rest) /\ header <> TICKTICK_HEADER.

Definition wrapped_header_error : exn :=
  Exn ValueError
    (lit "Could not read file with UTF-8 or ISO-8859-1 encoding: "
       ++ message header_error).

Module HeaderExample.

(** An export whose header row lacks the last column. *)
Definition short_header : input_file :=
  {| parent := lit "out";
     utf_8_sig := Readable [Rd (removelast TICKTICK_HEADER); Rd Examples.milk];
     iso_8859_1 := Readable [Rd (removelast TICKTICK_HEADER); Rd Examples.milk] |}.

End HeaderExample.

(** The tag of the specification, "part_{chunk_index}_of_{chunk_count}",
    with the two numbers in decimal, and the tag field that the
    specification asks for: the tag after the existing tags and a comma, or
    the tag alone when there are no tags. *)
Definition part_tag (chunk_index chunk_count : nat) : str :=
  lit "part_" ++ str_of_nat chunk_index ++ lit "_of_"
    ++ str_of_nat chunk_count.

Definition tagged_field (tags tag : str) : str :=
  match tags with
  | [] => tag
  | _ :: _ => tags ++ lit "," ++ tag
  end.

(** A record with [tag] appended to its tag field (field 4): after the
    existing tags and a comma, or alone when there are no tags. *)
Definition with_tag (tag : str) (task : row) : row :=
  set_nth task 4
    match nth 4 task [] with
    | [] => tag
    | (_ :: _) as tags => tags ++ lit "," ++ tag
    end.

(** The first (last) character of a string, tested with [p]. *)
Definition head_is (p : char -> bool) (s : str) : bool :=
  match s with
  | [] => false
  | c :: _ => p c
  end.

Definition last_is (p : char -> bool) (s : str) : bool := head_is p (rev s).

(** An alphanumeric character that [lower] leaves as it is. *)
Definition lowercase_alnum (c : char) : bool :=
  isalnum c && str_eqb (lower_char c) [c].

(** The characters that the specification allows in a label: lowercase
    alphanumerics, the underscore, and the letters æ, ø, å. *)
Definition label_out_char (c : char) : bool :=
  lowercase_alnum c || N.eqb c 95 || char_in [0xe6; 0xf8; 0xe5]%N c.

Definition underscore : char -> bool := char_in (lit "_").

(** The shape of a finished label. *)
Definition label_shape (y : str) : Prop :=
  Forall (fun c => label_out_char c = true) y /\
  contains (lit "__") y = false /\
  head_is underscore y = false /\
  last_is underscore y = false.

(** The first character of [lower] on [c]. *)
Definition low (c : char) : char := hd c (lower_char c).

(** The capital I with a dot above. *)
Definition DOTTED_I : char := 0x130%N.

(** What the statements use of the lowercase [d] that [lower] puts for the
    character [c]. *)
Definition lowered (c d : char) : Prop :=
  (label_char c = true -> label_out_char d = true) /\
  underscore d = underscore c /\
  (iscapital d = true -> d = c).

(** The facts used on one pair of the lowercase table. *)
Definition pair_check (p : N * N) : bool :=
  negb (N.eqb (fst p) 95) && negb (N.eqb (snd p) 95)
  && implb (isalnum (fst p)) (lowercase_alnum (snd p))
  && negb (iscapital (snd p)).

(** What the filter lets through of the name [x], U+0130 apart. *)
Definition kept (x : str) (c : char) : Prop :=
  c <> DOTTED_I /\ label_char c = true /\ (In c x \/ c = 95%N).

(** The identifier and the parent identifier of a record. *)
Definition task_id (r : row) : str := nth 22 r [].
Definition parent_id (r : row) : str := nth 23 r [].

(** The root identifiers of a record list and the children of [p] in it, in
    the order of the list. *)
Definition is_root (r : row) : bool := negb (truthy (parent_id r)).

Definition roots_of (tasks : list row) : list str :=
  map task_id (filter is_root tasks).

Definition is_child_of (p : str) (r : row) : bool :=
  truthy (parent_id r) && str_eqb (parent_id r) p.

Definition children_of (p : str) (tasks : list row) : list str :=
  map task_id (filter (is_child_of p) tasks).

(** The children that [child_tasks] holds for an identifier. *)
Definition kids (child_tasks : dict (list str)) (p : str) : list str :=
  match dict_get p child_tasks with
  | Some l => l
  | None => []
  end.

(** [Depth tasks t l]: [t] is reached from a root of [tasks] along [l - 1]
    parent links. *)
Inductive Depth (tasks : list row) : str -> nat -> Prop :=
  | Depth_root (t : str) :
      In t (roots_of tasks) -> Depth tasks t 1
  | Depth_child (p t : str) (l : nat) :
      Depth tasks p l -> In t (children_of p tasks) -> Depth tasks t (S l).

(** Every stored level is [min depth 4] for the depth of its record. *)
Definition levels_ok (tasks : list row) (indents : dict nat) : Prop :=
  forall u v, dict_get u indents = Some v ->
              exists l, Depth tasks u l /\ v = Nat.min l 4.

(** Every record in the index, apart from those in [pending], has all its
    children in the index. *)
Definition closed_except (tasks : list row) (pending : list str)
    (indents : dict nat) : Prop :=
  forall p, dict_get p indents <> None -> ~ In p pending ->
            forall c, In c (children_of p tasks) -> dict_get c indents <> None.

(** No identifier leaves the index. *)
Definition grows (indents indents' : dict nat) : Prop :=
  forall k, dict_get k indents <> None -> dict_get k indents' <> None.

(** What a traversal started on [indents] returns: an index that keeps the
    two invariants, has grown, and holds the [targets]. *)
Definition visited (tasks : list row) (pending : list str)
    (indents : dict nat) (targets : list str) (res : outcome (dict nat))
  : Prop :=
  exists indents',
    res = Ok indents' /\
    levels_ok tasks indents' /\
    closed_except tasks pending indents' /\
    grows indents indents' /\
    forall c, In c targets -> dict_get c indents' <> None.

Module Orphans.

(** A root, and a record whose parent identifier names no record. *)
Definition root : row :=
  Examples.source_record Examples.blank Examples.blank "Root" Examples.blank
    Examples.blank "0" "0" "1" Examples.blank.

Definition orphan : row :=
  Examples.source_record Examples.blank Examples.blank "Orphan"
    Examples.blank Examples.blank "0" "0" "2" "99".

(** A record whose parent is [orphan]: its parent is present in the set. *)
Definition child_of_orphan : row :=
  Examples.source_record Examples.blank Examples.blank "Child"
    Examples.blank Examples.blank "0" "0" "3" "2".

End Orphans.

Module Family.

(** A root and a sub-task of it. *)
Definition mother : row :=
  Examples.source_record Examples.blank Examples.blank "Mother"
    Examples.blank Examples.blank "0" "0" "1" Examples.blank.

Definition daughter : row :=
  Examples.source_record Examples.blank Examples.blank "Daughter"
    Examples.blank Examples.blank "0" "0" "2" "1".

End Family.

Module MoreExamples.

(** An export whose third record cannot be decoded as UTF-8: the reader
    raises on it, and the Latin-1 reading has all three records. *)
Definition decode_error : exn :=
  Exn UnicodeDecodeError (lit "'utf-8' codec can't decode byte 0xe6").

Definition latin1_export : input_file :=
  {| parent := lit "out";
     utf_8_sig :=
       Readable [Rd TICKTICK_HEADER; Rd Family.mother; Fail decode_error];
     iso_8859_1 :=
       Readable (Rd TICKTICK_HEADER
                   :: map Rd [Family.mother; Family.daughter; Examples.milk]) |}.

(** A record whose priority field is not a number. *)
Definition urgent : row :=
  Examples.source_record Examples.blank Examples.blank "Call home"
    Examples.blank Examples.blank "high" "0" "4" Examples.blank.

(** A record with a list, a folder, tags and the status of a completed
    task. *)
Definition labelled : row :=
  Examples.source_record "Home" "To do" "Paint" "diy,  week-end" "white"
    "3" "2" "5" Examples.blank.

(** A row that is too short to hold a task identifier. *)
Definition stub : row := [lit "a"; lit "b"; lit "c"].

End MoreExamples.

(** [p] comes before [u] in a list of identifiers, by the positions that
    [list.index] gives. *)
Definition before (ids : list str) (p u : str) : Prop :=
  exists i j, index ids p = Ok i /\ index ids u = Ok j /\ i < j.

(** Every identifier of the index is a root or comes after its parent. *)
Definition order_ok (tasks : list row) (indents : dict nat) : Prop :=
  forall u, In u (dict_keys indents) ->
            In u (roots_of tasks) \/
            exists p, In u (children_of p tasks) /\
                      before (dict_keys indents) p u.

(** How a traversal is entered: at a root, or at a child of a record that
    is in the index. *)
Definition entered (tasks : list row) (indents : dict nat) (t : str) : Prop :=
  In t (roots_of tasks) \/
  exists p, In t (children_of p tasks) /\ In p (dict_keys indents).

Module Twins.

(** Two records with the same identifier, the second being a sub-task of
    that identifier. *)
Definition first : row :=
  Examples.source_record Examples.blank Examples.blank "One"
    Examples.blank Examples.blank "0" "0" "1" Examples.blank.

Definition second : row :=
  Examples.source_record Examples.blank Examples.blank "Two"
    Examples.blank Examples.blank "0" "0" "1" "1".

End Twins.

(** The paths of the files that a trace writes, in order. *)
Definition written (t : list event) : list str :=
  flat_map (fun ev => match ev with WriteFile p _ => [p] | _ => [] end) t.

(** The number of Task rows in the files that a trace writes. *)
Definition task_rows_written (t : list event) : nat :=
  list_sum
    (map (fun ev =>
            match ev with
            | WriteFile _ rows => length (filter is_task_row rows)
            | _ => 0
            end) t).

(** A Task row: 12 fields, the first of which is "task". *)
Definition task_row (r : row) : Prop :=
  length r = 12 /\ nth_error r 0 = Some (lit "task").

(** An event that, if it writes a file, writes the header followed by
    Task rows. *)
Definition writes_table (ev : event) : Prop :=
  match ev with
  | WriteFile _ rows =>
      exists body, rows = TODOIST_HEADER :: body /\ Forall task_row body
  | _ => True
  end.

(** An event that writes no file. *)
Definition no_write (ev : event) : Prop :=
  match ev with
  | WriteFile _ _ => False
  | _ => True
  end.

(** The name of output file [i] (from 0) among [count]. *)
Definition output_name (count i : nat) : str :=
  lit "todoist_import"
    ++ (if 1 <? count then lit "_part" ++ str_of_nat (i + 1) else [])
    ++ lit ".csv".

(** The output directory of a run. *)
Definition target_dir (file : input_file) (output_dir : option str) : str :=
  match output_dir with
  | Some d => d
  | None => parent file
  end.

(* ================================================================== *)
(** * utils.py *)
(* ================================================================== *)

Module Utils.

(** The characters that [re.sub(r'[^\w\s-]', '', name)] keeps: the word
    characters (alphanumerics and the underscore), white space and the
    hyphen. *)
Definition kept_by_pattern (c : char) : bool :=
  isalnum c || N.eqb c 95 || isspace c || N.eqb c 45.

(** [utils.clean_label_name] *)
Definition clean_label_name (name : str) : str :=
  let cleaned := filter kept_by_pattern name in
  let cleaned := replace (lit " ") (lit "_") cleaned in
  lower cleaned.

(** The facts used on one character of the Latin-1 range. *)
Definition latin1_check (c : char) : bool :=
  str_eqb (lower_char c) [low c]
  && str_eqb (lower_char (low c)) [low c]
  && implb (kept_by_pattern c) (kept_by_pattern (low c))
  && Bool.eqb (N.eqb (low c) 32) (N.eqb c 32)
  && N.ltb (low c) 256.

End Utils.

(** The Task row of a record at indent 1, as a list of no or one row. *)
Definition root_task_rows (py_int : str -> option Z) (inc : bool)
    (task : row) : list row :=
  match create_todoist_task py_int inc task 1 with
  | Ok ((_ :: _) as r) => [r]
  | _ => []
  end.

(** The index of a list of roots. *)
Definition flat_index (tasks : list row) : dict nat :=
  map (fun t => (task_id t, 1)) tasks.

(* ================================================================== *)
(** * Properties of the string primitives *)
(* ================================================================== *)

Section StringFacts.

Lemma lstrip_by_head (p : char -> bool) (c : char) (s : str) :
  p c = false -> lstrip_by p (c :: s) = c :: s.
Proof. intros H. simpl. now rewrite H. Qed.

Lemma rstrip_by_last (p : char -> bool) (s : str) (c : char) :
  p c = false -> rstrip_by p (s ++ [c]) = s ++ [c].
Proof.
  intros H. unfold rstrip_by. rewrite rev_app_distr. simpl.
  rewrite H. simpl. now rewrite rev_involutive.
Qed.

Lemma startswith_app (old s : str) :
  startswith old s = true -> exists rest, s = old ++ rest.
Proof.
  revert s. induction old as [|a old IH]; intros s H.
  - now exists s.
  - destruct s as [|b s]; simpl in H; [discriminate|].
    apply andb_prop in H as [Hab Hs]. apply N.eqb_eq in Hab. subst b.
    destruct (IH _ Hs) as [rest ->]. now exists rest.
Qed.

(** A key with a character that does not occur in [s] is not replaced. *)
Lemma replace_from_absent (old new : str) (c : char) (s : str) :
  In c old -> ~ In c s -> replace_from old new 0 s = s.
Proof.
  intros Hold. induction s as [|d s IH]; intros Hs; [reflexivity|].
  simpl. destruct (startswith old (d :: s)) eqn:E.
  - exfalso. apply startswith_app in E as [rest E].
    apply Hs. rewrite E. apply in_or_app. now left.
  - f_equal. apply IH. intros Hin. apply Hs. now right.
Qed.

Lemma replace_absent (old new : str) (c : char) (s : str) :
  In c old -> ~ In c s -> replace old new s = s.
Proof.
  intros Hold Hs. destruct old as [|a old]; [destruct Hold|].
  unfold replace. now apply replace_from_absent with (c := c).
Qed.

(** Replacing a character by itself changes nothing. *)
Lemma replace_char_same (c : char) (s : str) : replace [c] [c] s = s.
Proof.
  unfold replace. induction s as [|d s IH]; [reflexivity|].
  simpl. destruct (N.eqb_spec c d) as [->|Hne]; simpl.
  - now rewrite IH.
  - now rewrite IH.
Qed.

Lemma filter_all (p : char -> bool) (s : str) :
  Forall (fun c => p c = true) s -> filter p s = s.
Proof.
  induction 1 as [|c s Hc _ IH]; simpl; [reflexivity|].
  now rewrite Hc, IH.
Qed.

End StringFacts.

(* ================================================================== *)
(** * The text sanitizer, [clean_text] *)
(* ================================================================== *)

Section CleanText.

Lemma split_go_words (cur s : str) :
  Forall word_char cur -> Forall (fun c => keep_char c = true) s ->
  Forall word (split_go cur s).
Proof.
  revert cur. induction s as [|c s IH]; intros cur Hcur Hs; simpl.
  - destruct cur; constructor; [|constructor]. split; [discriminate|assumption].
  - inversion Hs as [|? ? Hc Hs']; subst.
    destruct (isspace c) eqn:E.
    + destruct cur as [|a cur].
      * apply IH; [constructor|assumption].
      * constructor.
        -- split; [discriminate|assumption].
        -- apply IH; [constructor|assumption].
    + apply IH; [|assumption].
      apply Forall_app. split; [assumption|].
      constructor; [|constructor]. now split.
Qed.

Lemma split_go_word (cur w rest : str) :
  Forall word_char w -> split_go cur (w ++ rest) = split_go (cur ++ w) rest.
Proof.
  revert cur. induction w as [|c w IH]; intros cur Hw; simpl.
  - now rewrite app_nil_r.
  - inversion Hw as [|? ? [_ Hc] Hw']; subst. rewrite Hc.
    rewrite IH by assumption. now rewrite <- app_assoc.
Qed.

(** Splitting the words joined by one space gives the words back. *)
Lemma split_join (ws : list str) :
  Forall word ws -> split (join (lit " ") ws) = ws.
Proof.
  unfold split. induction 1 as [|w ws [Hne Hw] Hws IH]; [reflexivity|].
  simpl join. destruct ws as [|w' ws].
  - pose proof (split_go_word [] w [] Hw) as E. rewrite app_nil_r in E.
    rewrite E. simpl. destruct w; [contradiction|reflexivity].
  - rewrite split_go_word by assumption. simpl app at 1.
    change (lit " " ++ join (lit " ") (w' :: ws))
      with (32%N :: join (lit " ") (w' :: ws)).
    cbn [split_go]. change (isspace 32%N) with true. cbv iota.
    destruct w; [contradiction|]. now rewrite IH.
Qed.

(** Every character of the joined words passes the filter and is no
    newline. *)
Lemma join_chars (ws : list str) :
  Forall word ws ->
  Forall (fun c => keep_char c = true /\ c <> 10%N) (join (lit " ") ws).
Proof.
  assert (Hw : forall w, Forall word_char w ->
            Forall (fun c => keep_char c = true /\ c <> 10%N) w).
  { intros w. apply Forall_impl. intros c [Hk Hs]. split; [assumption|].
    intros ->. discriminate. }
  induction 1 as [|w ws [_ Hword] Hws IH]; [constructor|].
  simpl join. destruct ws as [|w' ws]; [now apply Hw|].
  apply Forall_app. split; [now apply Hw|].
  change (lit " " ++ join (lit " ") (w' :: ws))
    with (32%N :: join (lit " ") (w' :: ws)).
  constructor; [|exact IH]. split; [reflexivity|discriminate].
Qed.

(** The joined words neither start nor end with white space. *)
Lemma join_head (ws : list str) :
  Forall word ws -> ws <> [] ->
  exists c s, join (lit " ") ws = c :: s /\ isspace c = false.
Proof.
  intros H Hne. destruct H as [|w ws [Hw Hc] _]; [contradiction|].
  destruct w as [|c w]; [contradiction|].
  inversion Hc as [|? ? [_ Hsp] _]; subst.
  simpl join. destruct ws; simpl; eauto.
Qed.

Lemma join_last (ws : list str) :
  Forall word ws -> ws <> [] ->
  exists s c, join (lit " ") ws = s ++ [c] /\ isspace c = false.
Proof.
  induction 1 as [|w ws [Hw Hc] Hws IH]; intros Hne; [contradiction|].
  simpl join. destruct ws as [|w' ws].
  - destruct (exists_last Hw) as [s [c ->]].
    apply Forall_app in Hc as [_ Hc].
    inversion Hc as [|? ? [_ Hsp] _]; subst. eauto.
  - destruct IH as [s [c [E Hsp]]]; [discriminate|].
    rewrite E. exists (w ++ lit " " ++ s), c.
    split; [|assumption]. now rewrite <- !app_assoc.
Qed.

Lemma strip_join (ws : list str) :
  Forall word ws -> ws <> [] ->
  strip (join (lit " ") ws) = join (lit " ") ws.
Proof.
  intros H Hne. unfold strip, strip_by.
  destruct (join_head _ H Hne) as [c [s [E Hc]]].
  rewrite E, lstrip_by_head by assumption. rewrite <- E.
  destruct (join_last _ H Hne) as [s' [c' [E' Hc']]].
  rewrite E'. now apply rstrip_by_last.
Qed.

Lemma replacements_inert : forallb inert_entry replacements = true.
Proof. reflexivity. Qed.

Lemma inert_entry_id (r : str * str) (s : str) :
  inert_entry r = true ->
  Forall (fun c => keep_char c = true /\ c <> 10%N) s ->
  replace (fst r) (snd r) s = s.
Proof.
  intros H Hs. unfold inert_entry in H. apply orb_prop in H as [H|H].
  - destruct r as [[|c [|? ?]] new]; simpl in H; try discriminate.
    unfold str_eqb in H. destruct (str_eq_dec new [c]); [|discriminate].
    subst new. apply replace_char_same.
  - apply existsb_exists in H as [c [Hin Hc]].
    apply replace_absent with (c := c); [assumption|].
    intros Hcs. rewrite Forall_forall in Hs. destruct (Hs _ Hcs) as [Hk Hn].
    apply orb_prop in Hc as [Hc|Hc].
    + rewrite Hk in Hc. discriminate.
    + apply N.eqb_eq in Hc. contradiction.
Qed.

Lemma replacements_id (s : str) :
  Forall (fun c => keep_char c = true /\ c <> 10%N) s ->
  fold_left (fun t r => replace (fst r) (snd r) t) replacements s = s.
Proof.
  intros Hs. pose proof replacements_inert as H.
  induction replacements as [|r rs IH]; [reflexivity|].
  simpl in H. apply andb_prop in H as [Hr Hrs].
  simpl. rewrite inert_entry_id by assumption. now apply IH.
Qed.

(** [clean_text] returns words joined by single spaces. *)
Lemma clean_text_words (x : str) :
  exists ws, Forall word ws /\ clean_text x = join (lit " ") ws.
Proof.
  unfold clean_text. destruct (truthy x).
  - simpl. eexists. split; [|reflexivity].
    apply split_go_words; [constructor|].
    apply Forall_forall. intros c Hc. now apply filter_In in Hc.
  - exists []. split; [constructor|reflexivity].
Qed.

Lemma clean_text_fixed (ws : list str) :
  Forall word ws -> clean_text (join (lit " ") ws) = join (lit " ") ws.
Proof.
  intros H. destruct ws as [|w ws]; [reflexivity|].
  assert (Hne : w :: ws <> []) by discriminate.
  unfold clean_text.
  destruct (join_head _ H Hne) as [c [s [E _]]].
  replace (truthy (join (lit " ") (w :: ws))) with true by now rewrite E.
  cbv beta iota delta [negb].
  rewrite strip_join by assumption.
  rewrite replacements_id by now apply join_chars.
  rewrite filter_all.
  - now rewrite split_join.
  - eapply Forall_impl; [|now apply join_chars]. now intros a [Ha _].
Qed.

(** C9. The text sanitizer is idempotent: for every string [x],
    [clean_text (clean_text x) = clean_text x]. *)
Theorem clean_text_idempotent (x : str) :
  clean_text (clean_text x) = clean_text x.
Proof.
  destruct (clean_text_words x) as [ws [Hws ->]].
  now apply clean_text_fixed.
Qed.

End CleanText.

(* ================================================================== *)
(** * Effects: what a computation may print and write *)
(* ================================================================== *)

Section Events.

Variable P : event -> Prop.

Lemma io_bind_events {A B} (m : io A) (k : A -> io B) :
  Forall P (snd m) ->
  (forall a, fst m = Ok a -> Forall P (snd (k a))) ->
  Forall P (snd (io_bind m k)).
Proof.
  intros Hm Hk. destruct m as [[a| e |] t]; simpl in *; try assumption.
  specialize (Hk a eq_refl). destruct (k a) as [r t']. simpl in *.
  apply Forall_app. now split.
Qed.

Lemma io_mapM_events {A B} (f : A -> io B) (l : list A) :
  (forall a, In a l -> Forall P (snd (f a))) ->
  Forall P (snd (io_mapM f l)).
Proof.
  induction l as [|a l IH]; intros H; simpl; [constructor|].
  apply io_bind_events; [apply H; now left|]. intros b _.
  apply io_bind_events; [apply IH; intros; apply H; now right|].
  intros bs _. constructor.
Qed.

Lemma lift_events {A} (m : outcome A) : Forall P (snd (lift m)).
Proof. constructor. Qed.

End Events.

Lemma io_bind_ok {A B} (m : io A) (k : A -> io B) (b : B) :
  fst (io_bind m k) = Ok b ->
  exists a, fst m = Ok a /\ fst (k a) = Ok b.
Proof.
  destruct m as [[a| e |] t]; simpl; try discriminate.
  destruct (k a) as [r t'] eqn:E. simpl. intros ->. exists a.
  now rewrite E.
Qed.

Lemma io_mapM_ok {A B} (Q : B -> Prop) (f : A -> io B) (l : list A) :
  (forall a b, In a l -> fst (f a) = Ok b -> Q b) ->
  forall bs, fst (io_mapM f l) = Ok bs -> Forall Q bs.
Proof.
  induction l as [|a l IH]; intros H bs Hbs; simpl in Hbs.
  - injection Hbs as <-. constructor.
  - apply io_bind_ok in Hbs as [b [Hb Hbs]].
    apply io_bind_ok in Hbs as [bs' [Hbs' Hbs]].
    injection Hbs as <-. constructor.
    + apply (H a); [now left|assumption].
    + apply IH; [|assumption]. intros a' b' Hin. apply H. now right.
Qed.

(* ================================================================== *)
(** * The record transformer *)
(* ================================================================== *)

Section Transformer.

Variable py_int : str -> option Z.

(** The round-trip check fails on every row: [csv.writer] is given a list. *)
Lemma validate_csv_row_false (r : row) : validate_csv_row r = false.
Proof. reflexivity. Qed.

Lemma create_note_row_none (content : str) :
  create_note_row content = (Ok None, [Printed note_warning]).
Proof. reflexivity. Qed.

Ltac step_bind H :=
  match type of H with
  | bind ?m _ = Ok _ =>
      let E := fresh "E" in
      destruct m eqn:E; simpl in H; [|discriminate|discriminate]
  end.

(** A row returned by [create_todoist_task] is empty or a task row. *)
Lemma create_todoist_task_kind (inc : bool) (task : row) (indent : nat)
    (r : row) :
  create_todoist_task py_int inc task indent = Ok r ->
  r = [] \/ hd [] r = lit "task".
Proof.
  unfold create_todoist_task. intros H.
  step_bind H. step_bind H.
  destruct (negb (truthy (clean_text a))).
  - injection H as <-. now left.
  - do 6 step_bind H. injection H as <-. now right.
Qed.

Lemma convert_task_rows (inc : bool) (indents : dict nat) (task : row)
    (rows : list row) :
  fst (convert_task py_int inc indents task) = Ok rows ->
  Forall (fun r => hd [] r = lit "task") rows.
Proof.
  unfold convert_task. intros H.
  apply io_bind_ok in H as [task_id [_ H]].
  apply io_bind_ok in H as [indent [_ H]].
  apply io_bind_ok in H as [todoist_task [Ht H]].
  apply io_bind_ok in H as [content [_ H]].
  simpl in Ht. apply create_todoist_task_kind in Ht.
  assert (Hrows : Forall (fun r => hd [] r = lit "task")
                    match todoist_task with [] => [] | _ :: _ => [todoist_task] end).
  { destruct Ht as [->|Ht]; [constructor|].
    destruct todoist_task; constructor; [assumption|constructor]. }
  destruct (truthy content).
  - rewrite create_note_row_none in H. simpl in H.
    injection H as <-. assumption.
  - simpl in H. injection H as <-. assumption.
Qed.

End Transformer.

Section NoNotes.

Variable py_int : str -> option Z.

Lemma task_rows_no_note (rows : list row) :
  Forall (fun r => hd [] r = lit "task") rows ->
  existsb is_note_row rows = false.
Proof.
  induction 1 as [|r rows Hr _ IH]; [reflexivity|].
  simpl. rewrite IH. destruct r as [|f r]; [reflexivity|].
  simpl in Hr. subst f. reflexivity.
Qed.

Lemma convert_task_events (inc : bool) (indents : dict nat) (task : row) :
  Forall (fun ev => writes_note ev = false)
    (snd (convert_task py_int inc indents task)).
Proof.
  unfold convert_task.
  repeat (apply io_bind_events; [apply lift_events|intros ? _]).
  destruct (truthy a2); [|constructor].
  rewrite create_note_row_none. simpl. repeat constructor.
Qed.

Lemma convert_chunk_events (inc : bool) (indents : dict nat)
    (output_dir : str) (num_chunks i : nat) (chunk : list row) :
  Forall (fun ev => writes_note ev = false)
    (snd (convert_chunk py_int inc indents output_dir num_chunks i chunk)).
Proof.
  unfold convert_chunk.
  apply io_bind_events.
  - apply io_mapM_events. intros. apply convert_task_events.
  - intros rowss Hrowss. simpl. constructor; [|repeat constructor].
    simpl. apply task_rows_no_note.
    apply Forall_concat.
    revert Hrowss. apply io_mapM_ok. intros task rows _.
    apply convert_task_rows.
Qed.

(** C3. The round-trip check rejects every row (so every 12-field row):
    it builds its [csv.writer] over a list, which raises, and the exception
    is caught.  Hence [create_note_row] returns [None] for every string,
    and no file written by a run holds a Note row. *)
Theorem note_rows_never_written :
  (forall r : row, validate_csv_row r = false) /\
  (forall content : str, fst (create_note_row content) = Ok None) /\
  (forall (inc : bool) (depth : nat) (file : input_file)
          (output_dir : option str),
      existsb writes_note (snd (convert py_int inc depth file output_dir))
      = false).
Proof.
  split; [exact validate_csv_row_false|]. split; [reflexivity|].
  intros inc depth file output_dir.
  assert (H : Forall (fun ev => writes_note ev = false)
                (snd (convert py_int inc depth file output_dir))).
  { unfold convert. apply io_bind_events.
    { destruct output_dir; simpl; repeat constructor. }
    intros d _.
    repeat (apply io_bind_events; [apply lift_events|intros ? _]).
    apply io_mapM_events. intros. apply convert_chunk_events. }
  induction H as [|ev t Hev _ IH]; [reflexivity|].
  simpl. now rewrite Hev, IH.
Qed.

End NoNotes.

Section Transformer2.

Variable py_int : str -> option Z.


Ltac fields task H :=
  do 24 (destruct task as [|? task]; [discriminate H|]);
  destruct task; [clear H|discriminate H].

(** C5. A record whose title sanitizes to the empty string is discarded:
    the task mapping returns no row, and the loop of the run appends no row
    at all for it, neither a Task nor a Note. *)
Theorem empty_title_emits_nothing (inc : bool) (indents : dict nat)
    (task : row) (indent : nat) :
  length task = 24 ->
  clean_text (nth 2 task []) = [] ->
  dict_get (nth 22 task []) indents = Some indent ->
  create_todoist_task py_int inc task indent = Ok [] /\
  fst (convert_task py_int inc indents task) = Ok [].
Proof.
  intros Hlen Htitle Hid. fields task Hlen. simpl in Htitle, Hid.
  unfold convert_task, dict_item, create_todoist_task. simpl.
  rewrite Htitle, Hid. simpl.
  split; [reflexivity|].
  match goal with |- context [truthy ?c] => destruct (truthy c) end;
    reflexivity.
Qed.


End Transformer2.

Lemma empty_title_emits_nothing_witness :
  create_todoist_task int_ascii true Examples.untitled 1 = Ok [] /\
  fst (convert_task int_ascii true [(lit "7", 1)] Examples.untitled) = Ok [].
Proof.
  apply (empty_title_emits_nothing int_ascii true [(lit "7", 1)]
           Examples.untitled 1); reflexivity.
Defined.


(** C1 on the code: a record with a description.  The run prints the
    warning and writes the Task row alone: no Note row follows it. *)
Theorem description_note_is_dropped :
  convert int_ascii true 1 (Examples.export_of [Examples.milk]) None =
  (Ok [lit "out/todoist_import.csv"],
   [ Printed note_warning;
     WriteFile (lit "out/todoist_import.csv")
       [ TODOIST_HEADER;
         [ lit "task"; lit "Buy milk"; lit "2 litres"; lit "3"; lit "1";
           []; []; []; lit "en"; lit "UTC"; []; lit "None" ] ];
     Printed (lit "Created out/todoist_import.csv with 1 tasks") ]).
Proof. vm_compute. reflexivity. Qed.

(* ================================================================== *)
(** * Reading the input: header validation *)
(* ================================================================== *)

Section Header.

Variable py_int : str -> option Z.

Lemma read_with_bad_header (v : view) :
  bad_header v -> read_with v = Raise header_error.
Proof.
  intros [header [rest [-> Hne]]]. unfold read_with. simpl.
  destruct (row_eq_dec header TICKTICK_HEADER); [contradiction|reflexivity].
Qed.

Lemma read_ticktick_csv_bad_header (file : input_file) :
  bad_header (utf_8_sig file) \/
  ((exists msg, read_with (utf_8_sig file) = Raise (Exn UnicodeDecodeError msg))
   /\ bad_header (iso_8859_1 file)) ->
  read_ticktick_csv file = Raise header_error \/
  read_ticktick_csv file = Raise wrapped_header_error.
Proof.
  unfold read_ticktick_csv. intros [H|[[msg Hu] H]].
  - left. now rewrite (read_with_bad_header _ H).
  - right. rewrite Hu, (read_with_bad_header _ H). reflexivity.
Qed.

(** C7. When the header row of the input differs from the expected
    24-column header (in the decoding that the run reads it in: UTF-8, or
    Latin-1 once UTF-8 decoding has failed), the run aborts with the
    header-validation [ValueError], and it writes no output file: apart from
    creating the output directory it has no effect. *)
Theorem header_mismatch_aborts (inc : bool) (depth : nat)
    (file : input_file) (output_dir : option str) :
  bad_header (utf_8_sig file) \/
  ((exists msg, read_with (utf_8_sig file) = Raise (Exn UnicodeDecodeError msg))
   /\ bad_header (iso_8859_1 file)) ->
  (fst (convert py_int inc depth file output_dir) = Raise header_error \/
   fst (convert py_int inc depth file output_dir) = Raise wrapped_header_error)
  /\ snd (convert py_int inc depth file output_dir)
     = match output_dir with Some d => [Mkdir d] | None => [] end.
Proof.
  intros H. apply read_ticktick_csv_bad_header in H.
  unfold convert.
  destruct output_dir as [d|]; simpl; destruct H as [-> | ->]; simpl; auto.
Qed.

End Header.

Lemma header_mismatch_aborts_witness :
  (fst (convert int_ascii true 1 HeaderExample.short_header (Some (lit "dest")))
     = Raise header_error \/
   fst (convert int_ascii true 1 HeaderExample.short_header (Some (lit "dest")))
     = Raise wrapped_header_error)
  /\ snd (convert int_ascii true 1 HeaderExample.short_header (Some (lit "dest")))
     = [Mkdir (lit "dest")].
Proof.
  apply (header_mismatch_aborts int_ascii true 1 HeaderExample.short_header
           (Some (lit "dest"))).
  left. exists (removelast TICKTICK_HEADER), [Rd Examples.milk].
  split; [reflexivity|]. vm_compute. discriminate.
Defined.

(* ================================================================== *)
(** * The chunker *)
(* ================================================================== *)

Section Chunker.

Lemma length_set_nth {A} (l : list A) (i : nat) (v : A) :
  length (set_nth l i v) = length l.
Proof.
  revert i. induction l as [|a l IH]; intros i; [reflexivity|].
  destruct i; simpl; [reflexivity|now rewrite IH].
Qed.

Lemma nth_error_set_nth_other {A} (l : list A) (i j : nat) (v : A) :
  j <> i -> nth_error (set_nth l i v) j = nth_error l j.
Proof.
  revert i j. induction l as [|a l IH]; intros i j H; [reflexivity|].
  destruct i, j; simpl; try reflexivity; try contradiction.
  apply IH. lia.
Qed.

Lemma nth_error_set_nth_same {A} (l : list A) (i : nat) (v : A) :
  i < length l -> nth_error (set_nth l i v) i = Some v.
Proof.
  revert i. induction l as [|a l IH]; intros i H; [simpl in H; lia|].
  destruct i; simpl; [reflexivity|]. apply IH. simpl in H. lia.
Qed.

(** What [process_task] makes of a record of a run of several chunks, field
    by field. *)
Lemma with_tag_fields (i total : nat) (t : row) :
  4 < length t ->
  length (with_tag (chunk_tag i total) t) = length t /\
  nth_error (with_tag (chunk_tag i total) t) 4
    = Some (tagged_field (nth 4 t []) (part_tag i total)) /\
  (forall j, j <> 4 ->
     nth_error (with_tag (chunk_tag i total) t) j = nth_error t j).
Proof.
  intros Hlen. unfold with_tag. split; [apply length_set_nth|]. split.
  - rewrite nth_error_set_nth_same by assumption.
    destruct (nth 4 t []); reflexivity.
  - intros j Hj. now apply nth_error_set_nth_other.
Qed.

Lemma mapM_ok_map {A B} (f : A -> outcome B) (g : A -> B) (l : list A) :
  (forall a, In a l -> f a = Ok (g a)) -> mapM f l = Ok (map g l).
Proof.
  induction l as [|a l IH]; intros H; [reflexivity|].
  simpl. rewrite (H a) by now left. simpl.
  rewrite IH by (intros; apply H; now right). reflexivity.
Qed.

Lemma process_task_tagged (i total : nat) (task : row) :
  length task = 24 -> 1 < total ->
  process_task i total task = Ok (with_tag (chunk_tag i total) task).
Proof.
  intros Hlen Htotal. unfold process_task.
  apply Nat.ltb_lt in Htotal. rewrite Htotal.
  do 24 (destruct task as [|? task]; [discriminate Hlen|]).
  destruct task; [|discriminate Hlen].
  unfold with_tag. simpl.
  match goal with |- context [truthy ?t] => destruct t end; reflexivity.
Qed.

Lemma process_chunk_tagged (ts : list row) (i total : nat) :
  Forall (fun t => length t = 24) ts -> 1 < total ->
  process_chunk ts i total = Ok (map (with_tag (chunk_tag i total)) ts).
Proof.
  intros Hts Htotal. unfold process_chunk. apply mapM_ok_map.
  intros t Ht. rewrite Forall_forall in Hts.
  apply process_task_tagged; auto.
Qed.

Lemma slice_Forall {A} (Q : A -> Prop) (l : list A) (a b : nat) :
  Forall Q l -> Forall Q (slice l a b).
Proof.
  intros H. unfold slice. rewrite Forall_forall in *. intros x Hx.
  apply H. rewrite <- (firstn_skipn a l). apply in_or_app. right.
  rewrite <- (firstn_skipn (b - a) (skipn a l)). apply in_or_app. now left.
Qed.

Lemma length_slice {A} (l : list A) (a b : nat) :
  length (slice l a b) = Nat.min (b - a) (length l - a).
Proof. unfold slice. now rewrite length_firstn, length_skipn. Qed.

Lemma nth_error_slice {A} (l : list A) (a b k : nat) :
  k < b - a -> nth_error (slice l a b) k = nth_error l (a + k).
Proof.
  intros H. unfold slice. rewrite nth_error_firstn.
  apply Nat.ltb_lt in H. rewrite H. apply nth_error_skipn.
Qed.

(** [ceil_div n 300] is the least number of chunks of 300 that hold [n]
    records. *)
Lemma ceil_div_bounds (n : nat) :
  0 < n ->
  300 * (ceil_div n 300 - 1) < n /\ n <= 300 * ceil_div n 300.
Proof.
  intros Hn. unfold ceil_div.
  pose proof (Nat.div_mod_eq (n + 300 - 1) 300) as E.
  pose proof (Nat.mod_upper_bound (n + 300 - 1) 300) as B.
  lia.
Qed.

Lemma last_nth {A} (l : list A) (d : A) :
  last l d = nth (length l - 1) l d.
Proof.
  induction l as [|a [|b l] IH]; try reflexivity.
  change (last (a :: b :: l) d) with (last (b :: l) d). rewrite IH.
  simpl. now rewrite Nat.sub_0_r.
Qed.

Lemma split_tasks_into_chunks_large (tasks : list row) :
  Forall (fun t => length t = 24) tasks ->
  300 < length tasks ->
  split_tasks_into_chunks tasks =
  Ok (map (fun i =>
             map (with_tag (chunk_tag (i + 1) (ceil_div (length tasks) 300)))
               (slice tasks (i * 300)
                  (Nat.min ((i + 1) * 300) (length tasks))))
        (seq 0 (ceil_div (length tasks) 300))).
Proof.
  intros Hts Hn. unfold split_tasks_into_chunks.
  change TASKS_PER_PROJECT with 300.
  destruct (Nat.leb_spec (length tasks) 300) as [Hle|_]; [lia|].
  apply mapM_ok_map. intros i _.
  apply process_chunk_tagged; [now apply slice_Forall|].
  pose proof (ceil_div_bounds (length tasks)). lia.
Qed.

(** C6. Up to 300 records the chunker returns the list as its only chunk,
    unmodified.  Beyond 300 it returns [ceil(n/300)] chunks; every chunk
    but the last has exactly 300 records and the last has the remaining
    ones (between 1 and 300); record [k] of chunk [i] (from 0) comes from
    input record [300*i + k], so the chunks in sequence follow the input
    order; it has the length and every field of that record but the tag
    field, field 4, which holds the tag [part_{i+1}_of_{count}] after the
    existing tags and a comma, or alone when the record had no tags. *)
Theorem chunker_partition (tasks : list row) :
  Forall (fun t => length t = 24) tasks ->
  (length tasks <= 300 -> split_tasks_into_chunks tasks = Ok [tasks]) /\
  (300 < length tasks ->
   exists chunks,
     split_tasks_into_chunks tasks = Ok chunks /\
     300 * (length chunks - 1) < length tasks <= 300 * length chunks /\
     (forall i, i + 1 < length chunks -> length (nth i chunks []) = 300) /\
     length (last chunks []) = length tasks - 300 * (length chunks - 1) /\
     (forall i k,
         i < length chunks -> k < length (nth i chunks []) ->
         exists t t',
           nth_error tasks (300 * i + k) = Some t /\
           nth_error (nth i chunks []) k = Some t' /\
           length t' = length t /\
           nth_error t' 4
             = Some (tagged_field (nth 4 t [])
                       (part_tag (i + 1) (length chunks))) /\
           (forall j, j <> 4 -> nth_error t' j = nth_error t j))).
Proof.
  intros Hts. split.
  - intros Hn. unfold split_tasks_into_chunks.
    change TASKS_PER_PROJECT with 300.
    apply Nat.leb_le in Hn. now rewrite Hn.
  - intros Hn. eexists. split; [now apply split_tasks_into_chunks_large|].
    set (n := length tasks) in *. set (c := ceil_div n 300).
    assert (Hc : 300 * (c - 1) < n /\ n <= 300 * c)
      by (apply ceil_div_bounds; lia).
    set (chunk := fun i =>
           map (with_tag (chunk_tag (i + 1) c))
             (slice tasks (i * 300) (Nat.min ((i + 1) * 300) n))).
    assert (Hlen : length (map chunk (seq 0 c)) = c)
      by now rewrite length_map, length_seq.
    assert (Hnth : forall i, i < c -> nth i (map chunk (seq 0 c)) [] = chunk i).
    { intros i Hi.
      rewrite (nth_indep _ [] (chunk 0))
        by now rewrite length_map, length_seq.
      now rewrite map_nth, seq_nth. }
    assert (Hsize : forall i, i < c ->
              length (chunk i) = Nat.min 300 (n - 300 * i)).
    { intros i Hi. unfold chunk. rewrite length_map, length_slice.
      fold n. lia. }
    rewrite Hlen. repeat split; try lia.
    + intros i Hi. rewrite Hnth, Hsize by lia. lia.
    + rewrite last_nth, Hlen.
      rewrite Hnth, Hsize by lia. lia.
    + intros i k Hi Hk. rewrite Hnth in * by assumption.
      rewrite Hsize in Hk by assumption.
      destruct (nth_error tasks (300 * i + k)) as [t|] eqn:Et.
      2:{ apply nth_error_None in Et. fold n in Et. lia. }
      assert (Ht : length t = 24).
      { rewrite Forall_forall in Hts. apply Hts.
        eapply nth_error_In. exact Et. }
      exists t, (with_tag (chunk_tag (i + 1) c) t).
      split; [reflexivity|]. split.
      * unfold chunk. rewrite nth_error_map, nth_error_slice by lia.
        replace (i * 300 + k) with (300 * i + k) by lia.
        now rewrite Et.
      * apply with_tag_fields. lia.
Qed.

End Chunker.

Lemma chunker_partition_witness :
  exists chunks t1 t2,
    split_tasks_into_chunks (MoreExamples.labelled :: repeat Examples.milk 300)
      = Ok chunks /\
    length chunks = 2 /\
    length (last chunks []) = 1 /\
    nth_error (nth 0 chunks []) 0 = Some t1 /\
    nth_error t1 4 = Some (lit "diy,  week-end,part_1_of_2") /\
    nth_error (nth 1 chunks []) 0 = Some t2 /\
    nth_error t2 4 = Some (lit "part_2_of_2").
Proof.
  set (tasks := MoreExamples.labelled :: repeat Examples.milk 300).
  assert (H : Forall (fun t => length t = 24) tasks).
  { constructor; [reflexivity|]. apply Forall_forall. intros t Ht.
    apply repeat_spec in Ht. subst t. reflexivity. }
  assert (Hn : length tasks = 301) by reflexivity.
  destruct (chunker_partition tasks H) as [_ Hbig].
  destruct Hbig as [chunks [E [Hc [Hfull [Hlast Hrec]]]]]; [lia|].
  rewrite Hn in Hc, Hlast.
  assert (H2 : length chunks = 2) by lia.
  destruct chunks as [|a [|b [|? ?]]]; try discriminate H2.
  simpl in Hlast.
  assert (Ha : length a = 300) by (apply (Hfull 0); simpl; lia).
  destruct (Hrec 0 0) as [t [t1 [Et [Et1 [_ [F1 _]]]]]];
    [simpl; lia|simpl; lia|].
  destruct (Hrec 1 0) as [u [t2 [Eu [Et2 [_ [F2 _]]]]]];
    [simpl; lia|simpl; lia|].
  assert (Et' : nth_error tasks (300 * 0 + 0) = Some MoreExamples.labelled)
    by reflexivity.
  assert (Eu' : nth_error tasks (300 * 1 + 0) = Some Examples.milk)
    by reflexivity.
  rewrite Et' in Et. injection Et as <-.
  rewrite Eu' in Eu. injection Eu as <-.
  exists [a; b], t1, t2.
  split; [exact E|]. split; [reflexivity|]. split; [exact Hlast|].
  split; [exact Et1|]. split; [exact F1|]. split; [exact Et2|exact F2].
Defined.

(* ================================================================== *)
(** * More facts on [replace], [contains] and [strip] *)
(* ================================================================== *)

Section MoreStringFacts.

Lemma replace_from_Forall (Q : char -> Prop) (old new : str) :
  Forall Q new ->
  forall (s : str) (k : nat), Forall Q s -> Forall Q (replace_from old new k s).
Proof.
  intros Hnew. induction s as [|c s IH]; intros k Hs; [constructor|].
  inversion Hs as [|? ? Hc Hs']; subst. simpl.
  destruct k as [|k]; [|now apply IH].
  destruct (startswith old (c :: s)).
  - apply Forall_app. split; [assumption|now apply IH].
  - constructor; [assumption|now apply IH].
Qed.

Lemma startswith_length (old s : str) :
  startswith old s = true -> length old <= length s.
Proof.
  revert s. induction old as [|a old IH]; intros s H; simpl; [lia|].
  destruct s as [|b s]; simpl in H; [discriminate|].
  apply andb_prop in H as [_ H]. apply IH in H. simpl. lia.
Qed.

(** A replacement by a string that is not longer does not lengthen. *)
Lemma replace_from_length (old new : str) :
  length new <= length old ->
  forall (s : str) (k : nat),
    length (replace_from old new k s) + Nat.min k (length s) <= length s.
Proof.
  intros Hlen. induction s as [|c s IH]; intros k; simpl; [lia|].
  destruct k as [|k].
  - destruct (startswith old (c :: s)) eqn:E.
    + apply startswith_length in E. simpl in E.
      rewrite length_app. specialize (IH (length old - 1)). lia.
    + specialize (IH 0). simpl. lia.
  - specialize (IH k). lia.
Qed.

(** It shortens when the new string is shorter and the old one occurs. *)
Lemma replace_from_shorter (old new : str) :
  length new < length old ->
  forall s : str,
    contains old s = true ->
    length (replace_from old new 0 s) < length s.
Proof.
  intros Hlen. induction s as [|c s IH]; intros H.
  - simpl in H. destruct old; [simpl in Hlen; lia|discriminate].
  - simpl in H. simpl replace_from.
    destruct (startswith old (c :: s)) eqn:E.
    + apply startswith_length in E. simpl in E.
      rewrite length_app.
      pose proof (replace_from_length old new ltac:(lia) s (length old - 1)).
      simpl. lia.
    + simpl in H. apply IH in H. simpl. lia.
Qed.

Lemma startswith_app_r (old s t : str) :
  startswith old s = true -> startswith old (s ++ t) = true.
Proof.
  revert s. induction old as [|a old IH]; intros s H; [reflexivity|].
  destruct s as [|b s]; simpl in *; [discriminate|].
  apply andb_prop in H as [-> H]. now rewrite IH.
Qed.

Lemma contains_app_l (old s t : str) :
  contains old t = true -> contains old (s ++ t) = true.
Proof.
  intros H. induction s as [|c s IH]; [assumption|].
  simpl. rewrite IH. apply orb_true_r.
Qed.

Lemma contains_app_r (old s t : str) :
  contains old s = true -> contains old (s ++ t) = true.
Proof.
  induction s as [|c s IH]; intros H.
  - simpl in H. rewrite orb_false_r in H.
    destruct old; [|discriminate]. destruct t; reflexivity.
  - simpl in H. apply orb_prop in H as [H|H].
    + change (contains old ((c :: s) ++ t))
        with (startswith old ((c :: s) ++ t) || contains old (s ++ t)).
      now rewrite startswith_app_r.
    + simpl. rewrite IH by assumption. apply orb_true_r.
Qed.

Lemma lstrip_by_suffix (p : char -> bool) (s : str) :
  exists pre, s = pre ++ lstrip_by p s.
Proof.
  induction s as [|c s [pre IH]]; [now exists []|].
  simpl. destruct (p c).
  - exists (c :: pre). simpl. now rewrite <- IH.
  - now exists [].
Qed.

Lemma rstrip_by_prefix (p : char -> bool) (s : str) :
  exists suf, s = rstrip_by p s ++ suf.
Proof.
  unfold rstrip_by. destruct (lstrip_by_suffix p (rev s)) as [pre E].
  exists (rev pre). rewrite <- rev_app_distr, <- E. now rewrite rev_involutive.
Qed.

Lemma lstrip_by_head_is (p : char -> bool) (s : str) :
  head_is p (lstrip_by p s) = false.
Proof.
  induction s as [|c s IH]; [reflexivity|].
  simpl. destruct (p c) eqn:E; [assumption|]. simpl. exact E.
Qed.

Lemma strip_by_edges (p : char -> bool) (s : str) :
  head_is p (strip_by p s) = false /\ last_is p (strip_by p s) = false.
Proof.
  unfold strip_by. split.
  - pose proof (lstrip_by_head_is p s) as H.
    destruct (rstrip_by_prefix p (lstrip_by p s)) as [suf E].
    destruct (rstrip_by p (lstrip_by p s)) as [|c r]; [reflexivity|].
    rewrite E in H. exact H.
  - unfold last_is, rstrip_by. rewrite rev_involutive.
    apply lstrip_by_head_is.
Qed.

Lemma strip_by_infix (p : char -> bool) (s : str) :
  exists pre suf, s = pre ++ strip_by p s ++ suf.
Proof.
  unfold strip_by. destruct (lstrip_by_suffix p s) as [pre E].
  destruct (rstrip_by_prefix p (lstrip_by p s)) as [suf E'].
  exists pre, suf. now rewrite <- E', <- E.
Qed.

Lemma strip_by_fixed (p : char -> bool) (s : str) :
  head_is p s = false -> last_is p s = false -> strip_by p s = s.
Proof.
  intros Hh Hl. unfold strip_by.
  assert (E : lstrip_by p s = s).
  { destruct s as [|c s]; [reflexivity|]. simpl in *. now rewrite Hh. }
  rewrite E. unfold rstrip_by, last_is in *.
  destruct (rev s) as [|c r] eqn:Er.
  - simpl. apply (f_equal (@rev char)) in Er.
    now rewrite rev_involutive in Er.
  - simpl in *. rewrite Hl. rewrite <- Er. apply rev_involutive.
Qed.

End MoreStringFacts.

(* ================================================================== *)
(** * The label synthesizer, [clean_label_name] *)
(* ================================================================== *)

Section Label.

Lemma label_out_lower (c : char) :
  label_out_char c = true -> lower_char c = [c].
Proof.
  unfold label_out_char, lowercase_alnum, str_eqb. intros H.
  apply orb_prop in H as [H|H]; [apply orb_prop in H as [H|H]|].
  - apply andb_prop in H as [_ H].
    now destruct (str_eq_dec (lower_char c) [c]).
  - apply N.eqb_eq in H. now subst c.
  - simpl in H. repeat (apply orb_prop in H as [H|H];
      [apply N.eqb_eq in H; now subst c|]). discriminate.
Qed.

Lemma label_out_label (c : char) :
  label_out_char c = true -> label_char c = true.
Proof.
  unfold label_out_char, label_char, lowercase_alnum. intros H.
  apply orb_prop in H as [H|H]; [apply orb_prop in H as [H|H]|].
  - apply andb_prop in H as [-> _]. reflexivity.
  - rewrite H. now rewrite orb_true_r.
  - simpl in H. repeat (apply orb_prop in H as [H|H];
      [apply N.eqb_eq in H; now subst c|]). discriminate.
Qed.

Lemma collapse_fixed (y : str) :
  contains (lit "__") y = false -> collapse y = y.
Proof.
  intros H. unfold collapse. destruct (length y); simpl; [reflexivity|].
  now rewrite H.
Qed.

Lemma lower_from_flat (s : str) :
  ~ In SIGMA s ->
  forall after_cased, lower_from after_cased s = flat_map lower_char s.
Proof.
  induction s as [|c s IH]; intros Hs b; [reflexivity|].
  cbn [lower_from flat_map]. destruct (N.eqb_spec c SIGMA) as [->|_].
  - exfalso. apply Hs. now left.
  - f_equal. apply IH. intros H. apply Hs. now right.
Qed.

(** [lower] leaves a string of characters without another lowercase as it
    is. *)
Lemma lower_fixed (y : str) :
  Forall (fun c => lower_char c = [c]) y -> lower y = y.
Proof.
  intros H. unfold lower. rewrite lower_from_flat.
  - induction H as [|c y Hc _ IH]; [reflexivity|].
    cbn [flat_map]. now rewrite Hc, IH.
  - intros Hin. rewrite Forall_forall in H. apply H in Hin.
    vm_compute in Hin. discriminate.
Qed.

(** A string of the shape of a label is left unchanged. *)
Lemma clean_label_name_fixed (y : str) :
  label_shape y -> clean_label_name y = y.
Proof.
  intros [Hc [Hd [Hh Hl]]]. destruct y as [|c0 y0]; [reflexivity|].
  set (y := c0 :: y0) in *. unfold clean_label_name.
  change (truthy y) with true. cbv beta iota delta [negb].
  assert (Habs : forall c, label_out_char c = false -> ~ In c y).
  { intros c Hf Hin. rewrite Forall_forall in Hc. apply Hc in Hin.
    congruence. }
  rewrite (replace_absent (lit " ") (lit "_") 32%N y);
    [|now left|now apply Habs].
  rewrite (replace_absent (lit "-") (lit "_") 45%N y);
    [|now left|now apply Habs].
  rewrite filter_all
    by (eapply Forall_impl; [|exact Hc]; apply label_out_label).
  rewrite collapse_fixed by assumption.
  unfold strip_chars. rewrite strip_by_fixed by assumption.
  apply lower_fixed. eapply Forall_impl; [|exact Hc]. apply label_out_lower.
Qed.

Lemma assoc_In (c d : N) (pairs : list (N * N)) :
  assoc c pairs = Some d -> In (c, d) pairs.
Proof.
  induction pairs as [|[a b] pairs IH]; [discriminate|].
  cbn [assoc]. destruct (N.eqb_spec a c) as [->|_]; intros H.
  - injection H as ->. now left.
  - right. auto.
Qed.

Lemma lower_pairs_checked : forallb pair_check lower_pairs = true.
Proof. vm_compute. reflexivity. Qed.

Lemma nordic_isalnum (c : char) : char_in NORDIC c = true -> isalnum c = true.
Proof.
  unfold char_in, NORDIC. cbn [existsb]. intros H.
  repeat (apply orb_prop in H as [H|H]; [apply N.eqb_eq in H; now subst c|]).
  discriminate.
Qed.

Lemma label_char_isalnum (c : char) :
  label_char c = true -> N.eqb c 95 = false -> isalnum c = true.
Proof.
  unfold label_char. intros H E. rewrite E in H.
  destruct (isalnum c) eqn:Ha; [reflexivity|]. cbn [orb] in H.
  apply nordic_isalnum in H. congruence.
Qed.

Lemma underscore_eqb (c : char) : underscore c = N.eqb c 95.
Proof. unfold underscore, char_in. cbn [lit existsb]. apply orb_false_r. Qed.

(** The lowercase of a code point other than U+0130 is one code point: the
    code point itself, or the one that the table gives. *)
Lemma lower_char_cases (c : char) :
  c <> DOTTED_I ->
  lower_char c = [c] \/ exists d, In (c, d) lower_pairs /\ lower_char c = [d].
Proof.
  intros Hc. unfold lower_char.
  destruct (N.eqb_spec c 0x130) as [E|_]; [contradiction|].
  destruct (assoc c lower_pairs) as [d|] eqn:E; [|now left].
  right. exists d. split; [now apply assoc_In|reflexivity].
Qed.

Lemma lower_char_lowered (c : char) :
  c <> DOTTED_I -> exists d, lower_char c = [d] /\ lowered c d.
Proof.
  intros Hc. destruct (lower_char_cases c Hc) as [E|[d [Hin E]]].
  - exists c. split; [exact E|]. repeat split.
    intros Hl. unfold label_out_char, lowercase_alnum, str_eqb.
    rewrite E. destruct (str_eq_dec [c] [c]); [|contradiction].
    rewrite andb_true_r. destruct (N.eqb c 95) eqn:E95.
    + now rewrite orb_true_r.
    + now rewrite (label_char_isalnum c Hl E95).
  - exists d. split; [exact E|].
    pose proof lower_pairs_checked as H. rewrite forallb_forall in H.
    apply H in Hin. unfold pair_check in Hin. cbn [fst snd] in Hin.
    apply andb_prop in Hin as [Hin H4]. apply andb_prop in Hin as [Hin H3].
    apply andb_prop in Hin as [H1 H2].
    apply negb_true_iff in H1, H2, H4. repeat split.
    + intros Hl. rewrite (label_char_isalnum c Hl H1) in H3.
      cbn [implb] in H3. unfold label_out_char. now rewrite H3.
    + now rewrite !underscore_eqb, H1, H2.
    + intros Hcap. congruence.
Qed.

Lemma sigma_lowered (d : char) :
  d = FINAL_SIGMA \/ d = SMALL_SIGMA -> lowered SIGMA d.
Proof.
  intros [->| ->]; repeat split; try (intros _; vm_compute; reflexivity);
    intros H; vm_compute in H; discriminate.
Qed.

(** [lower] puts one character for every character of a string without
    U+0130. *)
Lemma lower_from_lowered (s : str) :
  ~ In DOTTED_I s ->
  forall after_cased, Forall2 lowered s (lower_from after_cased s).
Proof.
  induction s as [|c s IH]; intros Hs b; [constructor|].
  assert (Hc : c <> DOTTED_I) by (intros E; apply Hs; now left).
  assert (Hs' : ~ In DOTTED_I s) by (intros H; apply Hs; now right).
  cbn [lower_from]. destruct (N.eqb_spec c SIGMA) as [->|_].
  - cbn [app]. constructor; [|now apply IH]. apply sigma_lowered.
    destruct (b && negb (followed_by_cased s)); [now left|now right].
  - destruct (lower_char_lowered c Hc) as [d [-> Hd]].
    cbn [app]. constructor; [exact Hd|now apply IH].
Qed.

Lemma lowered_chars (s y : str) :
  Forall2 lowered s y ->
  Forall (fun c => label_char c = true) s ->
  Forall (fun d => label_out_char d = true) y.
Proof.
  induction 1 as [|c d s y [Hd _] _ IH]; intros Hs; [constructor|].
  inversion Hs; subst. constructor; auto.
Qed.

Lemma lowered_capitals (P : char -> Prop) (s y : str) :
  Forall2 lowered s y ->
  Forall P s ->
  Forall (fun d => iscapital d = true -> P d) y.
Proof.
  induction 1 as [|c d s y [_ [_ Hd]] _ IH]; intros Hs; [constructor|].
  inversion Hs; subst. constructor; [|auto].
  intros Hcap. now rewrite (Hd Hcap).
Qed.

Lemma lowered_head (s y : str) :
  Forall2 lowered s y -> head_is underscore y = head_is underscore s.
Proof. destruct 1 as [|c d s y [_ [Hd _]] _]; [reflexivity|exact Hd]. Qed.

Lemma lowered_contains (s y : str) :
  Forall2 lowered s y -> contains (lit "__") y = contains (lit "__") s.
Proof.
  assert (E : forall c d, lowered c d -> N.eqb 95 d = N.eqb 95 c).
  { intros c d [_ [H _]]. rewrite !underscore_eqb in H.
    now rewrite !(N.eqb_sym 95). }
  induction 1 as [|c d s y Hd Hs IH]; [reflexivity|].
  change (contains (lit "__") (d :: y))
    with (startswith (lit "__") (d :: y) || contains (lit "__") y).
  change (contains (lit "__") (c :: s))
    with (startswith (lit "__") (c :: s) || contains (lit "__") s).
  rewrite IH. f_equal.
  change (lit "__") with [95%N; 95%N]. cbn [startswith]. rewrite (E c d Hd).
  destruct Hs as [|c' d' s y Hd' _]; [reflexivity|].
  cbn [startswith]. now rewrite (E c' d' Hd').
Qed.

Lemma Forall2_rev {A B : Type} (R : A -> B -> Prop) (l : list A)
    (l' : list B) :
  Forall2 R l l' -> Forall2 R (rev l) (rev l').
Proof.
  induction 1 as [|a b l l' Hab _ IH]; [constructor|].
  cbn [rev]. apply Forall2_app; [exact IH|]. now constructor.
Qed.

Lemma char_in_false (s : str) (c : char) : char_in s c = false -> ~ In c s.
Proof.
  unfold char_in. intros H Hin.
  assert (E : existsb (N.eqb c) s = true).
  { apply existsb_exists. exists c. split; [exact Hin|apply N.eqb_refl]. }
  congruence.
Qed.

Lemma collapse_loop_Forall (Q : char -> Prop) (rounds : nat) (s : str) :
  Q 95%N -> Forall Q s -> Forall Q (collapse_loop rounds s).
Proof.
  intros Hu. revert s. induction rounds as [|r IH]; intros s Hs; [assumption|].
  simpl. destruct (contains (lit "__") s); [|assumption].
  apply IH. apply replace_from_Forall; [|assumption].
  constructor; [assumption|constructor].
Qed.

(** The loop ends because its test fails, not because the rounds run
    out. *)
Lemma collapse_loop_done (rounds : nat) (s : str) :
  length s <= rounds -> contains (lit "__") (collapse_loop rounds s) = false.
Proof.
  revert s. induction rounds as [|r IH]; intros s Hlen.
  - destruct s; [reflexivity|simpl in Hlen; lia].
  - simpl. destruct (contains (lit "__") s) eqn:E; [|assumption].
    apply IH.
    pose proof (replace_from_shorter (lit "__") (lit "_")
                  ltac:(simpl; lia) s E).
    unfold replace. simpl in *. lia.
Qed.

Lemma collapse_done (s : str) : contains (lit "__") (collapse s) = false.
Proof. apply collapse_loop_done. lia. Qed.

Lemma contains_infix (old pre s suf : str) :
  contains old (pre ++ s ++ suf) = false -> contains old s = false.
Proof.
  intros H. destruct (contains old s) eqn:E; [|reflexivity].
  rewrite contains_app_l in H; [discriminate|].
  now apply contains_app_r.
Qed.

(** On a name without U+0130, [clean_label_name] returns a string of the
    shape of a label, and a capital letter of the result is a character of
    the name. *)
Lemma clean_label_name_result (x : str) :
  ~ In DOTTED_I x ->
  label_shape (clean_label_name x) /\
  Forall (fun d => iscapital d = true -> In d x) (clean_label_name x).
Proof.
  intros Hx. unfold clean_label_name. destruct (truthy x).
  2:{ simpl. repeat split; constructor. }
  cbv beta iota delta [negb].
  set (s1 := replace (lit "-") (lit "_") (replace (lit " ") (lit "_") x)).
  assert (H1 : Forall (fun c => c <> DOTTED_I /\ (In c x \/ c = 95%N)) s1).
  { unfold s1, replace. simpl.
    repeat (apply replace_from_Forall;
            [constructor; [split; [discriminate|now right]|constructor]|]).
    apply Forall_forall. intros c Hc. split; [|now left].
    intros ->. contradiction. }
  set (s2 := filter label_char s1).
  assert (H2 : Forall (kept x) s2).
  { apply Forall_forall. intros c Hc. apply filter_In in Hc as [Hin Hl].
    rewrite Forall_forall in H1. destruct (H1 _ Hin). repeat split; auto. }
  set (s3 := collapse s2).
  assert (H3 : Forall (kept x) s3).
  { apply collapse_loop_Forall; [|assumption].
    repeat split; [discriminate|now right]. }
  pose proof (collapse_done s2) as D3. fold s3 in D3.
  set (s4 := strip_chars (lit "_") s3).
  destruct (strip_by_infix (char_in (lit "_")) s3) as [pre [suf E]].
  fold (strip_chars (lit "_") s3) in E. fold s4 in E.
  assert (H4 : Forall (kept x) s4).
  { rewrite E in H3. apply Forall_app in H3 as [_ H3].
    now apply Forall_app in H3 as [H3 _]. }
  assert (D4 : contains (lit "__") s4 = false).
  { rewrite E in D3. eapply contains_infix. exact D3. }
  destruct (strip_by_edges (char_in (lit "_")) s3) as [Hh Hl].
  fold (strip_chars (lit "_") s3) in Hh, Hl. fold s4 in Hh, Hl.
  fold underscore in Hh, Hl.
  assert (L : Forall2 lowered s4 (lower s4)).
  { apply lower_from_lowered. intros Hin. rewrite Forall_forall in H4.
    now destruct (H4 _ Hin) as [Hne _]. }
  split; [repeat split|].
  - apply (lowered_chars s4); [exact L|].
    eapply Forall_impl; [|exact H4]. now intros c [_ [Hc _]].
  - now rewrite (lowered_contains s4).
  - now rewrite (lowered_head s4).
  - unfold last_is in *. now rewrite (lowered_head (rev s4)); [|apply Forall2_rev].
  - eapply Forall_impl;
      [|apply (lowered_capitals (fun c => In c x \/ c = 95%N) s4);
        [exact L|eapply Forall_impl; [|exact H4]; now intros c [_ [_ Hc]]]].
    intros d Hd Hcap. destruct (Hd Hcap) as [Hin| ->]; [exact Hin|].
    vm_compute in Hcap. discriminate.
Qed.

(** Within Latin-1, [clean_label_name] returns a string of the shape of a
    label. *)
Lemma clean_label_name_shape (x : str) :
  Forall (fun c => (c < 256)%N) x -> label_shape (clean_label_name x).
Proof.
  intros Hx. apply clean_label_name_result. intros Hin.
  rewrite Forall_forall in Hx. apply Hx in Hin. discriminate Hin.
Qed.

(** C10, as amended.  For every string that does not hold U+0130, the
    capital I with a dot above, the label synthesizer is idempotent, and
    every character of its result is a lowercase alphanumeric (an
    alphanumeric that [lower] leaves as it is), an underscore, or one of
    æ, ø, å.  The only capital letters that the result can hold are those
    of the name that have no lowercase, such as U+2102. *)
Theorem clean_label_name_without_dotted_I (x : str) :
  char_in x DOTTED_I = false ->
  clean_label_name (clean_label_name x) = clean_label_name x /\
  Forall (fun c => label_out_char c = true) (clean_label_name x) /\
  Forall (fun c => iscapital c = true -> In c x) (clean_label_name x).
Proof.
  intros Hx. apply char_in_false in Hx.
  destruct (clean_label_name_result x Hx) as [H Hcap].
  split; [now apply clean_label_name_fixed|]. split; [now destruct H|exact Hcap].
Qed.

End Label.

Lemma clean_label_name_without_dotted_I_witness :
  clean_label_name
    (clean_label_name (lit "My List - " ++ [0x41f; 0x3a3; 0x141; 0x2102]%N))
    = clean_label_name (lit "My List - " ++ [0x41f; 0x3a3; 0x141; 0x2102]%N) /\
  Forall (fun c => label_out_char c = true)
    (clean_label_name (lit "My List - " ++ [0x41f; 0x3a3; 0x141; 0x2102]%N)) /\
  Forall (fun c => iscapital c = true ->
                   In c (lit "My List - " ++ [0x41f; 0x3a3; 0x141; 0x2102]%N))
    (clean_label_name (lit "My List - " ++ [0x41f; 0x3a3; 0x141; 0x2102]%N)).
Proof.
  apply (clean_label_name_without_dotted_I
           (lit "My List - " ++ [0x41f; 0x3a3; 0x141; 0x2102]%N)).
  reflexivity.
Defined.

(** C10 as stated fails on U+0130 (capital I with a dot above), which is
    alphanumeric and whose lowercase is "i" followed by the combining dot
    U+0307: the result holds U+0307, which is not alphanumeric, and a second
    pass drops it. *)
Lemma clean_label_name_dotted_I :
  clean_label_name [0x130%N] = [0x69%N; 0x307%N] /\
  clean_label_name (clean_label_name [0x130%N]) <> clean_label_name [0x130%N] /\
  ~ Forall (fun c => label_out_char c = true) (clean_label_name [0x130%N]).
Proof.
  split; [reflexivity|]. split.
  - vm_compute. discriminate.
  - change (clean_label_name [0x130%N]) with [0x69%N; 0x307%N].
    intros H. inversion H as [|? ? _ H']; subst.
    inversion H' as [|? ? Hc _]; subst. vm_compute in Hc. discriminate Hc.
Qed.

(** A capital letter without a lowercase, such as the double-struck C
    (U+2102), is alphanumeric and [lower] leaves it as it is: the label
    synthesizer keeps it. *)
Lemma clean_label_name_keeps_capital :
  clean_label_name [0x2102%N] = [0x2102%N] /\
  iscapital 0x2102%N = true /\
  label_out_char 0x2102%N = true.
Proof. repeat split; vm_compute; reflexivity. Qed.

(* ================================================================== *)
(** * The hierarchy resolver on records without a root above them *)
(* ================================================================== *)

(** C2 on the code: the record with the unknown parent gets no indent
    level (it is absent from the index), and the run aborts in the sort,
    where [task_ids.index] does not find its identifier. *)
Theorem orphan_aborts_run (depth : nat) :
  calculate_indents (S depth) [Orphans.root; Orphans.orphan]
    = Ok [(lit "1", 1)] /\
  convert int_ascii true (S depth)
    (Examples.export_of [Orphans.root; Orphans.orphan]) None
    = (Raise (Exn ValueError (lit "'2' is not in list")), []).
Proof. split; reflexivity. Qed.

(** C8 on the code: the parent of [child_of_orphan] is present in the set,
    but neither of the two is given an indent level. *)
Theorem child_of_orphan_has_no_level (depth : nat) :
  exists indents,
    calculate_indents (S depth)
      [Orphans.root; Orphans.orphan; Orphans.child_of_orphan] = Ok indents /\
    dict_get (lit "1") indents = Some 1 /\
    dict_get (lit "2") indents = None /\
    dict_get (lit "3") indents = None.
Proof. eexists. split; [reflexivity|]. repeat split. Qed.

(* ================================================================== *)
(** * The hierarchy resolver on records below a root *)
(* ================================================================== *)

Section Dict.

Context {V : Type}.

Lemma str_eqb_refl (k : str) : str_eqb k k = true.
Proof. unfold str_eqb. now destruct (str_eq_dec k k). Qed.

Lemma str_eqb_neq (k k' : str) : k <> k' -> str_eqb k k' = false.
Proof. unfold str_eqb. now destruct (str_eq_dec k k'). Qed.

Lemma str_eqb_eq (k k' : str) : str_eqb k k' = true -> k = k'.
Proof. unfold str_eqb. now destruct (str_eq_dec k k'). Qed.

Lemma dict_get_set_same (k : str) (v : V) (d : dict V) :
  dict_get k (dict_set k v d) = Some v.
Proof.
  induction d as [|[k' v'] d IH]; simpl.
  - now rewrite str_eqb_refl.
  - destruct (str_eqb k' k) eqn:E; simpl; now rewrite E.
Qed.

Lemma dict_get_set_other (k k' : str) (v : V) (d : dict V) :
  k <> k' -> dict_get k' (dict_set k v d) = dict_get k' d.
Proof.
  intros Hne. induction d as [|[k0 v0] d IH]; simpl.
  - now rewrite str_eqb_neq.
  - destruct (str_eqb k0 k) eqn:E; simpl.
    + apply str_eqb_eq in E. subst k0. now rewrite str_eqb_neq.
    + now rewrite IH.
Qed.

End Dict.

Section FirstLoop.

Lemma getitem_nth {A} (l : list A) (i : nat) (d : A) :
  i < length l -> getitem l i = Ok (nth i l d).
Proof.
  intros H. unfold getitem.
  now rewrite (nth_error_nth' l d H).
Qed.

Lemma kids_set_same (ct : dict (list str)) (p : str) (l : list str) :
  kids (dict_set p l ct) p = l.
Proof. unfold kids. now rewrite dict_get_set_same. Qed.

Lemma kids_set_other (ct : dict (list str)) (p p' : str) (l : list str) :
  p <> p' -> kids (dict_set p l ct) p' = kids ct p'.
Proof. intros H. unfold kids. now rewrite dict_get_set_other. Qed.

(** One round of the first loop. *)
Lemma add_task_spec (roots : list str) (ct : dict (list str)) (r : row) :
  length r = 24 ->
  exists ct',
    add_task (roots, ct) r = Ok (roots ++ roots_of [r], ct') /\
    forall p, kids ct' p = kids ct p ++ children_of p [r].
Proof.
  intros Hlen. unfold add_task.
  rewrite (getitem_nth r 22 []), (getitem_nth r 23 []) by lia. simpl.
  fold (task_id r) (parent_id r).
  unfold roots_of, children_of, is_root, is_child_of. simpl.
  destruct (truthy (parent_id r)) eqn:E; simpl.
  - eexists. split; [now rewrite app_nil_r|]. intros p.
    destruct (str_eq_dec (parent_id r) p) as [<-|Hne].
    + rewrite str_eqb_refl, kids_set_same. simpl. f_equal.
      unfold kids. destruct (dict_get (parent_id r) ct) eqn:G.
      * now rewrite G.
      * now rewrite dict_get_set_same.
    + rewrite str_eqb_neq by assumption. rewrite kids_set_other by assumption.
      simpl. rewrite app_nil_r.
      destruct (dict_get (parent_id r) ct); [reflexivity|].
      now apply kids_set_other.
  - exists ct. split; [reflexivity|]. intros p. now rewrite app_nil_r.
Qed.

Lemma first_loop_spec (tasks : list row) :
  Forall (fun t => length t = 24) tasks ->
  forall (roots : list str) (ct : dict (list str)),
  exists ct',
    foldM add_task tasks (roots, ct) = Ok (roots ++ roots_of tasks, ct') /\
    forall p, kids ct' p = kids ct p ++ children_of p tasks.
Proof.
  induction 1 as [|r tasks Hr _ IH]; intros roots ct.
  - exists ct. split; [simpl; now rewrite app_nil_r|].
    intros p. now rewrite app_nil_r.
  - destruct (add_task_spec roots ct r Hr) as [ct1 [E1 K1]].
    destruct (IH (roots ++ roots_of [r]) ct1) as [ct2 [E2 K2]].
    exists ct2. split.
    + change (foldM add_task (r :: tasks) (roots, ct))
        with (bind (add_task (roots, ct) r)
                (fun s' => foldM add_task tasks s')).
      rewrite E1. cbn [bind]. etransitivity; [exact E2|]. f_equal. f_equal.
      rewrite <- app_assoc. f_equal.
      unfold roots_of. simpl. destruct (is_root r); reflexivity.
    + intros p. rewrite K2, K1, <- app_assoc. f_equal.
      unfold children_of. simpl. destruct (is_child_of p r); reflexivity.
Qed.

End FirstLoop.

Section Hierarchy.

Variable tasks : list row.
Hypothesis Hfields : Forall (fun t => length t = 24) tasks.
Hypothesis Hids : NoDup (map task_id tasks).

Lemma roots_of_record (t : str) :
  In t (roots_of tasks) ->
  exists r, In r tasks /\ task_id r = t /\ parent_id r = [].
Proof.
  unfold roots_of. intros H. apply in_map_iff in H as [r [E H]].
  apply filter_In in H as [Hin Hr]. exists r. repeat split; auto.
  unfold is_root in Hr. now destruct (parent_id r).
Qed.

Lemma children_of_record (p t : str) :
  In t (children_of p tasks) ->
  exists r, In r tasks /\ task_id r = t /\ parent_id r = p /\ p <> [].
Proof.
  unfold children_of. intros H. apply in_map_iff in H as [r [E H]].
  apply filter_In in H as [Hin Hr]. exists r.
  unfold is_child_of in Hr. apply andb_prop in Hr as [Ht Hp].
  apply str_eqb_eq in Hp. subst p. repeat split; auto.
  intros E'. now rewrite E' in Ht.
Qed.

Lemma record_in_children (r : row) :
  In r tasks -> parent_id r <> [] ->
  In (task_id r) (children_of (parent_id r) tasks).
Proof.
  intros Hin Hp. unfold children_of. apply in_map. apply filter_In.
  split; [assumption|]. unfold is_child_of. rewrite str_eqb_refl.
  destruct (parent_id r); [contradiction|reflexivity].
Qed.

Lemma record_in_roots (r : row) :
  In r tasks -> parent_id r = [] -> In (task_id r) (roots_of tasks).
Proof.
  intros Hin Hp. unfold roots_of. apply in_map. apply filter_In.
  split; [assumption|]. unfold is_root. now rewrite Hp.
Qed.

(** A task identifier names one record. *)
Lemma record_unique (r r' : row) :
  In r tasks -> In r' tasks -> task_id r = task_id r' -> r = r'.
Proof.
  clear Hfields. induction tasks as [|a l IH]; [contradiction|].
  simpl in Hids. inversion Hids as [|? ? Hnotin Hnodup]; subst.
  intros [->|H] [->|H'] E; auto.
  - exfalso. apply Hnotin. rewrite E. now apply in_map.
  - exfalso. apply Hnotin. rewrite <- E. now apply in_map.
Qed.

(** A record has at most one depth. *)
Lemma Depth_functional (t : str) (l l' : nat) :
  Depth tasks t l -> Depth tasks t l' -> l = l'.
Proof.
  intros H. revert l'. induction H as [t Hr|p t l Hp IH Hc]; intros l' H'.
  - inversion H' as [|p' ? ? _ Hc']; subst; [reflexivity|].
    apply roots_of_record in Hr as [r [Hin [E Hpar]]].
    apply children_of_record in Hc' as [r' [Hin' [E' [Hpar' Hne]]]].
    rewrite <- E' in E. apply record_unique in E; auto. subst r'.
    congruence.
  - inversion H' as [? Hr'|p' ? l0 Hp' Hc']; subst.
    + apply roots_of_record in Hr' as [r [Hin [E Hpar]]].
      apply children_of_record in Hc as [r' [Hin' [E' [Hpar' Hne]]]].
      rewrite <- E' in E. apply record_unique in E; auto. subst r'.
      congruence.
    + apply children_of_record in Hc as [r [Hin [E [Hpar _]]]].
      apply children_of_record in Hc' as [r' [Hin' [E' [Hpar' _]]]].
      rewrite <- E' in E. apply record_unique in E; auto. subst r'.
      f_equal. apply IH. congruence.
Qed.

Lemma Depth_pos (t : str) (l : nat) : Depth tasks t l -> 1 <= l.
Proof. destruct 1; lia. Qed.

Lemma Depth_id (t : str) (l : nat) :
  Depth tasks t l -> In t (map task_id tasks).
Proof.
  destruct 1 as [t Hr|p t l _ Hc].
  - apply roots_of_record in Hr as [r [Hin [<- _]]]. now apply in_map.
  - apply children_of_record in Hc as [r [Hin [<- _]]]. now apply in_map.
Qed.

(** The ancestors of a record at depth [l] are [l] distinct records. *)
Lemma Depth_chain (t : str) (l : nat) :
  Depth tasks t l ->
  exists chain,
    length chain = l /\ NoDup chain /\ incl chain (map task_id tasks) /\
    forall u, In u chain -> exists j, j <= l /\ Depth tasks u j.
Proof.
  induction 1 as [t Hr|p t l Hp [chain [Hlen [Hnd [Hincl Hch]]]] Hc].
  - exists [t]. repeat split.
    + constructor; [intros []|constructor].
    + intros u [<-|[]]. apply Depth_id with (l := 1). now constructor.
    + intros u [<-|[]]. exists 1. split; [lia|now constructor].
  - assert (Ht : Depth tasks t (S l)) by (econstructor; eauto).
    exists (t :: chain). repeat split.
    + simpl. now rewrite Hlen.
    + constructor; [|assumption]. intros Hin.
      destruct (Hch t Hin) as [j [Hj Hd]].
      pose proof (Depth_functional t j (S l) Hd Ht). lia.
    + intros u [<-|Hu]; [now apply Depth_id with (l := S l)|auto].
    + intros u [<-|Hu]; [exists (S l); split; [lia|assumption]|].
      destruct (Hch u Hu) as [j [Hj Hd]]. exists j. split; [lia|assumption].
Qed.

Lemma Depth_bound (t : str) (l : nat) : Depth tasks t l -> l <= length tasks.
Proof.
  intros H. destruct (Depth_chain t l H) as [chain [Hlen [Hnd [Hincl _]]]].
  rewrite <- Hlen, <- (length_map task_id tasks).
  now apply NoDup_incl_length.
Qed.

Variable ct : dict (list str).
Hypothesis Hct : forall p, kids ct p = children_of p tasks.

Lemma set_indent_level_step (f : nat) (t : str) (l : nat) (ind : dict nat) :
  set_indent_level (S f) ct t l ind =
  foldM (fun ind c => set_indent_level f ct c (l + 1) ind)
    (children_of t tasks) (dict_set t (Nat.min l 4) ind).
Proof.
  rewrite <- Hct. unfold kids. simpl.
  destruct (dict_get t ct); reflexivity.
Qed.

Lemma grows_refl (ind : dict nat) : grows ind ind.
Proof. intros k H. exact H. Qed.

Lemma grows_trans (a b c : dict nat) : grows a b -> grows b c -> grows a c.
Proof. intros H1 H2 k H. auto. Qed.

Lemma grows_set (t : str) (v : nat) (ind : dict nat) :
  grows ind (dict_set t v ind).
Proof.
  intros k H. destruct (str_eq_dec t k) as [->|Hne].
  - now rewrite dict_get_set_same.
  - now rewrite dict_get_set_other.
Qed.

(** A loop of visits, given that one visit with the same budget is
    right. *)
Lemma loop_visited (f L : nat) (pending : list str) :
  (forall t ind,
      Depth tasks t L -> levels_ok tasks ind ->
      closed_except tasks pending ind ->
      visited tasks pending ind [t] (set_indent_level f ct t L ind)) ->
  forall cs ind,
    (forall c, In c cs -> Depth tasks c L) ->
    levels_ok tasks ind -> closed_except tasks pending ind ->
    visited tasks pending ind cs
      (foldM (fun ind c => set_indent_level f ct c L ind) cs ind).
Proof.
  intros Hvisit. induction cs as [|c cs IH]; intros ind Hcs Hl Hc.
  - exists ind. repeat split; auto using grows_refl.
  - destruct (Hvisit c ind) as [ind1 [E1 [Hl1 [Hc1 [Hg1 Hin1]]]]]; auto.
    { apply Hcs. now left. }
    destruct (IH ind1) as [ind2 [E2 [Hl2 [Hc2 [Hg2 Hin2]]]]]; auto.
    { intros c' Hc'. apply Hcs. now right. }
    exists ind2. simpl. rewrite E1. simpl. repeat split; auto.
    + eapply grows_trans; eauto.
    + intros c' [<-|Hc']; [|auto]. apply Hg2. apply Hin1. now left.
Qed.

(** One visit: it returns within a budget that exceeds the levels still
    below, stores [min l 4], and visits every child. *)
Lemma set_indent_level_visited (f : nat) :
  forall t l ind pending,
    Depth tasks t l -> length tasks < l + f ->
    levels_ok tasks ind -> closed_except tasks pending ind ->
    visited tasks pending ind [t] (set_indent_level f ct t l ind).
Proof.
  induction f as [|f IH]; intros t l ind pending Hd Hf Hl Hc.
  - pose proof (Depth_bound t l Hd). lia.
  - rewrite set_indent_level_step.
    set (ind1 := dict_set t (Nat.min l 4) ind).
    assert (Hl1 : levels_ok tasks ind1).
    { intros u v Hu. unfold ind1 in Hu.
      destruct (str_eq_dec t u) as [->|Hne].
      - rewrite dict_get_set_same in Hu. injection Hu as <-. eauto.
      - rewrite dict_get_set_other in Hu by assumption. eauto. }
    assert (Hc1 : closed_except tasks (t :: pending) ind1).
    { intros p Hp Hnp c Hin. apply grows_set.
      apply (Hc p); auto.
      - unfold ind1 in Hp. rewrite dict_get_set_other in Hp; auto.
        intros ->. apply Hnp. now left.
      - intros Hpp. apply Hnp. now right. }
    destruct (loop_visited f (l + 1) (t :: pending)) with
      (cs := children_of t tasks) (ind := ind1)
      as [ind2 [E2 [Hl2 [Hc2 [Hg2 Hin2]]]]]; auto.
    { intros c ind0 Hdc Hl0 Hc0. apply IH; auto. lia. }
    { intros c Hin. rewrite Nat.add_1_r. econstructor; eauto. }
    assert (Ht : dict_get t ind2 <> None).
    { apply Hg2. unfold ind1. now rewrite dict_get_set_same. }
    exists ind2. repeat split; auto.
    + intros p Hp Hnp c Hin. destruct (str_eq_dec t p) as [<-|Hne]; auto.
      apply (Hc2 p); auto. intros [E|Hpp]; auto.
    + eapply grows_trans; [apply grows_set|exact Hg2].
    + intros c [<-|[]]. assumption.
Qed.

End Hierarchy.

(** X15. The hierarchy index of records with distinct identifiers.  The
    traversal returns within any budget above the number of records; every
    root has level 1; a record whose parent has a level has the level
    [min (parent's level + 1) 4]; and every level is between 1 and 4. *)
Theorem hierarchy_levels (tasks : list row) (depth : nat) :
  Forall (fun t => length t = 24) tasks ->
  NoDup (map task_id tasks) ->
  length tasks < depth ->
  exists indents,
    calculate_indents depth tasks = Ok indents /\
    (forall r, In r tasks -> parent_id r = [] ->
               dict_get (task_id r) indents = Some 1) /\
    (forall R P l,
        In R tasks -> In P tasks ->
        parent_id R = task_id P -> parent_id R <> [] ->
        dict_get (task_id P) indents = Some l ->
        dict_get (task_id R) indents = Some (Nat.min (l + 1) 4)) /\
    (forall id l, dict_get id indents = Some l -> 1 <= l <= 4).
Proof.
  intros Hfields Hids Hdepth.
  destruct (first_loop_spec tasks Hfields [] []) as [ct [E K]].
  assert (Hct : forall p, kids ct p = children_of p tasks) by apply K.
  destruct (loop_visited tasks ct depth 1 [])
    with (cs := roots_of tasks) (ind := @nil (str * nat))
    as [indents [Ei [Hl [Hc [_ Hin]]]]].
  - intros t ind Hd Hl Hc.
    apply set_indent_level_visited; auto; lia.
  - intros c Hc. now constructor.
  - intros u v Hu. discriminate.
  - intros p Hp. now contradict Hp.
  - exists indents. split.
    { unfold calculate_indents. simpl in E.
      match goal with |- bind ?m _ = _ =>
        replace m with (Ok (roots_of tasks, ct)) by (symmetry; exact E) end.
      exact Ei. }
    assert (Hlevel : forall u l v,
              Depth tasks u l -> dict_get u indents = Some v ->
              v = Nat.min l 4).
    { intros u l v Hd Hu. destruct (Hl u v Hu) as [l' [Hd' ->]].
      now rewrite (Depth_functional tasks Hids u l l' Hd Hd'). }
    repeat split.
    + intros r Hr Hp.
      pose proof (record_in_roots tasks r Hr Hp) as Hroot.
      specialize (Hin _ Hroot).
      destruct (dict_get (task_id r) indents) as [v|] eqn:G; [|contradiction].
      now rewrite (Hlevel _ 1 v (Depth_root tasks _ Hroot) G).
    + intros R P l HR HP Hpar Hne HPl.
      pose proof (record_in_children tasks R HR Hne) as Hchild.
      rewrite Hpar in Hchild.
      assert (HRin : dict_get (task_id R) indents <> None).
      { apply (Hc (task_id P)); auto. congruence. }
      destruct (dict_get (task_id R) indents) as [v|] eqn:G; [|contradiction].
      destruct (Hl _ _ HPl) as [lp [Hdp ->]].
      rewrite (Hlevel _ (S lp) v (Depth_child tasks _ _ _ Hdp Hchild) G).
      f_equal. lia.
    + destruct (Hl _ _ H) as [l' [Hd ->]].
      pose proof (Depth_pos tasks _ _ Hd). lia.
    + destruct (Hl _ _ H) as [l' [Hd ->]]. lia.
Qed.

Lemma hierarchy_levels_witness :
  exists indents,
    calculate_indents 3 [Family.mother; Family.daughter] = Ok indents /\
    dict_get (lit "1") indents = Some 1 /\
    dict_get (lit "2") indents = Some 2.
Proof.
  destruct (hierarchy_levels [Family.mother; Family.daughter] 3)
    as [indents [E [Hroot [Hchild _]]]].
  - repeat constructor.
  - repeat constructor; simpl; intuition discriminate.
  - simpl. lia.
  - exists indents. split; [exact E|].
    assert (H1 : dict_get (lit "1") indents = Some 1).
    { apply (Hroot Family.mother); [now left|reflexivity]. }
    split; [exact H1|].
    apply (Hchild Family.daughter Family.mother 1);
      [right; now left | now left | reflexivity | discriminate | exact H1].
Defined.

(* ================================================================== *)
(** * Further properties of the text sanitizer *)
(* ================================================================== *)

Section CleanTextMore.

Lemma contains_double_space_join (ws : list str) :
  Forall word ws -> contains (lit "  ") (join (lit " ") ws) = false.
Proof.
  assert (Hw : forall w rest,
             Forall word_char w ->
             head_is isspace rest = false ->
             contains (lit "  ") rest = false ->
             contains (lit "  ") (w ++ 32%N :: rest) = false).
  { induction w as [|c w IH]; intros rest Hc Hh Hr.
    - simpl app.
      change (contains (lit "  ") (32%N :: rest))
        with (startswith [32%N; 32%N] (32%N :: rest)
              || contains (lit "  ") rest).
      rewrite Hr, orb_false_r. cbn [startswith].
      destruct rest as [|d rest]; [reflexivity|].
      simpl in Hh. destruct (N.eqb_spec 32 d) as [<-|]; [discriminate Hh|].
      reflexivity.
    - inversion Hc as [|? ? [_ Hsp] Hc']; subst.
      change (contains (lit "  ") ((c :: w) ++ 32%N :: rest))
        with (startswith [32%N; 32%N] (c :: w ++ 32%N :: rest)
              || contains (lit "  ") (w ++ 32%N :: rest)).
      rewrite IH by assumption. rewrite orb_false_r. cbn [startswith].
      destruct (N.eqb_spec 32 c) as [<-|]; [discriminate Hsp|reflexivity]. }
  assert (Hlast : forall w, Forall word_char w ->
             contains (lit "  ") w = false).
  { induction w as [|c w IH]; intros Hc; [reflexivity|].
    inversion Hc as [|? ? [_ Hsp] Hc']; subst.
    change (contains (lit "  ") (c :: w))
      with (startswith [32%N; 32%N] (c :: w) || contains (lit "  ") w).
    rewrite IH by assumption. rewrite orb_false_r. cbn [startswith].
    destruct (N.eqb_spec 32 c) as [<-|]; [discriminate Hsp|reflexivity]. }
  induction 1 as [|w ws [Hne Hc] Hws IH]; [reflexivity|].
  simpl join. destruct ws as [|w' ws]; [now apply Hlast|].
  change (lit " " ++ join (lit " ") (w' :: ws))
    with (32%N :: join (lit " ") (w' :: ws)).
  apply Hw; [assumption| |assumption].
  destruct (join_head (w' :: ws) Hws) as [c [s [E Hsp]]]; [discriminate|].
  rewrite E. exact Hsp.
Qed.

(** X1. Whatever the input, the sanitized text holds only printable ASCII
    characters and the six Nordic letters (so no newline and no tab), has
    no two spaces in a row, and neither starts nor ends with white
    space. *)
Theorem clean_text_output (x : str) :
  Forall (fun c => in_range 32 126 c || char_in NORDIC c = true)
    (clean_text x) /\
  contains (lit "  ") (clean_text x) = false /\
  head_is isspace (clean_text x) = false /\
  last_is isspace (clean_text x) = false.
Proof.
  destruct (clean_text_words x) as [ws [Hws ->]]. split; [|split].
  - eapply Forall_impl; [|apply join_chars; exact Hws].
    intros c [Hk Hn]. unfold keep_char in Hk. unfold in_range.
    destruct (N.eqb c 10) eqn:E; [apply N.eqb_eq in E; contradiction|].
    now rewrite orb_false_r in Hk.
  - now apply contains_double_space_join.
  - destruct ws as [|w ws]; [split; reflexivity|].
    assert (Hne : w :: ws <> []) by discriminate. split.
    + destruct (join_head _ Hws Hne) as [c [s [-> Hc]]]. exact Hc.
    + destruct (join_last _ Hws Hne) as [s [c [-> Hc]]].
      unfold last_is. rewrite rev_app_distr. exact Hc.
Qed.

Lemma lstrip_by_all (p : char -> bool) (s : str) :
  Forall (fun c => p c = true) s -> lstrip_by p s = [].
Proof. induction 1 as [|c s Hc _ IH]; simpl; [reflexivity|now rewrite Hc]. Qed.

(** X2. A text made of white space only (of any kind that Python strips) is
    sanitized to the empty string. *)
Theorem clean_text_blank (x : str) :
  Forall (fun c => isspace c = true) x -> clean_text x = [].
Proof.
  intros H. unfold clean_text. destruct (truthy x); [|reflexivity].
  cbv beta iota delta [negb]. unfold strip, strip_by.
  rewrite (lstrip_by_all isspace x H). reflexivity.
Qed.

Lemma clean_text_blank_witness : clean_text [32%N; 9%N; 0xa0%N; 10%N] = [].
Proof.
  apply (clean_text_blank [32%N; 9%N; 0xa0%N; 10%N]).
  repeat constructor.
Defined.

(** X3. A text that already is a sequence of words (non-empty runs of
    printable ASCII characters other than the space, or Nordic letters)
    separated by single spaces is returned unchanged. *)
Theorem clean_text_keeps_clean (ws : list str) :
  Forall word ws -> clean_text (join (lit " ") ws) = join (lit " ") ws.
Proof. apply clean_text_fixed. Qed.

Lemma clean_text_keeps_clean_witness :
  clean_text (join (lit " ") [lit "Buy"; lit "milk"])
  = join (lit " ") [lit "Buy"; lit "milk"].
Proof.
  apply (clean_text_keeps_clean [lit "Buy"; lit "milk"]).
  repeat constructor; discriminate.
Defined.

End CleanTextMore.

(* ================================================================== *)
(** * Further properties of the label synthesizer *)
(* ================================================================== *)

Section LabelMore.

Lemma collapse_loop_enough (r1 : nat) :
  forall (r2 : nat) (s : str),
    length s <= r1 -> length s <= r2 ->
    collapse_loop r1 s = collapse_loop r2 s.
Proof.
  induction r1 as [|r1 IH]; intros r2 s H1 H2.
  - destruct s; [|simpl in H1; lia]. destruct r2; reflexivity.
  - destruct r2 as [|r2].
    + destruct s; [reflexivity|simpl in H2; lia].
    + simpl. destruct (contains (lit "__") s) eqn:E; [|reflexivity].
      pose proof (replace_from_shorter (lit "__") (lit "_")
                    ltac:(simpl; lia) s E) as Hs.
      apply IH; unfold replace; simpl in *; lia.
Qed.

(** X4. The [while '__' in cleaned] loop ends: every round shortens the
    string, so within [len(cleaned)] rounds no double underscore is left,
    and allowing more rounds changes nothing. *)
Theorem collapse_terminates (rounds : nat) (s : str) :
  length s <= rounds ->
  collapse_loop rounds s = collapse s /\
  contains (lit "__") (collapse s) = false.
Proof.
  intros H. split; [|apply collapse_done].
  unfold collapse. apply collapse_loop_enough; lia.
Qed.

Lemma collapse_terminates_witness :
  collapse_loop 9 (lit "a____b__") = collapse (lit "a____b__") /\
  contains (lit "__") (collapse (lit "a____b__")) = false.
Proof. apply (collapse_terminates 9 (lit "a____b__")). simpl. lia. Defined.

(** X5. Within Latin-1, a synthesized label has no two underscores in a
    row, neither starts nor ends with an underscore, and holds neither a
    space nor a hyphen. *)
Theorem clean_label_name_tidy (x : str) :
  Forall (fun c => (c < 256)%N) x ->
  contains (lit "__") (clean_label_name x) = false /\
  head_is underscore (clean_label_name x) = false /\
  last_is underscore (clean_label_name x) = false /\
  ~ In 32%N (clean_label_name x) /\
  ~ In 45%N (clean_label_name x).
Proof.
  intros Hx. destruct (clean_label_name_shape x Hx) as [Hc [Hd [Hh Hl]]].
  repeat split; try assumption.
  - intros Hin. rewrite Forall_forall in Hc. apply Hc in Hin. discriminate.
  - intros Hin. rewrite Forall_forall in Hc. apply Hc in Hin. discriminate.
Qed.

Lemma clean_label_name_tidy_witness :
  contains (lit "__") (clean_label_name (lit "_ Work - Home _")) = false /\
  head_is underscore (clean_label_name (lit "_ Work - Home _")) = false /\
  last_is underscore (clean_label_name (lit "_ Work - Home _")) = false /\
  ~ In 32%N (clean_label_name (lit "_ Work - Home _")) /\
  ~ In 45%N (clean_label_name (lit "_ Work - Home _")).
Proof.
  apply (clean_label_name_tidy (lit "_ Work - Home _")). repeat constructor.
Defined.

End LabelMore.

(* ================================================================== *)
(** * Reading the input: what is returned and what is raised *)
(* ================================================================== *)

Section Reading.

Lemma list_reader_rows (rows : list row) : list_reader (map Rd rows) = Ok rows.
Proof.
  induction rows as [|r rows IH]; [reflexivity|].
  simpl. now rewrite IH.
Qed.

Lemma read_with_rows (rows : list row) :
  read_with (Readable (Rd TICKTICK_HEADER :: map Rd rows)) = Ok rows.
Proof.
  unfold read_with. simpl.
  destruct (row_eq_dec TICKTICK_HEADER TICKTICK_HEADER); [|contradiction].
  apply list_reader_rows.
Qed.

(** X6. An export that decodes as UTF-8 and starts with the expected
    header is returned row by row, in order and unchanged, and the Latin-1
    reading of the file plays no part. *)
Theorem read_ticktick_csv_reads (dir : str) (rows : list row)
    (other : view) :
  read_ticktick_csv
    {| parent := dir;
       utf_8_sig := Readable (Rd TICKTICK_HEADER :: map Rd rows);
       iso_8859_1 := other |}
  = Ok rows.
Proof.
  unfold read_ticktick_csv. simpl utf_8_sig. now rewrite read_with_rows.
Qed.

(** X7. When the UTF-8 reading raises [UnicodeDecodeError], wherever in
    the file, the rows of the Latin-1 reading are returned instead. *)
Theorem read_ticktick_csv_falls_back (file : input_file) (msg : str)
    (rows : list row) :
  read_with (utf_8_sig file) = Raise (Exn UnicodeDecodeError msg) ->
  iso_8859_1 file = Readable (Rd TICKTICK_HEADER :: map Rd rows) ->
  read_ticktick_csv file = Ok rows.
Proof.
  intros Hu Hl. unfold read_ticktick_csv.
  now rewrite Hu, Hl, read_with_rows.
Qed.

Lemma read_ticktick_csv_falls_back_witness :
  read_ticktick_csv MoreExamples.latin1_export
  = Ok [Family.mother; Family.daughter; Examples.milk].
Proof.
  apply (read_ticktick_csv_falls_back MoreExamples.latin1_export
           (message MoreExamples.decode_error)); reflexivity.
Defined.

(** X8. [read_ticktick_csv] never lets a [UnicodeDecodeError] out.  An
    exception that it raises is either the one of the UTF-8 reading (which
    then is of another class: the fallback is not tried), or, after a
    decoding failure, a [ValueError] whose message is the fixed prefix
    followed by the message of the exception of the Latin-1 reading. *)
Theorem read_ticktick_csv_raises (file : input_file) (e : exn) :
  read_ticktick_csv file = Raise e ->
  kind e <> UnicodeDecodeError /\
  (read_with (utf_8_sig file) = Raise e \/
   exists msg e',
     read_with (utf_8_sig file) = Raise (Exn UnicodeDecodeError msg) /\
     read_with (iso_8859_1 file) = Raise e' /\
     e = Exn ValueError
           (lit "Could not read file with UTF-8 or ISO-8859-1 encoding: "
              ++ message e')).
Proof.
  unfold read_ticktick_csv.
  destruct (read_with (utf_8_sig file)) as [rows|[k m]|] eqn:Eu;
    try discriminate.
  destruct k;
    try (intros H; injection H as <-; split; [discriminate|now left]).
  destruct (read_with (iso_8859_1 file)) as [rows|e'|] eqn:El;
    try discriminate.
  intros H. injection H as <-. split; [discriminate|].
  right. exists m, e'. auto.
Qed.

Lemma read_ticktick_csv_raises_witness :
  kind header_error <> UnicodeDecodeError /\
  (read_with (utf_8_sig HeaderExample.short_header) = Raise header_error \/
   exists msg e',
     read_with (utf_8_sig HeaderExample.short_header)
       = Raise (Exn UnicodeDecodeError msg) /\
     read_with (iso_8859_1 HeaderExample.short_header) = Raise e' /\
     header_error
       = Exn ValueError
           (lit "Could not read file with UTF-8 or ISO-8859-1 encoding: "
              ++ message e')).
Proof.
  apply (read_ticktick_csv_raises HeaderExample.short_header header_error).
  reflexivity.
Defined.

End Reading.

(* ================================================================== *)
(** * The Task row *)
(* ================================================================== *)

Section TaskRow.

Variable py_int : str -> option Z.

Lemma getitem_Ok_nth {A} (l : list A) (i : nat) (a d : A) :
  getitem l i = Ok a -> nth i l d = a.
Proof.
  unfold getitem. destruct (nth_error l i) eqn:E; [|discriminate].
  intros H. injection H as <-. now apply nth_error_nth.
Qed.

Ltac open_bind H :=
  match type of H with
  | bind ?m _ = Ok _ =>
      let E := fresh "E" in
      destruct m eqn:E; simpl in H; [|discriminate|discriminate]
  end.

(** X9. A row that [create_todoist_task] returns for a record with a
    title has the 12 columns of the Todoist header: the type "task", the
    sanitized description in DESCRIPTION, the indent as a decimal number,
    the due date copied as it is, "en", "UTC", "None", and AUTHOR,
    RESPONSIBLE and DURATION empty. *)
Theorem task_row_columns (inc : bool) (task : row) (indent : nat) (r : row) :
  create_todoist_task py_int inc task indent = Ok r ->
  r <> [] ->
  length r = length TODOIST_HEADER /\
  nth_error r 0 = Some (lit "task") /\
  nth_error r 2 = Some (clean_text (nth 5 task [])) /\
  nth_error r 4 = Some (str_of_nat indent) /\
  nth_error r 5 = Some [] /\
  nth_error r 6 = Some [] /\
  nth_error r 7 = Some (nth 8 task []) /\
  nth_error r 8 = Some (lit "en") /\
  nth_error r 9 = Some (lit "UTC") /\
  nth_error r 10 = Some [] /\
  nth_error r 11 = Some (lit "None").
Proof.
  unfold create_todoist_task. intros H Hne.
  open_bind H. open_bind H.
  destruct (negb (truthy (clean_text a))).
  { injection H as <-. contradiction. }
  do 6 open_bind H. injection H as <-.
  match goal with
  | E5 : getitem task 5 = Ok ?c, E8 : getitem task 8 = Ok ?d |- _ =>
      rewrite (getitem_Ok_nth task 5 c [] E5),
              (getitem_Ok_nth task 8 d [] E8)
  end.
  repeat split.
Qed.

(** X10. The CONTENT of a Task row starts with the sanitized title, and is
    exactly the sanitized title when the record has no list, no folder and
    no tags and its status is not "2". *)
Theorem task_content_title (inc : bool) (task : row) (indent : nat)
    (r : row) :
  create_todoist_task py_int inc task indent = Ok r ->
  r <> [] ->
  exists labels,
    nth_error r 1 = Some (clean_text (nth 2 task []) ++ labels) /\
    (nth 1 task [] = [] -> nth 0 task [] = [] -> nth 4 task [] = [] ->
     nth 12 task [] <> lit "2" -> labels = []).
Proof.
  unfold create_todoist_task. intros H Hne.
  open_bind H. open_bind H.
  destruct (negb (truthy (clean_text a))).
  { injection H as <-. contradiction. }
  do 6 open_bind H. injection H as <-.
  repeat match goal with
  | E : getitem task ?i = Ok ?c |- _ =>
      rewrite (getitem_Ok_nth task i c [] E); clear E
  end.
  match goal with
  | |- context [nth_error (_ :: match ?ls with [] => _ | _ :: _ => _ end :: _)] =>
      destruct ls as [|l0 ls0] eqn:El
  end.
  - exists []. split; [simpl; now rewrite app_nil_r|reflexivity].
  - eexists. split; [reflexivity|].
    intros -> -> -> Hs. exfalso. simpl in El.
    unfold str_eqb in El.
    destruct (str_eq_dec a3 (lit "2")); [contradiction|discriminate].
Qed.

End TaskRow.

Lemma task_row_columns_witness :
  length [ lit "task"; lit "Buy milk"; lit "2 litres"; lit "3"; lit "2";
           []; []; []; lit "en"; lit "UTC"; []; lit "None" ]
    = length TODOIST_HEADER /\
  nth_error [ lit "task"; lit "Buy milk"; lit "2 litres"; lit "3"; lit "2";
              []; []; []; lit "en"; lit "UTC"; []; lit "None" ] 0
    = Some (lit "task").
Proof.
  destruct (task_row_columns int_ascii true Examples.milk 2
              [ lit "task"; lit "Buy milk"; lit "2 litres"; lit "3"; lit "2";
                []; []; []; lit "en"; lit "UTC"; []; lit "None" ])
    as [Hlen [Htype _]].
  - reflexivity.
  - discriminate.
  - split; [exact Hlen|exact Htype].
Defined.

Lemma task_content_title_witness :
  exists labels,
    nth_error [ lit "task"; lit "Buy milk"; lit "2 litres"; lit "3"; lit "2";
                []; []; []; lit "en"; lit "UTC"; []; lit "None" ] 1
      = Some (clean_text (nth 2 Examples.milk []) ++ labels) /\
    (nth 1 Examples.milk [] = [] -> nth 0 Examples.milk [] = [] ->
     nth 4 Examples.milk [] = [] ->
     nth 12 Examples.milk [] <> lit "2" -> labels = []).
Proof.
  apply (task_content_title int_ascii true Examples.milk 2);
    [reflexivity|discriminate].
Defined.

Section PriorityField.

Variable py_int : str -> option Z.

(** X11. With priority mapping enabled, a record with a title whose
    priority field is not an integer makes [create_todoist_task] raise the
    [ValueError] of [int()]; the loop of the run has no handler for it and
    appends nothing.  With priority mapping disabled the field is not read
    (C4). *)
Theorem priority_not_a_number (indents : dict nat) (task : row)
    (indent : nat) :
  length task = 24 ->
  clean_text (nth 2 task []) <> [] ->
  py_int (nth 11 task []) = None ->
  dict_get (nth 22 task []) indents = Some indent ->
  exists e,
    create_todoist_task py_int true task indent = Raise e /\
    convert_task py_int true indents task = (Raise e, []) /\
    kind e = ValueError.
Proof.
  intros Hlen Htitle Hint Hid.
  do 24 (destruct task as [|? task]; [discriminate Hlen|]).
  destruct task; [clear Hlen|discriminate Hlen].
  simpl in Htitle, Hint, Hid |- *.
  unfold convert_task, dict_item, create_todoist_task, int. simpl.
  rewrite Hid. simpl.
  match type of Htitle with ?t <> _ =>
    destruct t as [|t0 title] eqn:E; [contradiction|] end.
  simpl. rewrite Hint. eexists. repeat split; reflexivity.
Qed.

End PriorityField.

Lemma priority_not_a_number_witness :
  exists e,
    create_todoist_task int_ascii true MoreExamples.urgent 1 = Raise e /\
    convert_task int_ascii true [(lit "4", 1)] MoreExamples.urgent
      = (Raise e, []) /\
    kind e = ValueError.
Proof.
  apply (priority_not_a_number int_ascii [(lit "4", 1)] MoreExamples.urgent 1);
    [reflexivity | vm_compute; discriminate | reflexivity | reflexivity].
Defined.

(* ================================================================== *)
(** * Further properties of the chunker *)
(* ================================================================== *)

Section ChunkerMore.

Lemma process_task_fields (i total : nat) (t : row) :
  4 < length t ->
  exists t',
    process_task i total t = Ok t' /\
    length t' = length t /\
    forall j, j <> 4 -> nth_error t' j = nth_error t j.
Proof.
  intros Hlen. unfold process_task. destruct (1 <? total).
  - rewrite (getitem_nth t 4 []) by assumption. cbn [bind].
    unfold setitem. apply Nat.ltb_lt in Hlen. rewrite Hlen.
    destruct (truthy (nth 4 t [])); eexists;
      (split; [reflexivity|]);
      (split; [apply length_set_nth|]);
      intros j Hj; now apply nth_error_set_nth_other.
  - exists t. auto.
Qed.

(** X12. [process_chunk] touches the tag field only: on rows of at least
    5 fields it returns as many rows, in order, each with the length and
    every field of its source row but field 4. *)
Theorem process_chunk_keeps_fields (ts : list row) (i total : nat) :
  Forall (fun t => 4 < length t) ts ->
  exists ts',
    process_chunk ts i total = Ok ts' /\
    Forall2 (fun t t' =>
               length t' = length t /\
               forall j, j <> 4 -> nth_error t' j = nth_error t j)
      ts ts'.
Proof.
  unfold process_chunk. induction 1 as [|t ts Ht _ [ts' [E IH]]].
  - exists []. split; [reflexivity|constructor].
  - destruct (process_task_fields i total t Ht) as [t' [Et Hf]].
    exists (t' :: ts'). simpl. rewrite Et. simpl. rewrite E. simpl.
    split; [reflexivity|]. now constructor.
Qed.

Lemma process_chunk_keeps_fields_witness :
  exists ts',
    process_chunk [Examples.milk; MoreExamples.labelled] 1 2 = Ok ts' /\
    Forall2 (fun t t' =>
               length t' = length t /\
               forall j, j <> 4 -> nth_error t' j = nth_error t j)
      [Examples.milk; MoreExamples.labelled] ts'.
Proof.
  apply (process_chunk_keeps_fields [Examples.milk; MoreExamples.labelled] 1 2).
  repeat constructor.
Defined.

(** X13. When there is more than one chunk, a row with fewer than 5
    fields makes [process_chunk] raise [IndexError]; with a single chunk
    the rows are returned as they are, whatever their length. *)
Theorem process_chunk_short_row (ts : list row) (i total : nat) :
  (total <= 1 -> process_chunk ts i total = Ok ts) /\
  (1 < total -> Exists (fun t => length t <= 4) ts ->
   process_chunk ts i total = Raise index_error).
Proof.
  unfold process_chunk. split.
  - intros H. apply Nat.ltb_ge in H.
    induction ts as [|t ts IH]; [reflexivity|].
    simpl. unfold process_task at 1. rewrite H. simpl. now rewrite IH.
  - intros H Hex. apply Nat.ltb_lt in H.
    induction ts as [|t ts IH]; [inversion Hex|].
    simpl. unfold process_task at 1. rewrite H.
    destruct (Nat.le_gt_cases (length t) 4) as [Hs|Hl].
    + unfold getitem. apply nth_error_None in Hs. now rewrite Hs.
    + destruct (process_task_fields i total t Hl) as [t' [Et _]].
      unfold process_task in Et. rewrite H in Et. rewrite Et. simpl.
      inversion Hex as [? ? Hs|? ? Hex']; subst; [lia|].
      now rewrite IH.
Qed.

Lemma process_chunk_short_row_witness :
  process_chunk [Examples.milk; MoreExamples.stub] 1 2 = Raise index_error.
Proof.
  apply (process_chunk_short_row [Examples.milk; MoreExamples.stub] 1 2).
  - lia.
  - apply Exists_cons_tl. apply Exists_cons_hd. simpl. lia.
Defined.

End ChunkerMore.

(* ================================================================== *)
(** * Further properties of the hierarchy resolver *)
(* ================================================================== *)

Section IndexFacts.

Lemma add_task_short (acc : list str * dict (list str)) (r : row) :
  length r < 24 -> add_task acc r = Raise index_error.
Proof.
  intros H. unfold add_task, getitem.
  destruct (nth_error r 22) eqn:E22; [|reflexivity].
  assert (E23 : nth_error r 23 = None) by (apply nth_error_None; lia).
  cbn [bind]. now rewrite E23.
Qed.

Lemma add_task_long (acc : list str * dict (list str)) (r : row) :
  24 <= length r -> exists acc', add_task acc r = Ok acc'.
Proof.
  intros H. unfold add_task.
  rewrite (getitem_nth r 22 []), (getitem_nth r 23 []) by lia.
  simpl. destruct acc as [roots ct].
  destruct (negb (truthy (nth 23 r []))); eauto.
Qed.

Lemma first_loop_short (tasks : list row) :
  Exists (fun r => length r < 24) tasks ->
  forall acc, foldM add_task tasks acc = Raise index_error.
Proof.
  induction tasks as [|r tasks IH]; intros Hex acc; [inversion Hex|].
  simpl. destruct (Nat.lt_ge_cases (length r) 24) as [Hs|Hl].
  - now rewrite add_task_short.
  - destruct (add_task_long acc r Hl) as [acc' ->]. simpl.
    inversion Hex as [? ? Hs|? ? Hex']; subst; [lia|]. now apply IH.
Qed.

Lemma calculate_indents_loops (tasks : list row) :
  Forall (fun t => length t = 24) tasks ->
  exists ct,
    (forall p, kids ct p = children_of p tasks) /\
    forall depth,
      calculate_indents depth tasks =
      foldM (fun ind t => set_indent_level depth ct t 1 ind)
        (roots_of tasks) [].
Proof.
  intros Hfields.
  destruct (first_loop_spec tasks Hfields [] []) as [ct [E K]].
  exists ct. split; [exact K|]. intros depth.
  unfold calculate_indents. simpl in E.
  match goal with |- bind ?m _ = _ =>
    replace m with (Ok (roots_of tasks, ct)) by (symmetry; exact E) end.
  reflexivity.
Qed.

Lemma dict_get_keys {V} (k : str) (d : dict V) :
  dict_get k d <> None <-> In k (dict_keys d).
Proof.
  induction d as [|[k' v] d IH]; simpl.
  - split; [congruence|contradiction].
  - destruct (str_eqb k' k) eqn:E.
    + apply str_eqb_eq in E. split; [now left|discriminate].
    + rewrite IH. split; [now right|].
      intros [H|H]; [|assumption]. subst k'.
      now rewrite str_eqb_refl in E.
Qed.

Lemma dict_keys_set {V} (k : str) (v : V) (d : dict V) :
  (In k (dict_keys d) /\ dict_keys (dict_set k v d) = dict_keys d) \/
  (~ In k (dict_keys d) /\ dict_keys (dict_set k v d) = dict_keys d ++ [k]).
Proof.
  induction d as [|[k' v'] d IH]; simpl.
  - right. split; [tauto|reflexivity].
  - destruct (str_eqb k' k) eqn:E; simpl.
    + apply str_eqb_eq in E. left. split; [now left|reflexivity].
    + destruct IH as [[Hin ->]|[Hnin ->]].
      * left. split; [now right|reflexivity].
      * right. split; [|reflexivity].
        intros [H|H]; [|contradiction]. subst k'.
        now rewrite str_eqb_refl in E.
Qed.

Lemma index_go_spec (x : str) (l : list str) (i : nat) :
  (In x l -> exists j, index_go x l i = Ok j /\ i <= j < i + length l) /\
  (~ In x l ->
   index_go x l i = Raise (Exn ValueError (repr_str x ++ lit " is not in list"))).
Proof.
  revert i. induction l as [|y l IH]; intros i; simpl.
  - split; [contradiction|reflexivity].
  - destruct (str_eqb y x) eqn:E.
    + apply str_eqb_eq in E. split.
      * intros _. exists i. split; [reflexivity|lia].
      * intros H. exfalso. apply H. now left.
    + destruct (IH (S i)) as [H1 H2]. split.
      * intros [H|H]; [subst y; now rewrite str_eqb_refl in E|].
        destruct (H1 H) as [j [Ej Hj]]. exists j. split; [assumption|lia].
      * intros H. apply H2. tauto.
Qed.

Lemma index_go_app (x : str) (l l' : list str) (i : nat) :
  In x l -> index_go x (l ++ l') i = index_go x l i.
Proof.
  revert i. induction l as [|y l IH]; intros i H; [contradiction|].
  simpl. destruct (str_eqb y x) eqn:E; [reflexivity|].
  apply IH. destruct H as [H|H]; [|assumption].
  subst y. now rewrite str_eqb_refl in E.
Qed.

Lemma index_go_last (x : str) (l : list str) (i : nat) :
  ~ In x l -> index_go x (l ++ [x]) i = Ok (i + length l).
Proof.
  revert i. induction l as [|y l IH]; intros i H; simpl.
  - rewrite str_eqb_refl. f_equal. lia.
  - rewrite str_eqb_neq by (intros ->; apply H; now left).
    rewrite IH by (intros Hin; apply H; now right). f_equal. lia.
Qed.

Lemma before_app (ids : list str) (t p u : str) :
  before ids p u -> before (ids ++ [t]) p u.
Proof.
  intros [i [j [Hi [Hj Hij]]]]. exists i, j. unfold index in *.
  assert (Hp : In p ids).
  { destruct (in_dec str_eq_dec p ids) as [H|H]; [assumption|].
    apply (index_go_spec p ids 0) in H. congruence. }
  assert (Hu : In u ids).
  { destruct (in_dec str_eq_dec u ids) as [H|H]; [assumption|].
    apply (index_go_spec u ids 0) in H. congruence. }
  now rewrite !index_go_app.
Qed.

Lemma before_last (ids : list str) (p t : str) :
  In p ids -> ~ In t ids -> before (ids ++ [t]) p t.
Proof.
  intros Hp Ht. unfold before, index.
  destruct (proj1 (index_go_spec p ids 0) Hp) as [i [Ei Hi]].
  exists i, (length ids). rewrite index_go_app by assumption.
  rewrite index_go_last by assumption. repeat split; [assumption|lia].
Qed.

End IndexFacts.

Section Aborts.

Variable py_int : str -> option Z.

Lemma convert_stops_at_indents (inc : bool) (depth : nat) (file : input_file)
    (output_dir : option str) (tasks : list row) (e : exn) :
  read_ticktick_csv file = Ok tasks ->
  calculate_indents depth tasks = Raise e ->
  convert py_int inc depth file output_dir
  = (Raise e, match output_dir with Some d => [Mkdir d] | None => [] end).
Proof.
  intros Hr Hc. unfold convert, lift.
  destruct output_dir; simpl; rewrite Hr; simpl; rewrite Hc; reflexivity.
Qed.

Lemma convert_stops_at_sort (inc : bool) (depth : nat) (file : input_file)
    (output_dir : option str) (tasks : list row) (indents : dict nat)
    (e : exn) :
  read_ticktick_csv file = Ok tasks ->
  calculate_indents depth tasks = Ok indents ->
  sort_by (fun x => id <- getitem x 22 ;; index (dict_keys indents) id) tasks
    = Raise e ->
  convert py_int inc depth file output_dir
  = (Raise e, match output_dir with Some d => [Mkdir d] | None => [] end).
Proof.
  intros Hr Hc Hs. unfold convert, lift.
  destruct output_dir; simpl; rewrite Hr; simpl; rewrite Hc; simpl;
    rewrite Hs; reflexivity.
Qed.

(** X14. A row with fewer than 24 fields anywhere in the input makes
    [calculate_indents] raise [IndexError], and the run aborts with it
    before any file is written. *)
Theorem short_row_aborts (inc : bool) (depth : nat) (file : input_file)
    (output_dir : option str) (tasks : list row) :
  read_ticktick_csv file = Ok tasks ->
  Exists (fun r => length r < 24) tasks ->
  calculate_indents depth tasks = Raise index_error /\
  convert py_int inc depth file output_dir
  = (Raise index_error,
     match output_dir with Some d => [Mkdir d] | None => [] end).
Proof.
  intros Hr Hex.
  assert (Hc : calculate_indents depth tasks = Raise index_error).
  { unfold calculate_indents. now rewrite first_loop_short. }
  split; [exact Hc|]. now apply convert_stops_at_indents with (tasks := tasks).
Qed.

Lemma mapM_raises {A B} (Q : exn -> Prop) (f : A -> outcome B) (l : list A) :
  (forall a, In a l ->
             (exists b, f a = Ok b) \/ (exists e, f a = Raise e /\ Q e)) ->
  (exists a, In a l /\ exists e, f a = Raise e) ->
  exists e, mapM f l = Raise e /\ Q e.
Proof.
  induction l as [|a l IH]; intros Hall [a0 [Hin [e0 He0]]]; [contradiction|].
  simpl. destruct (Hall a (or_introl eq_refl)) as [[b Hb]|[e [He HQ]]].
  - rewrite Hb. simpl. destruct Hin as [->|Hin]; [congruence|].
    destruct IH as [e [He HQ]].
    + intros a' Ha'. apply Hall. now right.
    + eauto.
    + rewrite He. simpl. eauto.
  - rewrite He. simpl. eauto.
Qed.

End Aborts.

Lemma short_row_aborts_witness :
  calculate_indents 5 [Examples.milk; MoreExamples.stub] = Raise index_error /\
  convert int_ascii true 5
    (Examples.export_of [Examples.milk; MoreExamples.stub]) None
  = (Raise index_error, []).
Proof.
  apply (short_row_aborts int_ascii true 5
           (Examples.export_of [Examples.milk; MoreExamples.stub]) None
           [Examples.milk; MoreExamples.stub]).
  - reflexivity.
  - apply Exists_cons_tl. apply Exists_cons_hd. simpl. lia.
Defined.

Section IndexInvariants.

Variable tasks : list row.
Hypothesis Hfields : Forall (fun t => length t = 24) tasks.
Hypothesis Hids : NoDup (map task_id tasks).

(** The index that [calculate_indents] returns, with the invariants of
    the traversal. *)
Lemma calculate_indents_index (depth : nat) :
  length tasks < depth ->
  exists indents,
    calculate_indents depth tasks = Ok indents /\
    levels_ok tasks indents /\
    closed_except tasks [] indents /\
    forall c, In c (roots_of tasks) -> dict_get c indents <> None.
Proof.
  intros Hdepth.
  destruct (calculate_indents_loops tasks Hfields) as [ct [Hct Hcalc]].
  destruct (loop_visited tasks ct depth 1 [])
    with (cs := roots_of tasks) (ind := @nil (str * nat))
    as [indents [Ei [Hl [Hc [_ Hin]]]]].
  - intros t ind Hd Hl Hc.
    apply set_indent_level_visited; auto; lia.
  - intros c Hc. now constructor.
  - intros u v Hu. discriminate.
  - intros p Hp. now contradict Hp.
  - exists indents. rewrite Hcalc. auto.
Qed.

(** A record under an unknown parent has no depth. *)
Lemma unknown_parent_no_depth (R : row) (l : nat) :
  In R tasks -> parent_id R <> [] ->
  ~ In (parent_id R) (map task_id tasks) ->
  ~ Depth tasks (task_id R) l.
Proof.
  intros HR Hne Hunknown Hd.
  inversion Hd as [t Hroot|p t l' Hp Hchild]; subst.
  - apply roots_of_record in Hroot as [r [Hin [E Hpar]]].
    apply (record_unique tasks Hids) in E; auto. subst r. contradiction.
  - apply children_of_record in Hchild as [r [Hin [E [Hpar _]]]].
    apply (record_unique tasks Hids) in E; auto. subst r.
    apply Hunknown. rewrite Hpar. apply Depth_id with (l := l').
    exact Hp.
Qed.

End IndexInvariants.

Section UnknownParent.

Variable py_int : str -> option Z.

(** X16. Among 24-field records with distinct identifiers, a record whose
    non-empty parent identifier is the identifier of no record is left out
    of the index, and the run then aborts in the sort with the
    [ValueError] of [list.index], before any file is written. *)
Theorem unknown_parent_aborts (inc : bool) (depth : nat) (file : input_file)
    (output_dir : option str) (tasks : list row) (R : row) :
  read_ticktick_csv file = Ok tasks ->
  Forall (fun t => length t = 24) tasks ->
  NoDup (map task_id tasks) ->
  length tasks < depth ->
  In R tasks ->
  parent_id R <> [] ->
  ~ In (parent_id R) (map task_id tasks) ->
  exists indents e,
    calculate_indents depth tasks = Ok indents /\
    dict_get (task_id R) indents = None /\
    kind e = ValueError /\
    convert py_int inc depth file output_dir
    = (Raise e, match output_dir with Some d => [Mkdir d] | None => [] end).
Proof.
  intros Hr Hfields Hids Hdepth HR Hne Hunknown.
  destruct (calculate_indents_index tasks Hfields Hids depth Hdepth)
    as [indents [Hc [Hl _]]].
  assert (HRnone : dict_get (task_id R) indents = None).
  { destruct (dict_get (task_id R) indents) as [v|] eqn:G; [|reflexivity].
    destruct (Hl _ _ G) as [l [Hd _]].
    now apply unknown_parent_no_depth in Hd. }
  set (key := fun x : row =>
                id <- getitem x 22 ;; index (dict_keys indents) id).
  destruct (mapM_raises (fun e => kind e = ValueError)
              (fun x => k <- key x ;; Ok (k, x)) tasks) as [e [He Hk]].
  - intros x Hx. unfold key.
    rewrite Forall_forall in Hfields.
    rewrite (getitem_nth x 22 []) by (rewrite (Hfields x Hx); lia).
    cbn [bind]. unfold index.
    destruct (in_dec str_eq_dec (nth 22 x []) (dict_keys indents)) as [H|H].
    + apply (index_go_spec _ _ 0) in H as [j [-> _]]. left.
      cbn [bind]. eauto.
    + apply (index_go_spec _ _ 0) in H. rewrite H. right.
      cbn [bind]. eauto.
  - exists R. split; [assumption|]. unfold key.
    rewrite Forall_forall in Hfields.
    rewrite (getitem_nth R 22 []) by (rewrite (Hfields R HR); lia).
    cbn [bind]. unfold index.
    assert (H : ~ In (nth 22 R []) (dict_keys indents)).
    { intros H. apply dict_get_keys in H. now apply H. }
    apply (index_go_spec _ _ 0) in H. rewrite H. cbn [bind]. eauto.
  - exists indents, e. repeat split; auto.
    apply convert_stops_at_sort with (tasks := tasks) (indents := indents);
      auto.
    unfold sort_by.
    match goal with |- bind ?m _ = _ =>
      replace m with (@Raise (list (nat * row)) e) by (symmetry; exact He)
    end.
    reflexivity.
Qed.

End UnknownParent.

Lemma unknown_parent_aborts_witness :
  exists indents e,
    calculate_indents 3 [Orphans.root; Orphans.orphan] = Ok indents /\
    dict_get (task_id Orphans.orphan) indents = None /\
    kind e = ValueError /\
    convert int_ascii true 3
      (Examples.export_of [Orphans.root; Orphans.orphan]) (Some (lit "dest"))
    = (Raise e, [Mkdir (lit "dest")]).
Proof.
  apply (unknown_parent_aborts int_ascii true 3
           (Examples.export_of [Orphans.root; Orphans.orphan])
           (Some (lit "dest")) [Orphans.root; Orphans.orphan] Orphans.orphan).
  - reflexivity.
  - repeat constructor.
  - repeat constructor; simpl; intuition discriminate.
  - simpl. lia.
  - right. now left.
  - discriminate.
  - simpl. intuition discriminate.
Defined.

Section Order.

Variable tasks : list row.
Variable ct : dict (list str).
Hypothesis Hct : forall p, kids ct p = children_of p tasks.

Lemma order_set (t : str) (v : nat) (ind : dict nat) :
  order_ok tasks ind -> entered tasks ind t ->
  order_ok tasks (dict_set t v ind) /\
  incl (dict_keys ind) (dict_keys (dict_set t v ind)) /\
  In t (dict_keys (dict_set t v ind)).
Proof.
  intros Ho He.
  destruct (dict_keys_set t v ind) as [[Hin E]|[Hnin E]].
  - unfold order_ok. rewrite E. repeat split; auto. apply incl_refl.
  - unfold order_ok. rewrite E. repeat split.
    + intros u Hu. apply in_app_or in Hu as [Hu|[<-|[]]].
      * destruct (Ho u Hu) as [Hr|[p [Hc Hb]]]; [now left|].
        right. exists p. split; [assumption|now apply before_app].
      * destruct He as [Hr|[p [Hc Hp]]]; [now left|].
        right. exists p. split; [assumption|now apply before_last].
    + apply incl_appl, incl_refl.
    + apply in_or_app. right. now left.
Qed.

Lemma entered_mono (ind ind' : dict nat) (t : str) :
  incl (dict_keys ind) (dict_keys ind') ->
  entered tasks ind t -> entered tasks ind' t.
Proof.
  intros Hi [Hr|[p [Hc Hp]]]; [now left|].
  right. exists p. auto.
Qed.

(** A visit that returns keeps the order of the index. *)
Lemma visit_order (f : nat) :
  forall t l ind ind',
    set_indent_level f ct t l ind = Ok ind' ->
    order_ok tasks ind -> entered tasks ind t ->
    order_ok tasks ind' /\ incl (dict_keys ind) (dict_keys ind').
Proof.
  induction f as [|f IH]; intros t l ind ind' E Ho He; [discriminate|].
  rewrite (set_indent_level_step tasks ct Hct) in E.
  destruct (order_set t (Nat.min l 4) ind Ho He) as [Ho1 [Hi1 Ht1]].
  revert E Ho1 Hi1 Ht1.
  generalize (dict_set t (Nat.min l 4) ind).
  assert (Hcs : forall c, In c (children_of t tasks) ->
                          In c (children_of t tasks)) by auto.
  revert Hcs. generalize (children_of t tasks) at 1 3.
  induction l0 as [|c cs IHcs]; intros Hcs ind1 E Ho1 Hi1 Ht1.
  - simpl in E. injection E as <-. auto.
  - simpl in E.
    destruct (set_indent_level f ct c (l + 1) ind1) as [ind2| |] eqn:E2;
      try discriminate.
    simpl in E.
    destruct (IH c (l + 1) ind1 ind2 E2 Ho1) as [Ho2 Hi2].
    { right. exists t. split; [apply Hcs; now left|assumption]. }
    apply (IHcs (fun c' H => Hcs c' (or_intror H)) ind2 E); auto.
    eapply incl_tran; eauto.
Qed.

Lemma roots_order (depth : nat) (cs : list str) :
  incl cs (roots_of tasks) ->
  forall ind ind',
    foldM (fun ind t => set_indent_level depth ct t 1 ind) cs ind = Ok ind' ->
    order_ok tasks ind -> order_ok tasks ind'.
Proof.
  induction cs as [|c cs IH]; intros Hcs ind ind' E Ho.
  - simpl in E. now injection E as <-.
  - simpl in E.
    destruct (set_indent_level depth ct c 1 ind) as [ind1| |] eqn:E1;
      try discriminate.
    simpl in E.
    destruct (visit_order depth c 1 ind ind1 E1 Ho) as [Ho1 _].
    { left. apply Hcs. now left. }
    apply (IH (fun c' H => Hcs c' (or_intror H)) ind1 ind' E Ho1).
Qed.

End Order.

(** X17. In the index of 24-field records with distinct identifiers, a
    record that is in the index comes after its parent: the position that
    [list.index] gives to the parent's identifier, which is the sort key of
    the run, is smaller than the child's. *)
Theorem parents_come_first (tasks : list row) (depth : nat) :
  Forall (fun t => length t = 24) tasks ->
  NoDup (map task_id tasks) ->
  length tasks < depth ->
  exists indents,
    calculate_indents depth tasks = Ok indents /\
    forall R P,
      In R tasks -> In P tasks ->
      parent_id R = task_id P -> parent_id R <> [] ->
      dict_get (task_id R) indents <> None ->
      exists i j,
        index (dict_keys indents) (task_id P) = Ok i /\
        index (dict_keys indents) (task_id R) = Ok j /\
        i < j.
Proof.
  intros Hfields Hids Hdepth.
  destruct (calculate_indents_index tasks Hfields Hids depth Hdepth)
    as [indents [Hc _]].
  exists indents. split; [exact Hc|].
  destruct (calculate_indents_loops tasks Hfields) as [ct [Hct Hcalc]].
  rewrite Hcalc in Hc.
  assert (Ho : order_ok tasks indents).
  { apply (roots_order tasks ct Hct depth (roots_of tasks) (incl_refl _)
             [] indents Hc).
    intros u []. }
  intros R P HR HP Hpar Hne HRin.
  apply dict_get_keys in HRin.
  destruct (Ho _ HRin) as [Hroot|[p [Hchild Hb]]].
  - apply roots_of_record in Hroot as [r [Hin [E Hp]]].
    apply (record_unique tasks Hids) in E; auto. subst r. contradiction.
  - apply children_of_record in Hchild as [r [Hin [E [Hp _]]]].
    apply (record_unique tasks Hids) in E; auto. subst r.
    rewrite <- Hpar, Hp. exact Hb.
Qed.

Lemma parents_come_first_witness :
  exists indents,
    calculate_indents 3 [Family.daughter; Family.mother] = Ok indents /\
    exists i j,
      index (dict_keys indents) (task_id Family.mother) = Ok i /\
      index (dict_keys indents) (task_id Family.daughter) = Ok j /\
      i < j.
Proof.
  destruct (parents_come_first [Family.daughter; Family.mother] 3)
    as [indents [E H]].
  - repeat constructor.
  - repeat constructor; simpl; intuition discriminate.
  - simpl. lia.
  - exists indents. split; [exact E|].
    apply (H Family.daughter Family.mother);
      [now left | right; now left | reflexivity | discriminate |].
    vm_compute in E. injection E as <-. discriminate.
Defined.

Section Recursion.

Lemma foldM_no_raise {A S} (g : S -> A -> outcome S) (l : list A) :
  (forall s a e, g s a <> Raise e) ->
  forall s e, foldM g l s <> Raise e.
Proof.
  intros Hg. induction l as [|a l IH]; intros s e; simpl; [discriminate|].
  destruct (g s a) as [s'|e'|] eqn:E; simpl;
    [apply IH | exfalso; now apply (Hg s a e') | discriminate].
Qed.

(** The recursion raises nothing: it returns or it does not finish. *)
Lemma set_indent_level_no_raise (ct : dict (list str)) (f : nat) :
  forall t l ind e, set_indent_level f ct t l ind <> Raise e.
Proof.
  induction f as [|f IH]; intros t l ind e; simpl; [discriminate|].
  destruct (dict_get t ct); [|discriminate].
  apply foldM_no_raise. intros s a e'. apply IH.
Qed.

Lemma foldM_out_of_fuel {A S} (g : S -> A -> outcome S) (l : list A)
    (a0 : A) :
  (forall s a e, g s a <> Raise e) ->
  In a0 l -> (forall s, g s a0 = OutOfFuel) ->
  forall s, foldM g l s = OutOfFuel.
Proof.
  intros Hg Hin H0. induction l as [|a l IH]; intros s; [contradiction|].
  simpl. destruct Hin as [->|Hin]; [now rewrite H0|].
  destruct (g s a) as [s'|e'|] eqn:E; simpl;
    [now apply IH | exfalso; now apply (Hg s a e') | reflexivity].
Qed.

Lemma self_child_never_returns (ct : dict (list str)) (t : str) (f : nat) :
  In t (kids ct t) ->
  forall l ind, set_indent_level f ct t l ind = OutOfFuel.
Proof.
  intros Hin. induction f as [|f IH]; intros l ind; [reflexivity|].
  simpl. unfold kids in Hin.
  destruct (dict_get t ct) as [children|]; [|contradiction].
  apply foldM_out_of_fuel with (a0 := t); auto.
  intros s a e. apply set_indent_level_no_raise.
Qed.

(** X18. When the identifier of a root record is also the identifier of a
    record that names it as its parent, the recursion of
    [calculate_indents] finishes within no budget (CPython ends it with
    [RecursionError]), and so does the run, before any file is written. *)
Theorem repeated_id_never_returns (py_int : str -> option Z) (inc : bool)
    (file : input_file) (output_dir : option str) (tasks : list row)
    (A B : row) :
  read_ticktick_csv file = Ok tasks ->
  Forall (fun t => length t = 24) tasks ->
  In A tasks -> In B tasks ->
  parent_id A = [] ->
  task_id B = task_id A ->
  parent_id B = task_id A ->
  parent_id B <> [] ->
  forall depth,
    calculate_indents depth tasks = OutOfFuel /\
    convert py_int inc depth file output_dir
    = (OutOfFuel, match output_dir with Some d => [Mkdir d] | None => [] end).
Proof.
  intros Hr Hfields HA HB HpA Hid HpB Hne depth.
  destruct (calculate_indents_loops tasks Hfields) as [ct [Hct Hcalc]].
  assert (Hroot : In (task_id A) (roots_of tasks))
    by now apply record_in_roots.
  assert (Hself : In (task_id A) (kids ct (task_id A))).
  { rewrite Hct, <- Hid at 1. rewrite <- HpB.
    now apply record_in_children. }
  assert (Hc : calculate_indents depth tasks = OutOfFuel).
  { rewrite Hcalc. apply foldM_out_of_fuel with (a0 := task_id A); auto.
    - intros s a e. apply set_indent_level_no_raise.
    - intros s. now apply self_child_never_returns. }
  split; [exact Hc|]. unfold convert, lift.
  destruct output_dir; simpl; rewrite Hr; simpl; rewrite Hc; reflexivity.
Qed.

End Recursion.

Lemma repeated_id_never_returns_witness :
  calculate_indents 1000 [Twins.first; Twins.second] = OutOfFuel /\
  convert int_ascii true 1000
    (Examples.export_of [Twins.first; Twins.second]) None
  = (OutOfFuel, []).
Proof.
  apply (repeated_id_never_returns int_ascii true
           (Examples.export_of [Twins.first; Twins.second]) None
           [Twins.first; Twins.second] Twins.first Twins.second);
    try reflexivity; try discriminate.
  - repeat constructor.
  - now left.
  - right. now left.
Defined.

(* ================================================================== *)
(** * The chunks put back together *)
(* ================================================================== *)

Section Concat.

Lemma slice_first {A} (l : list A) (k : nat) :
  slice l 0 (Nat.min k (length l)) = firstn k l.
Proof.
  unfold slice. rewrite Nat.sub_0_r. simpl skipn.
  destruct (Nat.le_ge_cases k (length l)) as [H|H].
  - now rewrite Nat.min_l.
  - rewrite Nat.min_r by assumption.
    now rewrite !firstn_all2 by lia.
Qed.

Lemma slice_next {A} (l : list A) (k i : nat) :
  slice l (S i * k) (Nat.min ((S i + 1) * k) (length l))
  = slice (skipn k l) (i * k)
      (Nat.min ((i + 1) * k) (length (skipn k l))).
Proof.
  unfold slice. rewrite skipn_skipn, length_skipn.
  replace (i * k + k) with (S i * k) by lia.
  f_equal. lia.
Qed.

(** The slices of [split_tasks_into_chunks], one after the other, are the
    list. *)
Lemma concat_slices {A} (k c : nat) :
  forall l : list A,
    length l <= k * c ->
    concat (map (fun i => slice l (i * k) (Nat.min ((i + 1) * k) (length l)))
              (seq 0 c)) = l.
Proof.
  induction c as [|c IH]; intros l Hl.
  - destruct l; [reflexivity|simpl in Hl; lia].
  - change (seq 0 (S c)) with (0 :: seq 1 c).
    rewrite <- seq_shift, map_cons, map_map. cbn [concat].
    change (0 * k) with 0. change ((0 + 1) * k) with (k + 0).
    rewrite Nat.add_0_r, slice_first.
    rewrite (map_ext _ (fun i => slice (skipn k l) (i * k)
                                   (Nat.min ((i + 1) * k)
                                      (length (skipn k l)))))
      by (intros i; apply slice_next).
    rewrite IH by (rewrite length_skipn; lia).
    apply firstn_skipn.
Qed.

Lemma Forall2_concat_map {A B} (R : A -> B -> Prop) (W : nat -> A -> B)
    (S : nat -> list A) (idx : list nat) :
  (forall i x, R x (W i x)) ->
  Forall2 R (concat (map S idx))
    (concat (map (fun i => map (W i) (S i)) idx)).
Proof.
  intros HR. induction idx as [|i idx IH]; [constructor|].
  simpl. apply Forall2_app; [|exact IH].
  induction (S i) as [|x xs IHx]; constructor; auto.
Qed.

(** X19. The chunks of 24-field records, one after the other, are the
    input list: as many records, in the same order, each one either
    unchanged or with a tag appended to its tag field. *)
Theorem chunks_concat (tasks : list row) :
  Forall (fun t => length t = 24) tasks ->
  exists chunks,
    split_tasks_into_chunks tasks = Ok chunks /\
    Forall2 (fun t t' => t' = t \/ exists tag, t' = with_tag tag t)
      tasks (concat chunks).
Proof.
  intros Hts. destruct (Nat.le_gt_cases (length tasks) 300) as [Hn|Hn].
  - exists [tasks]. split.
    + unfold split_tasks_into_chunks. change TASKS_PER_PROJECT with 300.
      apply Nat.leb_le in Hn. now rewrite Hn.
    + simpl. rewrite app_nil_r. clear. induction tasks; constructor; auto.
  - eexists. split; [now apply split_tasks_into_chunks_large|].
    pose proof (ceil_div_bounds (length tasks) ltac:(lia)) as [_ Hc].
    rewrite <- (concat_slices 300 (ceil_div (length tasks) 300) tasks)
      at 1 by lia.
    apply (Forall2_concat_map
             (fun t t' => t' = t \/ exists tag, t' = with_tag tag t)
             (fun i => with_tag
                         (chunk_tag (i + 1) (ceil_div (length tasks) 300)))).
    intros i x. right. eauto.
Qed.

End Concat.

Lemma chunks_concat_witness :
  exists chunks,
    split_tasks_into_chunks (repeat Examples.milk 301) = Ok chunks /\
    Forall2 (fun t t' => t' = t \/ exists tag, t' = with_tag tag t)
      (repeat Examples.milk 301) (concat chunks).
Proof.
  apply (chunks_concat (repeat Examples.milk 301)).
  apply Forall_forall. intros t Ht. apply repeat_spec in Ht.
  subst t. reflexivity.
Defined.

(* ================================================================== *)
(** * What a run writes *)
(* ================================================================== *)

Section Traces.

Lemma io_bind_snd {A B} (m : io A) (k : A -> io B) :
  snd (io_bind m k)
  = snd m ++ match fst m with Ok a => snd (k a) | _ => [] end.
Proof.
  destruct m as [[a|e|] t]; simpl; try now rewrite app_nil_r.
  now destruct (k a).
Qed.

Lemma io_bind_fst {A B} (m : io A) (k : A -> io B) :
  fst (io_bind m k)
  = match fst m with
    | Ok a => fst (k a)
    | Raise e => Raise e
    | OutOfFuel => OutOfFuel
    end.
Proof.
  destruct m as [[a|e|] t]; simpl; try reflexivity. now destruct (k a).
Qed.

Lemma written_app (t t' : list event) :
  written (t ++ t') = written t ++ written t'.
Proof. unfold written. apply flat_map_app. Qed.

Lemma task_rows_written_app (t t' : list event) :
  task_rows_written (t ++ t')
  = task_rows_written t + task_rows_written t'.
Proof. unfold task_rows_written. now rewrite map_app, list_sum_app. Qed.

Lemma no_write_written (t : list event) :
  Forall no_write t -> written t = [] /\ task_rows_written t = 0.
Proof.
  induction 1 as [|ev t Hev _ [IH1 IH2]]; [split; reflexivity|].
  destruct ev; try contradiction; split; simpl; assumption.
Qed.

Lemma io_mapM_length {A B} (f : A -> io B) (l : list A) (bs : list B) :
  fst (io_mapM f l) = Ok bs -> length bs = length l.
Proof.
  revert bs. induction l as [|a l IH]; intros bs H; simpl in H.
  - now injection H as <-.
  - apply io_bind_ok in H as [b [_ H]].
    apply io_bind_ok in H as [bs' [Hbs' H]].
    injection H as <-. simpl. f_equal. now apply IH.
Qed.

End Traces.

Section Run.

Variable py_int : str -> option Z.

Lemma convert_task_no_write (inc : bool) (indents : dict nat) (task : row) :
  Forall no_write (snd (convert_task py_int inc indents task)).
Proof.
  unfold convert_task.
  repeat (apply io_bind_events; [apply lift_events|intros ? _]).
  destruct (truthy a2); [|constructor].
  rewrite create_note_row_none. simpl. repeat constructor.
Qed.

(** The rows that the loop appends for one record: at most one, a Task
    row. *)
Lemma convert_task_result (inc : bool) (indents : dict nat) (task : row)
    (rows : list row) :
  fst (convert_task py_int inc indents task) = Ok rows ->
  Forall task_row rows /\ length rows <= 1.
Proof.
  unfold convert_task. intros H.
  apply io_bind_ok in H as [task_id0 [_ H]].
  apply io_bind_ok in H as [indent [_ H]].
  apply io_bind_ok in H as [todoist_task [Ht H]].
  apply io_bind_ok in H as [content [_ H]].
  simpl in Ht.
  assert (Hrows : Forall task_row
                    match todoist_task with
                    | [] => []
                    | _ :: _ => [todoist_task]
                    end /\
                  length match todoist_task with
                         | [] => []
                         | _ :: _ => [todoist_task]
                         end <= 1).
  { destruct todoist_task as [|f r]; [split; [constructor|simpl; lia]|].
    destruct (task_row_columns py_int inc task indent (f :: r) Ht)
      as [Hlen [Htype _]]; [discriminate|].
    split; [|simpl; lia]. constructor; [|constructor]. now split. }
  destruct (truthy content).
  - rewrite create_note_row_none in H. simpl in H. now injection H as <-.
  - simpl in H. now injection H as <-.
Qed.

Lemma length_concat_le (rowss : list (list row)) :
  Forall (fun rows => length rows <= 1) rowss ->
  length (concat rowss) <= length rowss.
Proof.
  induction 1 as [|rows rowss H _ IH]; [reflexivity|].
  simpl. rewrite length_app. lia.
Qed.

Lemma filter_task_rows_le (rows : list row) :
  length (filter is_task_row rows) <= length rows.
Proof. apply filter_length_le. Qed.

(** One chunk: what is written and how many Task rows. *)
Lemma convert_chunk_trace (inc : bool) (indents : dict nat)
    (output_dir : str) (num_chunks i : nat) (chunk : list row) :
  Forall writes_table
    (snd (convert_chunk py_int inc indents output_dir num_chunks i chunk)) /\
  task_rows_written
    (snd (convert_chunk py_int inc indents output_dir num_chunks i chunk))
  <= length chunk /\
  forall p,
    fst (convert_chunk py_int inc indents output_dir num_chunks i chunk)
      = Ok p ->
    p = path_join output_dir (output_name num_chunks i) /\
    written
      (snd (convert_chunk py_int inc indents output_dir num_chunks i chunk))
    = [p].
Proof.
  unfold convert_chunk.
  set (loop := io_mapM (convert_task py_int inc indents) chunk).
  assert (Hnw : Forall no_write (snd loop)).
  { apply io_mapM_events. intros. apply convert_task_no_write. }
  destruct (no_write_written _ Hnw) as [Hw Hn].
  rewrite io_bind_snd, io_bind_fst.
  destruct (fst loop) as [rowss|e|] eqn:E.
  - assert (Hres : Forall (fun rows => Forall task_row rows
                                       /\ length rows <= 1) rowss).
    { revert E. apply io_mapM_ok. intros task rows _.
      apply convert_task_result. }
    assert (Hlen : length rowss = length chunk)
      by (apply (io_mapM_length _ _ _ E)).
    simpl. split; [|split].
    + apply Forall_app. split.
      * eapply Forall_impl; [|exact Hnw]. now intros [].
      * constructor; [|repeat constructor].
        exists (concat rowss). split; [reflexivity|].
        apply Forall_concat. eapply Forall_impl; [|exact Hres].
        now intros rows [H _].
    + rewrite task_rows_written_app, Hn.
      unfold task_rows_written. simpl.
      pose proof (filter_task_rows_le (concat rowss)).
      assert (length (concat rowss) <= length rowss).
      { apply length_concat_le. eapply Forall_impl; [|exact Hres].
        now intros rows [_ H']. }
      lia.
    + intros p Hp. injection Hp as <-. split; [reflexivity|].
      rewrite written_app, Hw. reflexivity.
  - rewrite app_nil_r. split; [|split].
    + eapply Forall_impl; [|exact Hnw]. now intros [].
    + rewrite Hn. lia.
    + discriminate.
  - rewrite app_nil_r. split; [|split].
    + eapply Forall_impl; [|exact Hnw]. now intros [].
    + rewrite Hn. lia.
    + discriminate.
Qed.

End Run.

Section RunShape.

Variable py_int : str -> option Z.

Lemma io_bind_lift {A B} (m : outcome A) (k : A -> io B) :
  io_bind (lift m) k
  = match m with
    | Ok a => k a
    | Raise e => (Raise e, [])
    | OutOfFuel => (OutOfFuel, [])
    end.
Proof.
  unfold lift. destruct m as [a|e|]; simpl; try reflexivity.
  now destruct (k a).
Qed.

(** The stages of a run, one after the other. *)
Lemma convert_stages (inc : bool) (depth : nat) (file : input_file)
    (output_dir : option str) :
  convert py_int inc depth file output_dir
  = let mk := match output_dir with Some d => [Mkdir d] | None => [] end in
    let dir := target_dir file output_dir in
    match read_ticktick_csv file with
    | Ok tasks =>
        match calculate_indents depth tasks with
        | Ok indents =>
            match sort_by (fun x => id <- getitem x 22 ;;
                                    index (dict_keys indents) id) tasks with
            | Ok sorted =>
                match split_tasks_into_chunks sorted with
                | Ok chunks =>
                    let r :=
                      io_mapM (fun ic =>
                                 convert_chunk py_int inc indents dir
                                   (length chunks) (fst ic) (snd ic))
                        (combine (seq 0 (length chunks)) chunks) in
                    (fst r, mk ++ snd r)
                | Raise e => (Raise e, mk)
                | OutOfFuel => (OutOfFuel, mk)
                end
            | Raise e => (Raise e, mk)
            | OutOfFuel => (OutOfFuel, mk)
            end
        | Raise e => (Raise e, mk)
        | OutOfFuel => (OutOfFuel, mk)
        end
    | Raise e => (Raise e, mk)
    | OutOfFuel => (OutOfFuel, mk)
    end.
Proof.
  unfold convert.
  assert (Hmk : forall (k : str -> io (list str)),
            io_bind
              match output_dir with
              | Some d => _ <~ emit (Mkdir d) ;; io_ret d
              | None => io_ret (parent file)
              end k
            = (fst (k (target_dir file output_dir)),
               match output_dir with Some d => [Mkdir d] | None => [] end
                 ++ snd (k (target_dir file output_dir)))).
  { intros k. destruct output_dir as [d|]; simpl;
      destruct (k _) as [r t]; reflexivity. }
  rewrite Hmk. rewrite !io_bind_lift.
  destruct (read_ticktick_csv file) as [tasks|e|];
    try (simpl; now rewrite app_nil_r).
  rewrite !io_bind_lift.
  destruct (calculate_indents depth tasks) as [indents|e|];
    try (simpl; now rewrite app_nil_r).
  rewrite !io_bind_lift.
  match goal with |- context [sort_by ?key tasks] =>
    destruct (sort_by key tasks) as [sorted|e|] end;
    try (simpl; now rewrite app_nil_r).
  rewrite !io_bind_lift.
  destruct (split_tasks_into_chunks sorted) as [chunks|e|];
    try (simpl; now rewrite app_nil_r).
  reflexivity.
Qed.

End RunShape.

Section Lengths.

Lemma mapM_Forall2 {A B} (f : A -> outcome B) (l : list A) :
  forall l', mapM f l = Ok l' -> Forall2 (fun a b => f a = Ok b) l l'.
Proof.
  induction l as [|a l IH]; intros l' H; simpl in H.
  - injection H as <-. constructor.
  - destruct (f a) as [b|e|] eqn:E; simpl in H; try discriminate.
    destruct (mapM f l) as [bs|e|]; simpl in H; try discriminate.
    injection H as <-. constructor; auto.
Qed.

Lemma length_insert_by {A} (k : nat) (x : A) (l : list (nat * A)) :
  length (insert_by k x l) = S (length l).
Proof.
  induction l as [|[k' y] l IH]; [reflexivity|].
  simpl. destruct (k' <? k); simpl; [now rewrite IH|reflexivity].
Qed.

Lemma length_sort_keyed {A} (l : list (nat * A)) :
  length (sort_keyed l) = length l.
Proof.
  induction l as [|[k x] l IH]; [reflexivity|].
  simpl. now rewrite length_insert_by, IH.
Qed.

(** The sort keeps the number of records. *)
Lemma length_sort_by {A} (key : A -> outcome nat) (l l' : list A) :
  sort_by key l = Ok l' -> length l' = length l.
Proof.
  unfold sort_by. intros H.
  destruct (mapM _ l) as [keyed|e|] eqn:E; simpl in H; try discriminate.
  injection H as <-. rewrite length_map, length_sort_keyed.
  apply mapM_Forall2 in E. symmetry. eapply Forall2_length. exact E.
Qed.

Lemma length_concat_Forall2 {A B} (S : nat -> list A) (idx : list nat)
    (chunks : list (list B)) :
  Forall2 (fun i ch => length ch = length (S i)) idx chunks ->
  length (concat chunks) = length (concat (map S idx)).
Proof.
  induction 1 as [|i ch idx chunks H _ IH]; [reflexivity|].
  simpl. rewrite !length_app. now rewrite H, IH.
Qed.

(** The chunks hold as many records as the list, whatever the rows. *)
Lemma length_chunks (tasks : list row) (chunks : list (list row)) :
  split_tasks_into_chunks tasks = Ok chunks ->
  length (concat chunks) = length tasks.
Proof.
  unfold split_tasks_into_chunks. change TASKS_PER_PROJECT with 300.
  destruct (Nat.leb_spec (length tasks) 300) as [Hn|Hn]; intros H.
  - injection H as <-. simpl. now rewrite app_nil_r.
  - apply mapM_Forall2 in H.
    rewrite (length_concat_Forall2
               (fun i => slice tasks (i * 300)
                           (Nat.min ((i + 1) * 300) (length tasks)))
               (seq 0 (ceil_div (length tasks) 300)) chunks).
    + rewrite concat_slices; [reflexivity|].
      destruct (ceil_div_bounds (length tasks)) as [_ Hb];
        [apply Nat.lt_trans with 300; [lia|exact Hn]|exact Hb].
    + eapply Forall2_impl; [|exact H].
      intros i ch Hch. unfold process_chunk in Hch.
      apply mapM_Forall2 in Hch. symmetry. eapply Forall2_length.
      exact Hch.
Qed.

Lemma sum_chunk_lengths (chunks : list (list row)) :
  forall start,
    list_sum (map (fun ic : nat * list row => length (snd ic))
                (combine (seq start (length chunks)) chunks))
    = length (concat chunks).
Proof.
  induction chunks as [|ch chunks IH]; intros start; [reflexivity|].
  simpl. rewrite length_app. now rewrite IH.
Qed.

Lemma io_mapM_task_rows {A B} (f : A -> io B) (bound : A -> nat)
    (l : list A) :
  (forall a, task_rows_written (snd (f a)) <= bound a) ->
  task_rows_written (snd (io_mapM f l)) <= list_sum (map bound l).
Proof.
  intros Hf. induction l as [|a l IH]; [exact (Nat.le_refl 0)|].
  simpl io_mapM. rewrite io_bind_snd, task_rows_written_app.
  specialize (Hf a). cbn [map list_sum fold_right].
  change (fold_right Nat.add 0 (map bound l)) with (list_sum (map bound l)).
  assert (H0 : task_rows_written [] = 0) by reflexivity.
  destruct (fst (f a)); [|rewrite H0; lia|rewrite H0; lia].
  rewrite io_bind_snd, task_rows_written_app.
  destruct (fst (io_mapM f l)); cbn [snd io_ret]; rewrite H0; lia.
Qed.

Lemma io_mapM_written {A} (f : A -> io str) (name : A -> str)
    (l : list A) :
  (forall a p, fst (f a) = Ok p -> p = name a /\ written (snd (f a)) = [p]) ->
  forall ps,
    fst (io_mapM f l) = Ok ps ->
    ps = map name l /\ written (snd (io_mapM f l)) = ps.
Proof.
  intros Hf. induction l as [|a l IH]; intros ps H.
  - simpl in H. injection H as <-. split; reflexivity.
  - simpl io_mapM in *. pose proof H as H'.
    apply io_bind_ok in H as [p [Hp H]].
    apply io_bind_ok in H as [ps' [Hps' H]].
    injection H as <-.
    destruct (Hf a p Hp) as [Hn Hw]. destruct (IH ps' Hps') as [Hm Hws].
    split; [simpl; now rewrite Hn, Hm|].
    rewrite io_bind_snd, Hp, io_bind_snd, Hps'. simpl.
    rewrite app_nil_r, written_app, Hw, Hws. reflexivity.
Qed.

End Lengths.

Section RunTheorems.

Variable py_int : str -> option Z.

(** X20. Every file that a run writes, also a run that fails later, is a
    table of the Todoist format: the 12-column header followed by rows of
    12 fields whose type is "task". *)
Theorem written_files_are_tables (inc : bool) (depth : nat)
    (file : input_file) (output_dir : option str) :
  Forall writes_table (snd (convert py_int inc depth file output_dir)).
Proof.
  rewrite convert_stages. cbv zeta.
  assert (Hmk : Forall writes_table
                  match output_dir with Some d => [Mkdir d] | None => [] end).
  { destruct output_dir; repeat constructor. }
  destruct (read_ticktick_csv file) as [tasks|e|]; try exact Hmk.
  destruct (calculate_indents depth tasks) as [indents|e|]; try exact Hmk.
  match goal with |- context [sort_by ?key tasks] =>
    destruct (sort_by key tasks) as [sorted|e|] end; try exact Hmk.
  destruct (split_tasks_into_chunks sorted) as [chunks|e|]; try exact Hmk.
  cbn [snd]. apply Forall_app. split; [exact Hmk|].
  apply io_mapM_events. intros ic _. apply convert_chunk_trace.
Qed.

(** X21. The Task rows of all the files of a run, also of a run that fails
    later, are at most as many as the records read from the input. *)
Theorem task_rows_bounded (inc : bool) (depth : nat) (file : input_file)
    (output_dir : option str) (tasks : list row) :
  read_ticktick_csv file = Ok tasks ->
  task_rows_written (snd (convert py_int inc depth file output_dir))
  <= length tasks.
Proof.
  intros Hr. rewrite convert_stages, Hr. cbv zeta.
  assert (Hmk : task_rows_written
                  match output_dir with Some d => [Mkdir d] | None => [] end
                = 0).
  { destruct output_dir; reflexivity. }
  destruct (calculate_indents depth tasks) as [indents|e|];
    try (cbn [snd]; rewrite Hmk; lia).
  match goal with |- context [sort_by ?key tasks] =>
    destruct (sort_by key tasks) as [sorted|e|] eqn:Es end;
    try (cbn [snd]; rewrite Hmk; lia).
  destruct (split_tasks_into_chunks sorted) as [chunks|e|] eqn:Ec;
    try (cbn [snd]; rewrite Hmk; lia).
  cbn [snd]. rewrite task_rows_written_app, Hmk.
  apply length_sort_by in Es. apply length_chunks in Ec.
  apply Nat.le_trans with (length (concat chunks));
    [|apply Nat.eq_le_incl; etransitivity; [exact Ec|exact Es]].
  eapply Nat.le_trans;
    [|apply Nat.eq_le_incl; exact (sum_chunk_lengths chunks 0)].
  apply (io_mapM_task_rows _ (fun ic => length (snd ic))).
  intros ic. apply convert_chunk_trace.
Qed.

(** X22. A run that returns has written the files whose paths it returns,
    in that order, and no other file.  They are in the output directory
    (the directory of the input when none is given); a single file is named
    todoist_import.csv, and several are named todoist_import_part1.csv,
    todoist_import_part2.csv and so on. *)
Theorem returned_paths_are_written (inc : bool) (depth : nat)
    (file : input_file) (output_dir : option str) (paths : list str) :
  fst (convert py_int inc depth file output_dir) = Ok paths ->
  written (snd (convert py_int inc depth file output_dir)) = paths /\
  paths = map (fun i => path_join (target_dir file output_dir)
                          (output_name (length paths) i))
            (seq 0 (length paths)).
Proof.
  rewrite convert_stages. cbv zeta.
  destruct (read_ticktick_csv file) as [tasks|e|]; try discriminate.
  destruct (calculate_indents depth tasks) as [indents|e|]; try discriminate.
  match goal with |- context [sort_by ?key tasks] =>
    destruct (sort_by key tasks) as [sorted|e|] end; try discriminate.
  destruct (split_tasks_into_chunks sorted) as [chunks|e|]; try discriminate.
  cbn [fst snd]. intros H.
  destruct (io_mapM_written
              (fun ic => convert_chunk py_int inc indents
                           (target_dir file output_dir) (length chunks)
                           (fst ic) (snd ic))
              (fun ic => path_join (target_dir file output_dir)
                           (output_name (length chunks) (fst ic)))
              (combine (seq 0 (length chunks)) chunks)) with (ps := paths)
    as [Hp Hw]; [|exact H|].
  { intros ic p. apply convert_chunk_trace. }
  assert (Hlen : length paths = length chunks).
  { rewrite (io_mapM_length _ _ _ H), length_combine, length_seq.
    apply Nat.min_id. }
  split.
  - rewrite written_app, Hw.
    now destruct output_dir.
  - rewrite Hlen. rewrite Hp at 1.
    rewrite <- (map_map fst
                  (fun i => path_join (target_dir file output_dir)
                              (output_name (length chunks) i))).
    f_equal. clear. generalize 0.
    induction chunks as [|ch chunks IH]; intros start; [reflexivity|].
    simpl. now rewrite IH.
Qed.

(** X23. An export with the header and no record gives one file,
    todoist_import.csv in the output directory, that holds the header row
    alone. *)
Theorem empty_export (inc : bool) (depth : nat) (file : input_file)
    (output_dir : option str) :
  read_ticktick_csv file = Ok [] ->
  convert py_int inc depth file output_dir
  = (Ok [path_join (target_dir file output_dir) (lit "todoist_import.csv")],
     match output_dir with Some d => [Mkdir d] | None => [] end
       ++ [ WriteFile
              (path_join (target_dir file output_dir)
                 (lit "todoist_import.csv"))
              [TODOIST_HEADER];
            Printed
              (lit "Created "
                 ++ path_join (target_dir file output_dir)
                      (lit "todoist_import.csv")
                 ++ lit " with 0 tasks") ]).
Proof.
  intros Hr. rewrite convert_stages, Hr. reflexivity.
Qed.

End RunTheorems.

Lemma task_rows_bounded_witness :
  task_rows_written
    (snd (convert int_ascii true 3
            (Examples.export_of [Examples.untitled; Examples.milk]) None))
  <= length [Examples.untitled; Examples.milk].
Proof.
  apply (task_rows_bounded int_ascii true 3
           (Examples.export_of [Examples.untitled; Examples.milk]) None
           [Examples.untitled; Examples.milk]).
  reflexivity.
Defined.

Lemma returned_paths_are_written_witness :
  written
    (snd (convert int_ascii true 3
            (Examples.export_of [Family.mother; Family.daughter]) None))
  = [lit "out/todoist_import.csv"] /\
  [lit "out/todoist_import.csv"]
  = map (fun i => path_join
                    (target_dir
                       (Examples.export_of [Family.mother; Family.daughter])
                       None)
                    (output_name (length [lit "out/todoist_import.csv"]) i))
      (seq 0 (length [lit "out/todoist_import.csv"])).
Proof.
  apply (returned_paths_are_written int_ascii true 3
           (Examples.export_of [Family.mother; Family.daughter]) None
           [lit "out/todoist_import.csv"]).
  reflexivity.
Defined.

Lemma empty_export_witness :
  convert int_ascii true 0 (Examples.export_of []) (Some (lit "dest"))
  = (Ok [lit "dest/todoist_import.csv"],
     [ Mkdir (lit "dest");
       WriteFile (lit "dest/todoist_import.csv") [TODOIST_HEADER];
       Printed (lit "Created dest/todoist_import.csv with 0 tasks") ]).
Proof.
  apply (empty_export int_ascii true 0 (Examples.export_of [])
           (Some (lit "dest"))).
  reflexivity.
Defined.

(* ================================================================== *)
(** * utils.clean_label_name *)
(* ================================================================== *)

Section UtilsLabel.

Lemma replace_char_map (a b : char) (s : str) :
  replace [a] [b] s = map (fun c => if N.eqb a c then b else c) s.
Proof.
  unfold replace. induction s as [|c s IH]; [reflexivity|].
  simpl. destruct (N.eqb a c); simpl; now rewrite IH.
Qed.

Lemma utils_latin1_checked :
  forallb Utils.latin1_check (map N.of_nat (seq 0 256)) = true.
Proof. vm_compute. reflexivity. Qed.

Lemma utils_latin1_facts (c : char) :
  (c < 256)%N ->
  lower_char c = [low c] /\
  lower_char (low c) = [low c] /\
  (Utils.kept_by_pattern c = true -> Utils.kept_by_pattern (low c) = true) /\
  (low c = 32%N <-> c = 32%N) /\
  (low c < 256)%N.
Proof.
  intros Hc. pose proof utils_latin1_checked as H.
  rewrite forallb_forall in H. specialize (H c).
  assert (Hin : In c (map N.of_nat (seq 0 256))).
  { apply in_map_iff. exists (N.to_nat c). split; [apply N2Nat.id|].
    apply in_seq. lia. }
  apply H in Hin. unfold Utils.latin1_check in Hin.
  apply andb_prop in Hin as [Hin HE]. apply andb_prop in Hin as [Hin HD].
  apply andb_prop in Hin as [Hin HC]. apply andb_prop in Hin as [HA HB].
  unfold str_eqb in HA, HB.
  destruct (str_eq_dec (lower_char c) [low c]); [|discriminate].
  destruct (str_eq_dec (lower_char (low c)) [low c]); [|discriminate].
  apply eqb_prop in HD.
  repeat split; auto.
  - intros Hk. now rewrite Hk in HC.
  - intros E. apply N.eqb_eq. rewrite <- HD, E. reflexivity.
  - intros ->. reflexivity.
  - now apply N.ltb_lt.
Qed.

(** The characters of a label of [utils.clean_label_name]. *)
Lemma utils_label_chars (x : str) :
  Forall (fun c => (c < 256)%N) x ->
  Forall (fun c => Utils.kept_by_pattern c = true /\ c <> 32%N /\
                   lower_char c = [c])
    (Utils.clean_label_name x).
Proof.
  intros Hx. unfold Utils.clean_label_name.
  change (lit " ") with [32%N]. change (lit "_") with [95%N].
  rewrite replace_char_map. unfold lower. rewrite lower_from_flat.
  2:{ intros Hin. apply in_map_iff in Hin as [c [Ec Hc]].
      apply filter_In in Hc as [Hc _]. rewrite Forall_forall in Hx.
      apply Hx in Hc. destruct (N.eqb 32 c).
      - vm_compute in Ec. discriminate Ec.
      - subst c. vm_compute in Hc. discriminate Hc. }
  induction Hx as [|c x Hc _ IH]; [constructor|].
  cbn [filter]. destruct (Utils.kept_by_pattern c) eqn:Hk; [|exact IH].
  cbn [map flat_map]. destruct (N.eqb_spec 32 c) as [<-|Hne].
  - change (lower_char 95%N) with [95%N]. cbn [app].
    constructor; [|exact IH]. repeat split. discriminate.
  - destruct (utils_latin1_facts c Hc) as [E [E' [Hk' [H32 _]]]].
    rewrite E. cbn [app]. constructor; [|exact IH].
    repeat split; auto. intros H. apply H32 in H. congruence.
Qed.

(** X24. Within Latin-1, the label cleaner of utils.py is idempotent, and
    its result holds no space. *)
Theorem utils_clean_label_name_idempotent (x : str) :
  Forall (fun c => (c < 256)%N) x ->
  Utils.clean_label_name (Utils.clean_label_name x)
    = Utils.clean_label_name x /\
  ~ In 32%N (Utils.clean_label_name x).
Proof.
  intros Hx. pose proof (utils_label_chars x Hx) as H.
  set (y := Utils.clean_label_name x) in *.
  assert (Hno : ~ In 32%N y).
  { intros Hin. rewrite Forall_forall in H.
    destruct (H _ Hin) as [_ [Hne _]]. now apply Hne. }
  split; [|exact Hno].
  unfold Utils.clean_label_name at 1.
  rewrite filter_all by (eapply Forall_impl; [|exact H]; now intros c [Hk _]).
  rewrite (replace_absent (lit " ") (lit "_") 32%N y); [|now left|exact Hno].
  apply lower_fixed. eapply Forall_impl; [|exact H]. now intros c [_ [_ Hc]].
Qed.

Lemma contains_absent (c : char) (old s : str) :
  In c old -> ~ In c s -> contains old s = false.
Proof.
  intros Hold. induction s as [|d s IH]; intros Hs.
  - simpl. destruct old; [contradiction|reflexivity].
  - simpl. rewrite IH by (intros H; apply Hs; now right).
    rewrite orb_false_r.
    destruct (startswith old (d :: s)) eqn:E; [|reflexivity].
    exfalso. apply startswith_app in E as [rest E].
    apply Hs. rewrite E. apply in_or_app. now left.
Qed.

Lemma head_is_absent (p : char -> bool) (s : str) :
  Forall (fun c => p c = false) s -> head_is p s = false.
Proof. destruct 1; [reflexivity|assumption]. Qed.

(** X25. On a name made of Latin-1 letters and digits only, the label
    cleaner of utils.py and the one of the converter return the same label:
    the name in lower case. *)
Theorem label_cleaners_agree (x : str) :
  Forall (fun c => (c < 256)%N /\ isalnum c = true) x ->
  Utils.clean_label_name x = lower x /\
  Converter.clean_label_name x = lower x.
Proof.
  intros Hx.
  assert (Habs : forall c, isalnum c = false -> ~ In c x).
  { intros c Hc Hin. rewrite Forall_forall in Hx.
    destruct (Hx _ Hin) as [_ H]. congruence. }
  split.
  - unfold Utils.clean_label_name.
    rewrite filter_all.
    + now rewrite (replace_absent (lit " ") (lit "_") 32%N x);
        [|now left|apply Habs].
    + eapply Forall_impl; [|exact Hx]. intros c [_ Hc].
      unfold Utils.kept_by_pattern. now rewrite Hc.
  - unfold Converter.clean_label_name.
    destruct x as [|c0 x0]; [reflexivity|].
    set (x := c0 :: x0) in *. change (truthy x) with true.
    cbv beta iota delta [negb].
    rewrite (replace_absent (lit " ") (lit "_") 32%N x);
      [|now left|now apply Habs].
    rewrite (replace_absent (lit "-") (lit "_") 45%N x);
      [|now left|now apply Habs].
    rewrite filter_all.
    2:{ eapply Forall_impl; [|exact Hx]. intros c [_ Hc].
        unfold label_char. now rewrite Hc. }
    rewrite collapse_fixed
      by (apply contains_absent with (c := 95%N); [now left|now apply Habs]).
    unfold strip_chars. rewrite strip_by_fixed; [reflexivity| |].
    + apply head_is_absent. eapply Forall_impl; [|exact Hx].
      intros c [_ Hc]. unfold char_in. simpl. rewrite orb_false_r.
      destruct (N.eqb_spec c 95) as [->|]; [discriminate Hc|reflexivity].
    + unfold last_is. apply head_is_absent. apply Forall_rev.
      eapply Forall_impl; [|exact Hx].
      intros c [_ Hc]. unfold char_in. simpl. rewrite orb_false_r.
      destruct (N.eqb_spec c 95) as [->|]; [discriminate Hc|reflexivity].
Qed.

End UtilsLabel.

Lemma utils_clean_label_name_idempotent_witness :
  Utils.clean_label_name (Utils.clean_label_name (lit "My List - (Name)"))
    = Utils.clean_label_name (lit "My List - (Name)") /\
  ~ In 32%N (Utils.clean_label_name (lit "My List - (Name)")).
Proof.
  apply (utils_clean_label_name_idempotent (lit "My List - (Name)")).
  repeat constructor.
Defined.

Lemma label_cleaners_agree_witness :
  Utils.clean_label_name (lit "Work2024") = lower (lit "Work2024") /\
  Converter.clean_label_name (lit "Work2024") = lower (lit "Work2024").
Proof.
  apply (label_cleaners_agree (lit "Work2024")).
  repeat constructor.
Defined.

(* ================================================================== *)
(** * A run on a flat list of records *)
(* ================================================================== *)

Section FlatIndex.

Lemma dict_set_fresh {V} (k : str) (v : V) (d : dict V) :
  ~ In k (dict_keys d) -> dict_set k v d = d ++ [(k, v)].
Proof.
  induction d as [|[k' v'] d IH]; intros H; [reflexivity|].
  simpl. rewrite str_eqb_neq by (intros ->; apply H; now left).
  rewrite IH by (intros Hin; apply H; now right). reflexivity.
Qed.

Lemma no_children (tasks : list row) (p : str) :
  Forall (fun t => parent_id t = []) tasks -> children_of p tasks = [].
Proof.
  unfold children_of. induction 1 as [|t tasks Ht _ IH]; [reflexivity|].
  simpl. unfold is_child_of at 1. rewrite Ht. exact IH.
Qed.

Lemma all_roots (tasks : list row) :
  Forall (fun t => parent_id t = []) tasks ->
  roots_of tasks = map task_id tasks.
Proof.
  unfold roots_of. induction 1 as [|t tasks Ht _ IH]; [reflexivity|].
  simpl. unfold is_root at 1. rewrite Ht. simpl. now rewrite IH.
Qed.

Lemma roots_loop (tasks : list row) (ct : dict (list str)) (depth : nat) :
  (forall p, kids ct p = []) ->
  forall (ids : list str) (ind : dict nat),
    NoDup ids ->
    (forall k, In k ids -> ~ In k (dict_keys ind)) ->
    foldM (fun ind t => set_indent_level (S depth) ct t 1 ind) ids ind
    = Ok (ind ++ map (fun t => (t, 1)) ids).
Proof.
  intros Hct. induction ids as [|t ids IH]; intros ind Hnd Hfresh.
  - simpl. now rewrite app_nil_r.
  - inversion Hnd as [|? ? Hnotin Hnd']; subst.
    cbn [foldM].
    assert (E : set_indent_level (S depth) ct t 1 ind
                = Ok (ind ++ [(t, 1)])).
    { simpl. specialize (Hct t). unfold kids in Hct.
      destruct (dict_get t ct) as [l|]; [subst l|]; simpl;
        (rewrite dict_set_fresh; [reflexivity|apply Hfresh; now left]). }
    rewrite E. cbn [bind]. rewrite IH.
    + now rewrite <- app_assoc.
    + assumption.
    + intros k Hk Hin. unfold dict_keys in Hin.
      rewrite map_app in Hin. apply in_app_or in Hin as [Hin|[<-|[]]].
      * apply (Hfresh k); [now right|exact Hin].
      * contradiction.
Qed.

(** The index of a list of roots with distinct identifiers: every record
    at level 1, in the order of the list. *)
Lemma calculate_indents_flat (tasks : list row) (depth : nat) :
  Forall (fun t => length t = 24) tasks ->
  Forall (fun t => parent_id t = []) tasks ->
  NoDup (map task_id tasks) ->
  calculate_indents (S depth) tasks = Ok (flat_index tasks).
Proof.
  intros Hfields Hroots Hids.
  destruct (calculate_indents_loops tasks Hfields) as [ct [Hct Hcalc]].
  rewrite Hcalc, (all_roots tasks Hroots).
  rewrite (roots_loop tasks ct depth); auto.
  - simpl. unfold flat_index. now rewrite map_map.
  - intros p. rewrite Hct. now apply no_children.
Qed.

Lemma index_go_middle (x : str) (l l' : list str) (i : nat) :
  ~ In x l -> index_go x (l ++ x :: l') i = Ok (i + length l).
Proof.
  revert i. induction l as [|y l IH]; intros i H; simpl.
  - rewrite str_eqb_refl. f_equal. lia.
  - rewrite str_eqb_neq by (intros ->; apply H; now left).
    rewrite IH by (intros Hin; apply H; now right). f_equal. lia.
Qed.

(** The sort keys of a list with distinct identifiers are the positions. *)
Lemma keys_are_positions (pre l : list row) :
  Forall (fun t => length t = 24) l ->
  NoDup (map task_id (pre ++ l)) ->
  mapM (fun x => k <- (id <- getitem x 22 ;;
                       index (map task_id (pre ++ l)) id) ;;
                 Ok (k, x)) l
  = Ok (combine (seq (length pre) (length l)) l).
Proof.
  revert pre. induction l as [|x l IH]; intros pre Hf Hnd; [reflexivity|].
  inversion Hf as [|? ? Hx Hf']; subst.
  assert (Ek : index (map task_id (pre ++ x :: l)) (task_id x)
               = Ok (length pre)).
  { unfold index. rewrite map_app. cbn [map].
    rewrite index_go_middle; [now rewrite length_map|].
    rewrite map_app in Hnd. cbn [map] in Hnd.
    apply NoDup_remove_2 in Hnd. intros Hin. apply Hnd.
    apply in_or_app. now left. }
  specialize (IH (pre ++ [x]) Hf').
  rewrite <- app_assoc in IH. cbn [app] in IH.
  cbn [mapM]. rewrite (getitem_nth x 22 []) by lia. cbn [bind].
  change (nth 22 x []) with (task_id x). rewrite Ek. cbn [bind].
  rewrite IH by exact Hnd. cbn [bind].
  rewrite length_app. cbn [length seq combine].
  now rewrite Nat.add_1_r.
Qed.

Lemma sort_keyed_positions {A} (l : list A) :
  forall start,
    sort_keyed (combine (seq start (length l)) l)
    = combine (seq start (length l)) l.
Proof.
  induction l as [|x l IH]; intros start; [reflexivity|].
  cbn [length seq combine sort_keyed fold_right fst snd].
  change (fold_right _ [] (combine (seq (S start) (length l)) l))
    with (sort_keyed (combine (seq (S start) (length l)) l)).
  rewrite IH. destruct l as [|y l]; [reflexivity|].
  cbn [length seq combine insert_by].
  destruct (Nat.ltb_spec (S start) start); [lia|reflexivity].
Qed.

Lemma map_snd_positions {A} (l : list A) :
  forall start, map snd (combine (seq start (length l)) l) = l.
Proof.
  induction l as [|x l IH]; intros start; [reflexivity|].
  simpl. now rewrite IH.
Qed.

(** Records with distinct identifiers that are all in the index, in the
    order of the index, are left in place by the sort. *)
Lemma sort_flat (tasks : list row) :
  Forall (fun t => length t = 24) tasks ->
  NoDup (map task_id tasks) ->
  sort_by (fun x => id <- getitem x 22 ;;
                    index (dict_keys (flat_index tasks)) id) tasks
  = Ok tasks.
Proof.
  intros Hf Hnd. unfold sort_by.
  assert (E : dict_keys (flat_index tasks) = map task_id tasks).
  { unfold dict_keys, flat_index. rewrite map_map. reflexivity. }
  rewrite E.
  pose proof (keys_are_positions [] tasks Hf Hnd) as K. cbn [app] in K.
  match goal with |- bind ?m _ = _ =>
    replace m with (Ok (combine (seq 0 (length tasks)) tasks))
      by (symmetry; exact K)
  end.
  cbn [bind]. now rewrite sort_keyed_positions, map_snd_positions.
Qed.

Lemma flat_index_get (tasks : list row) (t : row) :
  In t tasks -> dict_get (task_id t) (flat_index tasks) = Some 1.
Proof.
  induction tasks as [|a l IH]; intros H; [contradiction|].
  simpl. destruct (str_eqb (task_id a) (task_id t)) eqn:E; [reflexivity|].
  destruct H as [->|H]; [now rewrite str_eqb_refl in E|auto].
Qed.

End FlatIndex.

Section FlatRun.

Variable py_int : str -> option Z.

Lemma create_todoist_task_returns (inc : bool) (task : row) (indent : nat) :
  length task = 24 ->
  (inc = true -> py_int (nth 11 task []) <> None) ->
  exists r, create_todoist_task py_int inc task indent = Ok r.
Proof.
  intros Hlen Hint.
  do 24 (destruct task as [|? task]; [discriminate Hlen|]).
  destruct task; [clear Hlen|discriminate Hlen].
  simpl in Hint. unfold create_todoist_task, int. simpl.
  match goal with |- context [truthy (clean_text ?t)] =>
    destruct (truthy (clean_text t)) end; simpl; [|eauto].
  destruct inc; simpl; [|eauto].
  match goal with |- context [py_int ?p] =>
    destruct (py_int p) eqn:E end; simpl; [eauto|].
  exfalso. now apply Hint.
Qed.

Lemma convert_task_flat (inc : bool) (tasks : list row) (t : row) :
  In t tasks -> length t = 24 ->
  (inc = true -> py_int (nth 11 t []) <> None) ->
  fst (convert_task py_int inc (flat_index tasks) t)
  = Ok (root_task_rows py_int inc t).
Proof.
  intros Hin Hlen Hint. unfold convert_task, root_task_rows.
  rewrite (getitem_nth t 22 []), (getitem_nth t 5 []) by lia.
  rewrite !io_bind_lift. change (nth 22 t []) with (task_id t).
  unfold dict_item. rewrite (flat_index_get tasks t Hin).
  rewrite !io_bind_lift.
  destruct (create_todoist_task_returns inc t 1 Hlen Hint) as [r ->].
  rewrite !io_bind_lift.
  destruct (truthy (nth 5 t [])).
  - rewrite create_note_row_none. simpl. now destruct r.
  - simpl. now destruct r.
Qed.

Lemma io_mapM_fst_map {A B} (f : A -> io B) (g : A -> B) (l : list A) :
  (forall a, In a l -> fst (f a) = Ok (g a)) ->
  fst (io_mapM f l) = Ok (map g l).
Proof.
  induction l as [|a l IH]; intros H; [reflexivity|].
  simpl io_mapM. rewrite io_bind_fst, (H a) by now left.
  rewrite io_bind_fst, IH by (intros; apply H; now right). reflexivity.
Qed.

(** X26. An export of up to 300 records of 24 fields that are all roots
    and have distinct identifiers is converted, provided that the priority
    fields are integers when priority mapping is enabled: the run returns
    the one path todoist_import.csv in the output directory and writes
    there the header followed by the Task rows of the records that have a
    title, in the order of the input. *)
Theorem flat_export_converts (inc : bool) (depth : nat) (file : input_file)
    (output_dir : option str) (tasks : list row) :
  read_ticktick_csv file = Ok tasks ->
  Forall (fun t => length t = 24) tasks ->
  Forall (fun t => parent_id t = []) tasks ->
  NoDup (map task_id tasks) ->
  length tasks <= 300 ->
  (inc = true -> Forall (fun t => py_int (nth 11 t []) <> None) tasks) ->
  fst (convert py_int inc (S depth) file output_dir)
  = Ok [path_join (target_dir file output_dir) (lit "todoist_import.csv")] /\
  In (WriteFile
        (path_join (target_dir file output_dir) (lit "todoist_import.csv"))
        (TODOIST_HEADER :: flat_map (root_task_rows py_int inc) tasks))
     (snd (convert py_int inc (S depth) file output_dir)).
Proof.
  intros Hr Hfields Hroots Hids Hn Hint.
  rewrite convert_stages, Hr. cbv zeta.
  pose proof (calculate_indents_flat tasks depth Hfields Hroots Hids) as Ec.
  destruct (calculate_indents (S depth) tasks) as [indents|e|];
    try discriminate.
  injection Ec as ->.
  pose proof (sort_flat tasks Hfields Hids) as Es.
  match goal with |- context [sort_by ?key tasks] =>
    destruct (sort_by key tasks) as [sorted|e|] end; try discriminate.
  injection Es as ->.
  assert (Esp : split_tasks_into_chunks tasks = Ok [tasks]).
  { unfold split_tasks_into_chunks. change TASKS_PER_PROJECT with 300.
    apply Nat.leb_le in Hn. now rewrite Hn. }
  destruct (split_tasks_into_chunks tasks) as [chunks|e|]; try discriminate.
  injection Esp as ->.
  cbn [length seq combine io_mapM fst snd].
  assert (Hloop : fst (io_mapM (convert_task py_int inc (flat_index tasks))
                         tasks)
                  = Ok (map (root_task_rows py_int inc) tasks)).
  { apply io_mapM_fst_map. intros t Ht.
    rewrite Forall_forall in Hfields.
    apply convert_task_flat; auto.
    intros Hi. specialize (Hint Hi). rewrite Forall_forall in Hint. auto. }
  rewrite io_bind_fst, io_bind_snd.
  unfold convert_chunk at 1 2 3.
  rewrite !io_bind_fst, !io_bind_snd, Hloop.
  cbn [fst snd emit io_ret io_bind].
  split; [reflexivity|].
  apply in_or_app. right. apply in_or_app. left.
  apply in_or_app. right. left.
  rewrite flat_map_concat_map. reflexivity.
Qed.

End FlatRun.

Lemma flat_export_converts_witness :
  fst (convert int_ascii true 1
         (Examples.export_of [Examples.untitled; Examples.milk]) None)
  = Ok [path_join
          (target_dir (Examples.export_of [Examples.untitled; Examples.milk])
             None)
          (lit "todoist_import.csv")] /\
  In (WriteFile
        (path_join
           (target_dir (Examples.export_of [Examples.untitled; Examples.milk])
              None)
           (lit "todoist_import.csv"))
        (TODOIST_HEADER
           :: flat_map (root_task_rows int_ascii true)
                [Examples.untitled; Examples.milk]))
     (snd (convert int_ascii true 1
             (Examples.export_of [Examples.untitled; Examples.milk]) None)).
Proof.
  apply (flat_export_converts int_ascii true 0
           (Examples.export_of [Examples.untitled; Examples.milk]) None
           [Examples.untitled; Examples.milk]).
  - reflexivity.
  - repeat constructor.
  - repeat constructor.
  - repeat constructor; simpl; intuition discriminate.
  - simpl. lia.
  - intros _. repeat constructor; vm_compute; discriminate.
Defined.
